(** * Ticket resale backend: trust, rating and access-guard subsystem

    A shallow embedding of the FastAPI / SQLAlchemy backend
    (models/*.py, routes/auth.py, routes/listings.py, routes/messages.py,
    routes/users.py) together with the properties of its specification.

    Modelling conventions.
    - A table is the list of its rows in insertion order; the primary key
      of a new row is drawn from the table's sequence.
    - A request handler is a function from the committed database to a
      response and the committed database it leaves behind.  Attribute
      assignments on ORM objects are local until [db.commit()]; a handler
      that raises before committing leaves the rows as it found them
      (the session is closed by [get_db]), and so does a commit that the
      storage layer refuses, except that the key an INSERT drew from a
      sequence stays drawn.
    - [datetime.utcnow()] and [date.today()] are supplied by the caller,
      and so is the order in which the storage engine returns the rows
      of a conversation that [order_by] leaves unordered.
    - Python integers are [Z]; floats and SQL numerics are idealised as
      rationals [Q]; a [str] is its UTF-8 encoding.
    - A numeric column keeps a value as PostgreSQL stores it:
      [UserProfile.average_rating] ([Integer]) and [Listing.price]
      ([Numeric(10, 2)]) round, and a quantity outside the range of
      [Integer] is refused (DataError).  Texts are taken to fit their
      [String(n)] columns; a price is taken to fit the ten digits of its
      column in [update_listing], and [create_listing] is modelled with
      the refusal of a price that does not. *)

From Stdlib Require Import ZArith QArith Qround List String Bool Lia Lqa.
From Stdlib Require Import Sorted Permutation DecimalString.
Import ListNotations.

Open Scope Z_scope.

(** ** HTTP layer *)

Definition HTTP_400_BAD_REQUEST : Z := 400.
Definition HTTP_401_UNAUTHORIZED : Z := 401.
Definition HTTP_403_FORBIDDEN : Z := 403.
Definition HTTP_404_NOT_FOUND : Z := 404.

Record HTTPException : Type := mkHTTPException
  { status_code : Z; detail : string }.

(** What a request ends in: the handler returns a value, raises an
    [HTTPException], or an exception of the storage layer escapes and is
    answered with HTTP 500: sqlalchemy.exc.IntegrityError when a
    constraint of a table is violated, sqlalchemy.exc.DataError when a
    value does not fit the type of its column. *)
Inductive response (A : Type) : Type :=
| Returned (a : A)
| Raised (e : HTTPException)
| IntegrityError
| DataError.

Arguments Returned {A} a.
Arguments Raised {A} e.
Arguments IntegrityError {A}.
Arguments DataError {A}.

Definition raise {A} (code : Z) (msg : string) : response A :=
  Raised (mkHTTPException code msg).

(** [fails_with r code]: the request was refused with that status code. *)
Definition fails_with {A} (r : response A) (code : Z) : Prop :=
  exists msg, r = Raised (mkHTTPException code msg).

Definition succeeded {A} (r : response A) : bool :=
  match r with Returned _ => true | _ => false end.

(** ** Models (models/user.py, listing.py, message.py, review.py,
       seller_proof.py) *)

Module User.
Record t : Type := mk
  { id : Z;
    username : string;
    email : string;
    password_hash : string;
    is_verified : bool;
    created_at : Z;
    updated_at : Z }.
End User.

Module UserProfile.
(** [average_rating] is declared [Column(Integer, default=0)]. *)
Record t : Type := mk
  { id : Z;
    user_id : Z;
    bio : option string;
    profile_picture_url : option string;
    total_sales : Z;
    is_verified_seller : bool;
    average_rating : Z;
    created_at : Z;
    updated_at : Z }.
End UserProfile.

Module Listing.
Record t : Type := mk
  { id : Z;
    seller_id : Z;
    artist_name : string;
    concert_date : Z;
    venue_name : string;
    section : option string;
    row : option string;
    seat_number : option string;
    price : Q;
    quantity_available : Z;
    description : option string;
    is_available : bool;
    created_at : Z;
    updated_at : Z }.
End Listing.

Module Message.
Record t : Type := mk
  { id : Z;
    sender_id : Z;
    receiver_id : Z;
    listing_id : option Z;
    message_text : string;
    is_read : bool;
    created_at : Z }.

Definition set_is_read (b : bool) (m : t) : t :=
  mk (id m) (sender_id m) (receiver_id m) (listing_id m)
     (message_text m) b (created_at m).
End Message.

Module Review.
Record t : Type := mk
  { id : Z;
    reviewer_id : Z;
    reviewed_user_id : Z;
    listing_id : option Z;
    rating : Z;
    comment : option string;
    created_at : Z }.
End Review.

Module SellerProof.
Record t : Type := mk
  { id : Z;
    seller_id : Z;
    proof_image_url : string;
    description : option string;
    created_at : Z }.
End SellerProof.

(** ** The relational store *)

Record Database : Type := mkDatabase
  { users : list User.t;
    user_profiles : list UserProfile.t;
    listings : list Listing.t;
    messages : list Message.t;
    reviews : list Review.t;
    seller_proof : list SellerProof.t;
    users_id_seq : Z;
    user_profiles_id_seq : Z;
    listings_id_seq : Z;
    messages_id_seq : Z;
    reviews_id_seq : Z;
    seller_proof_id_seq : Z }.

Definition empty_db : Database :=
  mkDatabase [] [] [] [] [] [] 0 0 0 0 0 0.

Definition with_users (us : list User.t) (s : Z) (db : Database) :=
  mkDatabase us (user_profiles db) (listings db) (messages db) (reviews db)
    (seller_proof db) s (user_profiles_id_seq db) (listings_id_seq db)
    (messages_id_seq db) (reviews_id_seq db) (seller_proof_id_seq db).

Definition with_user_profiles (ps : list UserProfile.t) (s : Z) (db : Database) :=
  mkDatabase (users db) ps (listings db) (messages db) (reviews db)
    (seller_proof db) (users_id_seq db) s (listings_id_seq db)
    (messages_id_seq db) (reviews_id_seq db) (seller_proof_id_seq db).

Definition with_listings (ls : list Listing.t) (s : Z) (db : Database) :=
  mkDatabase (users db) (user_profiles db) ls (messages db) (reviews db)
    (seller_proof db) (users_id_seq db) (user_profiles_id_seq db) s
    (messages_id_seq db) (reviews_id_seq db) (seller_proof_id_seq db).

Definition with_messages (ms : list Message.t) (s : Z) (db : Database) :=
  mkDatabase (users db) (user_profiles db) (listings db) ms (reviews db)
    (seller_proof db) (users_id_seq db) (user_profiles_id_seq db)
    (listings_id_seq db) s (reviews_id_seq db) (seller_proof_id_seq db).

Definition with_reviews (rs : list Review.t) (s : Z) (db : Database) :=
  mkDatabase (users db) (user_profiles db) (listings db) (messages db) rs
    (seller_proof db) (users_id_seq db) (user_profiles_id_seq db)
    (listings_id_seq db) (messages_id_seq db) s (seller_proof_id_seq db).

Definition with_seller_proof (ps : list SellerProof.t) (s : Z) (db : Database) :=
  mkDatabase (users db) (user_profiles db) (listings db) (messages db)
    (reviews db) ps (users_id_seq db) (user_profiles_id_seq db)
    (listings_id_seq db) (messages_id_seq db) (reviews_id_seq db) s.

(** [db.query(X).filter(X.id == i).first()] *)
Definition query_user (i : Z) (db : Database) : option User.t :=
  find (fun u => User.id u =? i) (users db).

Definition query_profile_of (uid : Z) (db : Database) : option UserProfile.t :=
  find (fun p => UserProfile.user_id p =? uid) (user_profiles db).

Definition query_listing (i : Z) (db : Database) : option Listing.t :=
  find (fun l => Listing.id l =? i) (listings db).

Definition query_message (i : Z) (db : Database) : option Message.t :=
  find (fun m => Message.id m =? i) (messages db).

(** Python truthiness of an [Optional[int]]: [None] and [0] are falsy. *)
Definition truthy (o : option Z) : bool :=
  match o with
  | Some i => negb (i =? 0)
  | None => false
  end.

(** The foreign key [listing_id -> listings.id] of [messages] and [reviews]
    as the storage engine checks it when a row is inserted.  A row that
    violates a constraint is not stored, but the key it drew from the
    sequence of its table is spent: a sequence is not rolled back. *)
Definition fk_listing_ok (o : option Z) (db : Database) : bool :=
  match o with
  | Some i => match query_listing i db with Some _ => true | None => false end
  | None => true
  end.

(** ** routes/listings.py *)

Record ListingCreateRequest : Type := mkListingCreateRequest
  { lc_artist_name : string;
    lc_concert_date : Z;
    lc_venue_name : string;
    lc_section : option string;
    lc_row : option string;
    lc_seat_number : option string;
    lc_price : Q;
    lc_quantity_available : Z;
    lc_description : option string }.

Record ListingUpdateRequest : Type := mkListingUpdateRequest
  { lu_price : option Q;
    lu_quantity_available : option Z;
    lu_description : option string;
    lu_is_available : option bool }.

(** What a column of type [Numeric(10, 2)] keeps of a value: PostgreSQL
    rounds to two decimals, halves away from zero, and refuses a result of
    more than ten digits (10^8 and beyond). *)
Definition round_half_away (q : Q) : Z :=
  if Qle_bool 0 q then Qfloor (q + (1 # 2)) else Qceiling (q - (1 # 2)).

Definition round_to_cents (q : Q) : Q := round_half_away (q * 100) # 100.

Definition numeric_10_2_ok (q : Q) : bool :=
  Z.abs (round_half_away (q * 100)) <? 10000000000.

(** The range of a column of type [Integer] (int4). *)
Definition int4_ok (i : Z) : bool :=
  (-2147483648 <=? i) && (i <=? 2147483647).

(** The values are literals of the INSERT statement: one that does not
    fit its column is refused (DataError) before a row is formed, so that
    no key is drawn from the sequence. *)
Definition create_listing (today now : Z) (request : ListingCreateRequest)
    (current_user : User.t) (db : Database) : response Listing.t * Database :=
  if lc_concert_date request <=? today then
    (raise HTTP_400_BAD_REQUEST "Concert date must be in the future", db)
  else if Qle_bool (lc_price request) 0 then
    (raise HTTP_400_BAD_REQUEST "Price must be greater than 0", db)
  else if lc_quantity_available request <=? 0 then
    (raise HTTP_400_BAD_REQUEST "Quantity must be at least 1", db)
  else if negb (numeric_10_2_ok (lc_price request)
                && int4_ok (lc_quantity_available request)) then
    (DataError, db)
  else
    let new_id := listings_id_seq db + 1 in
    let new_listing :=
      Listing.mk new_id (User.id current_user) (lc_artist_name request)
        (lc_concert_date request) (lc_venue_name request)
        (lc_section request) (lc_row request) (lc_seat_number request)
        (round_to_cents (lc_price request)) (lc_quantity_available request)
        (lc_description request) true now now in
    (Returned new_listing,
     with_listings (listings db ++ [new_listing]) new_id db).

(** The attribute assignments of [update_listing] as they reach the row:
    the price is rounded to the scale of its column. *)
Definition apply_listing_update (request : ListingUpdateRequest) (now : Z)
    (listing : Listing.t) : Listing.t :=
  Listing.mk (Listing.id listing) (Listing.seller_id listing)
    (Listing.artist_name listing) (Listing.concert_date listing)
    (Listing.venue_name listing) (Listing.section listing)
    (Listing.row listing) (Listing.seat_number listing)
    (match lu_price request with
     | Some p => round_to_cents p | None => Listing.price listing end)
    (match lu_quantity_available request with
     | Some q => q | None => Listing.quantity_available listing end)
    (match lu_description request with
     | Some d => Some d | None => Listing.description listing end)
    (match lu_is_available request with
     | Some b => b | None => Listing.is_available listing end)
    (Listing.created_at listing) now.

(** The statement a commit issues for a dirty object:
    UPDATE <table> SET <assigned columns> WHERE id = <primary key>. *)
Definition update_where_id {A} (id_of : A -> Z) (i : Z) (f : A -> A)
    (rows : list A) : list A :=
  map (fun r => if id_of r =? i then f r else r) rows.

(** The UPDATE is refused (DataError) for a quantity outside the range of
    its [Integer] column. *)
Definition update_listing (now : Z) (listing_id : Z)
    (request : ListingUpdateRequest) (current_user : User.t)
    (db : Database) : response Listing.t * Database :=
  match query_listing listing_id db with
  | None => (raise HTTP_404_NOT_FOUND "Listing not found", db)
  | Some listing =>
    if negb (Listing.seller_id listing =? User.id current_user) then
      (raise HTTP_403_FORBIDDEN "You can only update your own listings", db)
    else if match lu_price request with
            | Some p => Qle_bool p 0
            | None => false
            end then
      (raise HTTP_400_BAD_REQUEST "Price must be greater than 0", db)
    else if match lu_quantity_available request with
            | Some q => q <? 0
            | None => false
            end then
      (raise HTTP_400_BAD_REQUEST "Quantity cannot be negative", db)
    else if match lu_quantity_available request with
            | Some q => negb (int4_ok q)
            | None => false
            end then
      (DataError, db)
    else
      (Returned (apply_listing_update request now listing),
       with_listings
         (update_where_id Listing.id (Listing.id listing)
            (apply_listing_update request now) (listings db))
         (listings_id_seq db) db)
  end.

(** [db.delete(listing)]: the relationships [Listing.messages] and
    [Listing.reviews] carry cascade="all, delete-orphan". *)
Definition refers_to (i : Z) (o : option Z) : bool :=
  match o with Some j => j =? i | None => false end.

Definition delete_listing (listing_id : Z) (current_user : User.t)
    (db : Database) : response unit * Database :=
  match query_listing listing_id db with
  | None => (raise HTTP_404_NOT_FOUND "Listing not found", db)
  | Some listing =>
    if negb (Listing.seller_id listing =? User.id current_user) then
      (raise HTTP_403_FORBIDDEN "You can only delete your own listings", db)
    else
      let i := Listing.id listing in
      (Returned tt,
       mkDatabase (users db) (user_profiles db)
         (filter (fun l => negb (Listing.id l =? i)) (listings db))
         (filter (fun m => negb (refers_to i (Message.listing_id m))) (messages db))
         (filter (fun r => negb (refers_to i (Review.listing_id r))) (reviews db))
         (seller_proof db) (users_id_seq db) (user_profiles_id_seq db)
         (listings_id_seq db) (messages_id_seq db) (reviews_id_seq db)
         (seller_proof_id_seq db))
  end.

(** ** routes/messages.py *)

Record MessageCreateRequest : Type := mkMessageCreateRequest
  { mc_receiver_id : Z;
    mc_message_text : string;
    mc_listing_id : option Z }.

(** A [str] is kept as its UTF-8 encoding, one [ascii] per byte.
    [str.strip()] leaves nothing exactly when every character is white
    space in the sense of [str.isspace]: U+0009..U+000D, U+001C..U+0020,
    U+0085, U+00A0, U+1680, U+2000..U+200A, U+2028, U+2029, U+202F, U+205F
    and U+3000. *)
Definition byte (c : Ascii.ascii) : Z := Z.of_nat (Ascii.nat_of_ascii c).

(** One-byte characters: TAB..CR, FS..US and SPACE. *)
Definition is_space (c : Ascii.ascii) : bool :=
  ((9 <=? byte c) && (byte c <=? 13)) || ((28 <=? byte c) && (byte c <=? 32)).

(** Two-byte characters: U+0085 (C2 85) and U+00A0 (C2 A0). *)
Definition is_space2 (c1 c2 : Ascii.ascii) : bool :=
  (byte c1 =? 194) && ((byte c2 =? 133) || (byte c2 =? 160)).

(** Three-byte characters: U+1680 (E1 9A 80), U+2000..U+200A (E2 80
    80..8A), U+2028, U+2029, U+202F (E2 80 A8, A9, AF), U+205F (E2 81 9F)
    and U+3000 (E3 80 80). *)
Definition is_space3 (c1 c2 c3 : Ascii.ascii) : bool :=
  ((byte c1 =? 225) && (byte c2 =? 154) && (byte c3 =? 128))
  || ((byte c1 =? 226) && (byte c2 =? 128)
      && (((128 <=? byte c3) && (byte c3 <=? 138))
          || (byte c3 =? 168) || (byte c3 =? 169) || (byte c3 =? 175)))
  || ((byte c1 =? 226) && (byte c2 =? 129) && (byte c3 =? 159))
  || ((byte c1 =? 227) && (byte c2 =? 128) && (byte c3 =? 128)).

Fixpoint strip_is_empty (s : string) : bool :=
  match s with
  | EmptyString => true
  | String c1 s1 =>
    if is_space c1 then strip_is_empty s1
    else
      match s1 with
      | EmptyString => false
      | String c2 s2 =>
        if is_space2 c1 c2 then strip_is_empty s2
        else
          match s2 with
          | EmptyString => false
          | String c3 s3 =>
            if is_space3 c1 c2 c3 then strip_is_empty s3 else false
          end
      end
  end.

Definition send_message (now : Z) (request : MessageCreateRequest)
    (current_user : User.t) (db : Database) : response Message.t * Database :=
  if mc_receiver_id request =? User.id current_user then
    (raise HTTP_400_BAD_REQUEST "Cannot send message to yourself", db)
  else
    match query_user (mc_receiver_id request) db with
    | None => (raise HTTP_404_NOT_FOUND "Receiver not found", db)
    | Some _ =>
      if truthy (mc_listing_id request)
         && negb (fk_listing_ok (mc_listing_id request) db) then
        (raise HTTP_404_NOT_FOUND "Listing not found", db)
      else if strip_is_empty (mc_message_text request) then
        (raise HTTP_400_BAD_REQUEST "Message cannot be empty", db)
      else if negb (fk_listing_ok (mc_listing_id request) db) then
        (IntegrityError,
         with_messages (messages db) (messages_id_seq db + 1) db)
      else
        let new_id := messages_id_seq db + 1 in
        let new_message :=
          Message.mk new_id (User.id current_user) (mc_receiver_id request)
            (mc_listing_id request) (mc_message_text request) false now in
        (Returned new_message,
         with_messages (messages db ++ [new_message]) new_id db)
    end.

Definition between (me other : Z) (m : Message.t) : bool :=
  ((Message.sender_id m =? me) && (Message.receiver_id m =? other))
  || ((Message.sender_id m =? other) && (Message.receiver_id m =? me)).

Definition unread_from (other me : Z) (m : Message.t) : bool :=
  (Message.sender_id m =? other) && (Message.receiver_id m =? me)
  && negb (Message.is_read m).

(** UPDATE messages SET is_read = true WHERE id = ?, once per dirty object. *)
Definition flush_is_read (dirty : list Message.t) (rows : list Message.t) :=
  fold_left
    (fun rows' msg =>
       update_where_id Message.id (Message.id msg) (Message.set_is_read true) rows')
    dirty rows.

(** After [db.commit()] every loaded object is expired; reading one of its
    attributes reloads the row with its primary key. *)
Definition reload (db : Database) (m : Message.t) : Message.t :=
  match query_message (Message.id m) db with
  | Some m' => m'
  | None => m
  end.

(** [order_by(Message.created_at.asc())] fixes the order of the result up
    to the rows of equal [created_at]; in what order those come back is
    left to the storage engine and may differ from one query to the next.
    [order_by_created_at] is the ordering the engine applies to this
    query. *)
Definition get_conversation
    (order_by_created_at : list Message.t -> list Message.t)
    (other_user_id : Z) (current_user : User.t)
    (db : Database) : response (list Message.t) * Database :=
  match query_user other_user_id db with
  | None => (raise HTTP_404_NOT_FOUND "User not found", db)
  | Some _ =>
    let me := User.id current_user in
    let msgs :=
      order_by_created_at (filter (between me other_user_id) (messages db)) in
    let unread_messages := filter (unread_from other_user_id me) (messages db) in
    let db' :=
      with_messages (flush_is_read unread_messages (messages db))
        (messages_id_seq db) db in
    (Returned (map (reload db') msgs), db')
  end.

Definition get_message (message_id : Z) (current_user : User.t)
    (db : Database) : response Message.t * Database :=
  match query_message message_id db with
  | None => (raise HTTP_404_NOT_FOUND "Message not found", db)
  | Some message =>
    let me := User.id current_user in
    if negb (Message.sender_id message =? me)
       && negb (Message.receiver_id message =? me) then
      (raise HTTP_403_FORBIDDEN "You can only view your own messages", db)
    else if (Message.receiver_id message =? me)
            && negb (Message.is_read message) then
      let db' :=
        with_messages
          (update_where_id Message.id (Message.id message)
             (Message.set_is_read true) (messages db))
          (messages_id_seq db) db in
      (Returned (reload db' message), db')
    else (Returned message, db)
  end.

Definition mark_as_read (message_id : Z) (current_user : User.t)
    (db : Database) : response Message.t * Database :=
  match query_message message_id db with
  | None => (raise HTTP_404_NOT_FOUND "Message not found", db)
  | Some message =>
    if negb (Message.receiver_id message =? User.id current_user) then
      (raise HTTP_403_FORBIDDEN "Only receiver can mark message as read", db)
    else
      let db' :=
        with_messages
          (update_where_id Message.id (Message.id message)
             (Message.set_is_read true) (messages db))
          (messages_id_seq db) db in
      (Returned (reload db' message), db')
  end.

Definition delete_message (message_id : Z) (current_user : User.t)
    (db : Database) : response unit * Database :=
  match query_message message_id db with
  | None => (raise HTTP_404_NOT_FOUND "Message not found", db)
  | Some message =>
    let me := User.id current_user in
    if negb (Message.sender_id message =? me)
       && negb (Message.receiver_id message =? me) then
      (raise HTTP_403_FORBIDDEN "You can only delete your own messages", db)
    else
      (Returned tt,
       with_messages
         (filter (fun m => negb (Message.id m =? Message.id message)) (messages db))
         (messages_id_seq db) db)
  end.

(** ** routes/auth.py *)

Record UserSignupRequest : Type := mkUserSignupRequest
  { su_username : string;
    su_email : string;
    su_password : string }.

Record TokenResponse : Type := mkTokenResponse
  { access_token : string;
    token_type : string;
    user : User.t }.

(** The dependency [get_current_user], after the bearer token has been
    decoded to the [user_id] of its payload ([None]: no or invalid token). *)
Definition get_current_user (token_user_id : option Z) (db : Database)
    : response User.t :=
  match token_user_id with
  | None => raise HTTP_401_UNAUTHORIZED "Could not validate credentials"
  | Some i =>
    match query_user i db with
    | None => raise HTTP_401_UNAUTHORIZED "Could not validate credentials"
    | Some u => Returned u
    end
  end.

(** INSERT INTO users: [username] and [email] are declared unique. *)
Definition users_unique_ok (u : User.t) (db : Database) : bool :=
  negb (existsb (fun x => String.eqb (User.username x) (User.username u)
                          || String.eqb (User.email x) (User.email u))
          (users db)).

(** INSERT INTO user_profiles: [user_id] is declared unique. *)
Definition profiles_unique_ok (uid : Z) (db : Database) : bool :=
  negb (existsb (fun p => UserProfile.user_id p =? uid) (user_profiles db)).

Section Credentials.

(** passlib's [pwd_context.hash] and jose's [jwt.encode] are taken as
    given; the second receives the user id and the clock. *)
Variable hash_password : string -> string.
Variable create_access_token : Z -> Z -> string.

Definition signup (now : Z) (request : UserSignupRequest) (db : Database)
    : response TokenResponse * Database :=
  match find (fun u => String.eqb (User.username u) (su_username request))
             (users db) with
  | Some _ => (raise HTTP_400_BAD_REQUEST "Username already taken", db)
  | None =>
    match find (fun u => String.eqb (User.email u) (su_email request))
               (users db) with
    | Some _ => (raise HTTP_400_BAD_REQUEST "Email already registered", db)
    | None =>
      let hashed_password := hash_password (su_password request) in
      let new_id := users_id_seq db + 1 in
      let new_user :=
        User.mk new_id (su_username request) (su_email request)
          hashed_password false now now in
      if negb (users_unique_ok new_user db) then
        (IntegrityError, with_users (users db) new_id db)
      else
        (* first commit: the user row *)
        let db1 := with_users (users db ++ [new_user]) new_id db in
        let pid := user_profiles_id_seq db1 + 1 in
        if negb (profiles_unique_ok new_id db1) then
          (IntegrityError, with_user_profiles (user_profiles db1) pid db1)
        else
          (* second commit: the profile row, all defaults *)
          let user_profile :=
            UserProfile.mk pid new_id None None 0 false 0 now now in
          let db2 :=
            with_user_profiles (user_profiles db1 ++ [user_profile]) pid db1 in
          (Returned
             (mkTokenResponse (create_access_token new_id now) "bearer" new_user),
           db2)
    end
  end.

End Credentials.

(** ** routes/users.py *)

Record UserProfileUpdateRequest : Type := mkUserProfileUpdateRequest
  { pu_bio : option string;
    pu_profile_picture_url : option string }.

Record ReviewCreateRequest : Type := mkReviewCreateRequest
  { rc_listing_id : option Z;
    rc_rating : Z;
    rc_comment : option string }.

Record SellerProofCreateRequest : Type := mkSellerProofCreateRequest
  { sp_proof_image_url : string;
    sp_description : option string }.

Definition apply_profile_update (request : UserProfileUpdateRequest) (now : Z)
    (p : UserProfile.t) : UserProfile.t :=
  UserProfile.mk (UserProfile.id p) (UserProfile.user_id p)
    (match pu_bio request with
     | Some b => Some b | None => UserProfile.bio p end)
    (match pu_profile_picture_url request with
     | Some u => Some u | None => UserProfile.profile_picture_url p end)
    (UserProfile.total_sales p) (UserProfile.is_verified_seller p)
    (UserProfile.average_rating p) (UserProfile.created_at p) now.

Definition update_user_profile (now : Z) (request : UserProfileUpdateRequest)
    (current_user : User.t) (db : Database)
    : response UserProfile.t * Database :=
  match query_profile_of (User.id current_user) db with
  | None => (raise HTTP_404_NOT_FOUND "Profile not found", db)
  | Some profile =>
    (Returned (apply_profile_update request now profile),
     with_user_profiles
       (update_where_id UserProfile.id (UserProfile.id profile)
          (apply_profile_update request now) (user_profiles db))
       (user_profiles_id_seq db) db)
  end.

Definition upload_seller_proof (now : Z) (request : SellerProofCreateRequest)
    (current_user : User.t) (db : Database)
    : response SellerProof.t * Database :=
  let new_id := seller_proof_id_seq db + 1 in
  let new_proof :=
    SellerProof.mk new_id (User.id current_user) (sp_proof_image_url request)
      (sp_description request) now in
  (Returned new_proof, with_seller_proof (seller_proof db ++ [new_proof]) new_id db).

(** The reviews received by a user, and their ratings. *)
Definition reviews_of (user_id : Z) (db : Database) : list Review.t :=
  filter (fun r => Review.reviewed_user_id r =? user_id) (reviews db).

Definition ratings_of (user_id : Z) (db : Database) : list Z :=
  map Review.rating (reviews_of user_id db).

Definition sum_Z (xs : list Z) : Z := fold_right Z.add 0 xs.

(** SQL [avg]: NULL over no rows, else the sum over the count. *)
Definition func_avg (xs : list Z) : option Q :=
  match xs with
  | [] => None
  | _ :: _ => Some (inject_Z (sum_Z xs) / inject_Z (Z.of_nat (List.length xs)))%Q
  end.

(** [float(avg_rating) if avg_rating else 0]: [None] and zero are falsy. *)
Definition float_or_zero (avg_rating : option Q) : Q :=
  match avg_rating with
  | Some a => if Qeq_bool a 0 then 0%Q else a
  | None => 0%Q
  end.

(** What an [Integer] column keeps of a non-integral value: PostgreSQL's
    assignment cast from numeric to integer rounds to the nearest integer,
    halves away from zero. *)
Definition int4_of_numeric (q : Q) : Z :=
  if Qle_bool 0 q then Qfloor (q + (1 # 2)) else Qceiling (q - (1 # 2)).

(** The attribute assignments of [update_seller_rating] as they reach the
    row: the threshold is tested on the value just computed. *)
Definition apply_rating (average_rating : Q) (review_count : Z) (now : Z)
    (p : UserProfile.t) : UserProfile.t :=
  UserProfile.mk (UserProfile.id p) (UserProfile.user_id p)
    (UserProfile.bio p) (UserProfile.profile_picture_url p)
    (UserProfile.total_sales p)
    (if (5 <=? review_count) && Qle_bool (9 # 2) average_rating
     then true else UserProfile.is_verified_seller p)
    (int4_of_numeric average_rating)
    (UserProfile.created_at p) now.

Definition update_seller_rating (now : Z) (user_id : Z) (db : Database)
    : Database :=
  let avg_rating := func_avg (ratings_of user_id db) in
  match query_profile_of user_id db with
  | None => db
  | Some profile =>
    let average_rating := float_or_zero avg_rating in
    let review_count := Z.of_nat (List.length (reviews_of user_id db)) in
    with_user_profiles
      (update_where_id UserProfile.id (UserProfile.id profile)
         (apply_rating average_rating review_count now) (user_profiles db))
      (user_profiles_id_seq db) db
  end.

Definition create_review (now : Z) (user_id : Z) (request : ReviewCreateRequest)
    (current_user : User.t) (db : Database) : response Review.t * Database :=
  if user_id =? User.id current_user then
    (raise HTTP_400_BAD_REQUEST "Cannot review yourself", db)
  else if (rc_rating request <? 1) || (5 <? rc_rating request) then
    (raise HTTP_400_BAD_REQUEST "Rating must be between 1 and 5", db)
  else
    match query_user user_id db with
    | None => (raise HTTP_404_NOT_FOUND "Seller not found", db)
    | Some _ =>
      if truthy (rc_listing_id request)
         && negb (fk_listing_ok (rc_listing_id request) db) then
        (raise HTTP_404_NOT_FOUND "Listing not found", db)
      else if negb (fk_listing_ok (rc_listing_id request) db) then
        (IntegrityError,
         with_reviews (reviews db) (reviews_id_seq db + 1) db)
      else
        let new_id := reviews_id_seq db + 1 in
        let new_review :=
          Review.mk new_id (User.id current_user) user_id
            (rc_listing_id request) (rc_rating request) (rc_comment request)
            now in
        let db1 := with_reviews (reviews db ++ [new_review]) new_id db in
        (Returned new_review, update_seller_rating now user_id db1)
    end.

(** ** Read-only endpoints *)

Definition HTTP_422_UNPROCESSABLE_ENTITY : Z := 422.

(** [order_by(...)]: a stable insertion sort; [before a b] tells that [a]
    may stand in front of [b].  Rows of equal key stay in the order of
    the table here, where the storage engine is free; what is stated
    about the endpoints below holds for every order of such rows. *)
Fixpoint insert_sorted {A} (before : A -> A -> bool) (a : A) (l : list A)
    : list A :=
  match l with
  | [] => [a]
  | x :: t => if before a x then a :: x :: t else x :: insert_sorted before a t
  end.

Definition order_by {A} (before : A -> A -> bool) (l : list A) : list A :=
  fold_right (insert_sorted before) [] l.

Definition asc {A} (key : A -> Z) (a b : A) : bool := key a <=? key b.
Definition desc {A} (key : A -> Z) (a b : A) : bool := key b <=? key a.

(** [.offset(skip).limit(limit)] *)
Definition offset_limit {A} (skip limit : Z) (l : list A) : list A :=
  firstn (Z.to_nat limit) (skipn (Z.to_nat skip) l).

(** The declaration [Query(default, ge=lo, le=hi)] of a query parameter:
    FastAPI answers 422 before the handler runs when the bound fails. *)
Definition query_params_ok (skip limit max_limit : Z) : bool :=
  (0 <=? skip) && (1 <=? limit) && (limit <=? max_limit).

(** *** routes/listings.py *)

(** [f"{listing_id}"]: the decimal digits of an integer. *)
Definition format_int (i : Z) : string := NilZero.string_of_int (Z.to_int i).

Definition get_listing (listing_id : Z) (db : Database) : response Listing.t :=
  match query_listing listing_id db with
  | None =>
    raise HTTP_404_NOT_FOUND ("Listing " ++ format_int listing_id ++ " not found")
  | Some listing => Returned listing
  end.

Definition get_seller_listings (seller_id : Z) (db : Database)
    : response (list Listing.t) :=
  match query_user seller_id db with
  | None => raise HTTP_404_NOT_FOUND "Seller not found"
  | Some _ =>
    Returned
      (order_by (asc Listing.concert_date)
         (filter (fun l => (Listing.seller_id l =? seller_id)
                           && Listing.is_available l)
            (listings db)))
  end.

(** *** routes/messages.py *)

Definition involves (me : Z) (m : Message.t) : bool :=
  (Message.sender_id m =? me) || (Message.receiver_id m =? me).

Definition unread_for (me : Z) (m : Message.t) : bool :=
  (Message.receiver_id m =? me) && negb (Message.is_read m).

Definition get_all_messages (unread_only : bool) (skip limit : Z)
    (current_user : User.t) (db : Database) : response (list Message.t) :=
  if negb (query_params_ok skip limit 100) then
    raise HTTP_422_UNPROCESSABLE_ENTITY "Invalid query parameter"
  else
    let me := User.id current_user in
    let query := filter (involves me) (messages db) in
    let query := if unread_only then filter (unread_for me) query else query in
    Returned (offset_limit skip limit (order_by (desc Message.created_at) query)).

Definition get_unread_count (current_user : User.t) (db : Database) : Z :=
  Z.of_nat (List.length (filter (unread_for (User.id current_user)) (messages db))).

(** *** routes/auth.py *)

Record UserLoginRequest : Type := mkUserLoginRequest
  { lg_email : string;
    lg_password : string }.

Section Login.

(** passlib's [pwd_context.verify] and jose's [jwt.encode], as given. *)
Variable verify_password : string -> string -> bool.
Variable create_access_token : Z -> Z -> string.

Definition login (now : Z) (request : UserLoginRequest) (db : Database)
    : response TokenResponse :=
  match find (fun u => String.eqb (User.email u) (lg_email request)) (users db) with
  | None => raise HTTP_401_UNAUTHORIZED "Invalid email or password"
  | Some user =>
    if negb (verify_password (lg_password request) (User.password_hash user)) then
      raise HTTP_401_UNAUTHORIZED "Invalid email or password"
    else
      Returned (mkTokenResponse (create_access_token (User.id user) now)
                  "bearer" user)
  end.

End Login.

(** *** routes/users.py *)

Record UserPublicProfileResponse : Type := mkUserPublicProfileResponse
  { pp_id : Z;
    pp_username : string;
    pp_bio : option string;
    pp_profile_picture_url : option string;
    pp_total_sales : Z;
    pp_average_rating : Z;
    pp_is_verified_seller : bool;
    pp_created_at : Z }.

Record ReviewResponse : Type := mkReviewResponse
  { rr_id : Z;
    rr_reviewer_id : Z;
    rr_reviewer_username : string;
    rr_rating : Z;
    rr_comment : option string;
    rr_created_at : Z }.

Definition get_user_profile (user_id : Z) (db : Database)
    : response UserPublicProfileResponse :=
  match query_user user_id db with
  | None => raise HTTP_404_NOT_FOUND "User not found"
  | Some u =>
    match query_profile_of user_id db with
    | None => raise HTTP_404_NOT_FOUND "User profile not found"
    | Some profile =>
      Returned
        (mkUserPublicProfileResponse (User.id u) (User.username u)
           (UserProfile.bio profile) (UserProfile.profile_picture_url profile)
           (UserProfile.total_sales profile) (UserProfile.average_rating profile)
           (UserProfile.is_verified_seller profile) (User.created_at u))
    end
  end.

Definition get_current_user_profile (current_user : User.t) (db : Database)
    : response UserProfile.t :=
  match query_profile_of (User.id current_user) db with
  | None => raise HTTP_404_NOT_FOUND "Profile not found"
  | Some profile => Returned profile
  end.

Definition review_response (db : Database) (review : Review.t) : ReviewResponse :=
  mkReviewResponse (Review.id review) (Review.reviewer_id review)
    (match query_user (Review.reviewer_id review) db with
     | Some reviewer => User.username reviewer
     | None => "Unknown"
     end)
    (Review.rating review) (Review.comment review) (Review.created_at review).

Definition get_user_reviews (user_id skip limit : Z) (db : Database)
    : response (list ReviewResponse) :=
  if negb (query_params_ok skip limit 50) then
    raise HTTP_422_UNPROCESSABLE_ENTITY "Invalid query parameter"
  else
    match query_user user_id db with
    | None => raise HTTP_404_NOT_FOUND "User not found"
    | Some _ =>
      let reviews :=
        offset_limit skip limit
          (order_by (desc Review.created_at) (reviews_of user_id db)) in
      Returned (map (review_response db) reviews)
    end.

Definition get_seller_proof (user_id : Z) (db : Database)
    : response (list SellerProof.t) :=
  match query_user user_id db with
  | None => raise HTTP_404_NOT_FOUND "User not found"
  | Some _ =>
    Returned
      (order_by (desc SellerProof.created_at)
         (filter (fun p => SellerProof.seller_id p =? user_id) (seller_proof db)))
  end.

(** *** routes/messages.py: the inbox *)

Record ConversationSummary : Type := mkConversationSummary
  { cs_user_id : Z;
    cs_username : string;
    cs_last_message : string;
    cs_last_message_time : option Z;
    cs_unread_count : Z }.

(** A request that ends in an exception no handler catches. *)
Inductive unhandled (A : Type) : Type :=
| Done (a : A)
| AttributeError.

Arguments Done {A} a.
Arguments AttributeError {A}.

(** [datetime.min], in seconds before the epoch. *)
Definition datetime_min : Z := -62135596800.

(** The ids added to [user_ids], in the order of the [add] calls. *)
Definition counterparties (me : Z) (rows : list Message.t) : list Z :=
  flat_map
    (fun m =>
       (if negb (Message.sender_id m =? me) then [Message.sender_id m] else [])
       ++ (if negb (Message.receiver_id m =? me) then [Message.receiver_id m] else []))
    (filter (involves me) rows).

(** The dictionary appended for one counterparty. *)
Definition summary_row (me : Z) (db : Database) (user_id : Z)
    (other_user : User.t) : ConversationSummary :=
  let last_message :=
    hd_error (order_by (desc Message.created_at)
                (filter (between me user_id) (messages db))) in
  let unread_count :=
    Z.of_nat (List.length (filter (unread_from user_id me) (messages db))) in
  mkConversationSummary user_id (User.username other_user)
    (match last_message with
     | Some m => Message.message_text m
     | None => ""
     end)
    (option_map Message.created_at last_message)
    unread_count.

(** The loop over [user_ids]: [other_user.username] fails on [None]. *)
Fixpoint summaries (me : Z) (db : Database) (user_ids : list Z)
    : unhandled (list ConversationSummary) :=
  match user_ids with
  | [] => Done []
  | user_id :: rest =>
    match query_user user_id db with
    | None => AttributeError
    | Some other_user =>
      match summaries me db rest with
      | Done conversations =>
        Done (summary_row me db user_id other_user :: conversations)
      | AttributeError => AttributeError
      end
    end
  end.

(** [x["last_message_time"] or datetime.min] *)
Definition sort_key (c : ConversationSummary) : Z :=
  match cs_last_message_time c with
  | Some t => t
  | None => datetime_min
  end.

Section Inbox.

(** The iteration order of a Python [set], given the elements in the order
    they were added: some enumeration of them without repetition. *)
Variable set_iteration : list Z -> list Z.

Definition get_conversations_list (current_user : User.t) (db : Database)
    : unhandled (list ConversationSummary) :=
  let me := User.id current_user in
  let user_ids := set_iteration (counterparties me (messages db)) in
  match summaries me db user_ids with
  | Done conversations => Done (order_by (desc sort_key) conversations)
  | AttributeError => AttributeError
  end.

End Inbox.

(** ** The API as a transition system

    Every endpoint that writes to the store, as a request carrying the
    [user_id] of its bearer token. *)

Inductive Request : Type :=
| Signup (request : UserSignupRequest)
| UpdateUserProfile (token : option Z) (request : UserProfileUpdateRequest)
| CreateReview (token : option Z) (user_id : Z) (request : ReviewCreateRequest)
| UploadSellerProof (token : option Z) (request : SellerProofCreateRequest)
| CreateListing (token : option Z) (request : ListingCreateRequest)
| UpdateListing (token : option Z) (listing_id : Z) (request : ListingUpdateRequest)
| DeleteListing (token : option Z) (listing_id : Z)
| SendMessage (token : option Z) (request : MessageCreateRequest)
| GetConversation (token : option Z) (other_user_id : Z)
| GetMessage (token : option Z) (message_id : Z)
| MarkAsRead (token : option Z) (message_id : Z)
| DeleteMessage (token : option Z) (message_id : Z).

(** A request together with what its run takes from outside: the clock
    readings and the ordering the storage engine applies to a query
    ordered by [created_at]. *)
Record Call : Type := mkCall
  { call_today : Z;
    call_now : Z;
    call_order : list Message.t -> list Message.t;
    call_request : Request }.

(** An endpoint behind [Depends(get_current_user)]. *)
Definition authenticated {A} (token : option Z) (db : Database)
    (endpoint : User.t -> Database -> response A * Database) : Database :=
  match get_current_user token db with
  | Returned current_user => snd (endpoint current_user db)
  | _ => db
  end.

Section Requests.

Variable hash_password : string -> string.
Variable create_access_token : Z -> Z -> string.

Definition handle (c : Call) (db : Database) : Database :=
  let today := call_today c in
  let now := call_now c in
  match call_request c with
  | Signup request =>
      snd (signup hash_password create_access_token now request db)
  | UpdateUserProfile token request =>
      authenticated token db (update_user_profile now request)
  | CreateReview token user_id request =>
      authenticated token db (create_review now user_id request)
  | UploadSellerProof token request =>
      authenticated token db (upload_seller_proof now request)
  | CreateListing token request =>
      authenticated token db (create_listing today now request)
  | UpdateListing token listing_id request =>
      authenticated token db (update_listing now listing_id request)
  | DeleteListing token listing_id =>
      authenticated token db (delete_listing listing_id)
  | SendMessage token request =>
      authenticated token db (send_message now request)
  | GetConversation token other_user_id =>
      authenticated token db (get_conversation (call_order c) other_user_id)
  | GetMessage token message_id =>
      authenticated token db (get_message message_id)
  | MarkAsRead token message_id =>
      authenticated token db (mark_as_read message_id)
  | DeleteMessage token message_id =>
      authenticated token db (delete_message message_id)
  end.

Definition run (trace : list Call) (db : Database) : Database :=
  fold_left (fun d c => handle c d) trace db.

End Requests.

(** ** Notions used by the statements *)

(** The primary key of [messages]: ids are pairwise distinct and were all
    handed out by the sequence. *)
Fixpoint distinct (ids : list Z) : bool :=
  match ids with
  | [] => true
  | i :: t => negb (existsb (Z.eqb i) t) && distinct t
  end.

Definition messages_pk_ok (db : Database) : bool :=
  distinct (map Message.id (messages db))
  && forallb (fun m => Message.id m <=? messages_id_seq db) (messages db).

(** The arithmetic mean of a user's received ratings. *)
Definition mean_rating (user_id : Z) (db : Database) : Q :=
  (inject_Z (sum_Z (ratings_of user_id db))
   / inject_Z (Z.of_nat (List.length (ratings_of user_id db))))%Q.

Definition review_count (user_id : Z) (db : Database) : Z :=
  Z.of_nat (List.length (reviews_of user_id db)).

(** Two listings agree on every column that [update_listing] never assigns. *)
Definition same_fixed_columns (l l' : Listing.t) : Prop :=
  Listing.id l' = Listing.id l /\
  Listing.seller_id l' = Listing.seller_id l /\
  Listing.artist_name l' = Listing.artist_name l /\
  Listing.concert_date l' = Listing.concert_date l /\
  Listing.venue_name l' = Listing.venue_name l /\
  Listing.section l' = Listing.section l /\
  Listing.row l' = Listing.row l /\
  Listing.seat_number l' = Listing.seat_number l /\
  Listing.created_at l' = Listing.created_at l.

(** The columns of an omitted ([None]) request field are carried over. *)
Definition omitted_columns_kept (request : ListingUpdateRequest)
    (l l' : Listing.t) : Prop :=
  (lu_price request = None -> Listing.price l' = Listing.price l) /\
  (lu_quantity_available request = None ->
     Listing.quantity_available l' = Listing.quantity_available l) /\
  (lu_description request = None ->
     Listing.description l' = Listing.description l) /\
  (lu_is_available request = None ->
     Listing.is_available l' = Listing.is_available l).

(** Everything of the store but the [listings] rows. *)
Definition same_outside_listings (db db' : Database) : Prop :=
  users db' = users db /\
  user_profiles db' = user_profiles db /\
  messages db' = messages db /\
  reviews db' = reviews db /\
  seller_proof db' = seller_proof db /\
  users_id_seq db' = users_id_seq db /\
  user_profiles_id_seq db' = user_profiles_id_seq db /\
  listings_id_seq db' = listings_id_seq db /\
  messages_id_seq db' = messages_id_seq db /\
  reviews_id_seq db' = reviews_id_seq db /\
  seller_proof_id_seq db' = seller_proof_id_seq db.


(** The rows a flush of [dirty] objects rewrites, told by primary key. *)
Definition mark_read (ids : list Z) (m : Message.t) : Message.t :=
  if existsb (Z.eqb (Message.id m)) ids then Message.set_is_read true m else m.

(** The invariant behind read-state monotonicity, for the message with
    primary key [i]: the key constraint holds, [i] was handed out already,
    and the message, while it exists, is read. *)
Definition read_or_gone (i : Z) (db : Database) : Prop :=
  messages_pk_ok db = true
  /\ i <= messages_id_seq db
  /\ (forall m, query_message i db = Some m -> Message.is_read m = true).

(** Keys handed out by the sequences of [listings] and [users]: no row
    carries a key the sequence has not reached yet. *)
Definition listings_pk_ok (db : Database) : bool :=
  forallb (fun l => Listing.id l <=? listings_id_seq db) (listings db).

Definition users_pk_ok (db : Database) : bool :=
  forallb (fun u => User.id u <=? users_id_seq db) (users db).

(** The [users] table only grows at its end. *)
Definition users_kept (db db' : Database) : Prop :=
  exists extra, users db' = users db ++ extra.

(** What the handlers let into the tables: a review carries a rating of
    1..5 and is not a self-review; a message is not addressed to its
    sender and has a text that is not blank; a stored average lies in
    0..5. *)
Definition review_ok (r : Review.t) : bool :=
  (1 <=? Review.rating r) && (Review.rating r <=? 5)
  && negb (Review.reviewed_user_id r =? Review.reviewer_id r).

Definition reviews_sound (db : Database) : bool :=
  forallb review_ok (reviews db).

Definition message_ok (m : Message.t) : bool :=
  negb (Message.receiver_id m =? Message.sender_id m)
  && negb (strip_is_empty (Message.message_text m)).

Definition messages_sound (db : Database) : bool :=
  forallb message_ok (messages db).

Definition average_ok (p : UserProfile.t) : bool :=
  (0 <=? UserProfile.average_rating p) && (UserProfile.average_rating p <=? 5).

Definition averages_bounded (db : Database) : bool :=
  forallb average_ok (user_profiles db).

(** A text with at least one visible ASCII character ('!' .. '~'): such
    a text is not blank, whatever else it contains. *)
Definition is_visible (c : Ascii.ascii) : bool :=
  let n := Z.of_nat (Ascii.nat_of_ascii c) in (33 <=? n) && (n <=? 126).

Fixpoint has_visible (s : string) : bool :=
  match s with
  | EmptyString => false
  | String c s' => is_visible c || has_visible s'
  end.

(** The bookkeeping columns of a profile that no handler assigns. *)
Definition same_bookkeeping (p p' : UserProfile.t) : Prop :=
  UserProfile.id p' = UserProfile.id p
  /\ UserProfile.user_id p' = UserProfile.user_id p
  /\ UserProfile.total_sales p' = UserProfile.total_sales p
  /\ UserProfile.created_at p' = UserProfile.created_at p.

Definition bookkeeping_kept (db db' : Database) : Prop :=
  forall uid p,
    query_profile_of uid db = Some p ->
    exists p', query_profile_of uid db' = Some p' /\ same_bookkeeping p p'.

(** Every counterparty in the caller's messages is a user of the store. *)
Definition parties_exist (me : Z) (db : Database) : bool :=
  forallb (fun uid => match query_user uid db with
                      | Some _ => true
                      | None => false
                      end)
    (counterparties me (messages db)).

(** What [order_by(Message.created_at.asc())] promises of the ordering
    the storage engine applies: the selected rows come back, each as often
    as it was selected, in ascending order of [created_at]. *)
Definition orders_by_created_at (sort : list Message.t -> list Message.t)
    : Prop :=
  forall rows,
    Permutation (sort rows) rows
    /\ Sorted (fun a b => Message.created_at a <= Message.created_at b)
         (sort rows).

(** ** Sample stores *)

(** Two orderings by [created_at]: rows created at the same time come
    back in the order of the table, or in the opposite order. *)
Definition oldest_first (rows : list Message.t) : list Message.t :=
  order_by (asc Message.created_at) rows.

Definition oldest_first_ties_reversed (rows : list Message.t)
    : list Message.t :=
  order_by (asc Message.created_at) (rev rows).

Definition alice : User.t := User.mk 1 "alice" "alice@example.com" "h-a" false 0 0.
Definition bob : User.t := User.mk 2 "bob" "bob@example.com" "h-b" false 0 0.
Definition carol : User.t := User.mk 3 "carol" "carol@example.com" "h-c" false 0 0.

Definition fresh_profile (pid uid : Z) : UserProfile.t :=
  UserProfile.mk pid uid None None 0 false 0 0 0.

Definition ticket : Listing.t :=
  Listing.mk 1 1 "The Band" 20000 "Arena" (Some "A"%string) None None (150 # 1) 2
    (Some "two seats"%string) true 0 0.

(** Alice sells one ticket; Bob wrote to her three times and she answered
    once; Carol signed up but her profile row is missing. *)
Definition market : Database :=
  mkDatabase [alice; bob; carol]
    [fresh_profile 1 1; fresh_profile 2 2]
    [ticket]
    [Message.mk 1 2 1 (Some 1) "still available?" false 10;
     Message.mk 2 1 2 (Some 1) "yes" true 20;
     Message.mk 3 2 1 (Some 1) "140?" false 30;
     Message.mk 4 2 1 None "hello?" false 40]
    [] [] 3 2 1 4 0 0.

(** Bob has received two reviews of five stars. *)
Definition reputation : Database :=
  mkDatabase [alice; bob; carol]
    [fresh_profile 1 1; UserProfile.mk 2 2 None None 0 false 5 0 40]
    [ticket] []
    [Review.mk 1 3 2 None 5 None 30; Review.mk 2 1 2 (Some 1) 5 None 40]
    [] 3 2 1 0 2 0.


(** Bob after five reviews of five stars: a verified seller. *)
Definition five_stars : Database :=
  mkDatabase [alice; bob; carol]
    [fresh_profile 1 1; UserProfile.mk 2 2 None None 0 true 5 0 70]
    [ticket] []
    [Review.mk 1 3 2 None 5 None 30; Review.mk 2 1 2 (Some 1) 5 None 40;
     Review.mk 3 3 2 None 5 None 50; Review.mk 4 1 2 None 5 None 60;
     Review.mk 5 3 2 None 5 None 70]
    [] 3 2 1 0 5 0.

(** Alice writes to Bob, Bob opens the conversation, Alice marks his
    first message as read, Bob deletes his second one. *)
Definition chat : list Call :=
  [mkCall 0 50 oldest_first
     (SendMessage (Some 1) (mkMessageCreateRequest 2 "ok" None));
   mkCall 0 60 oldest_first (GetConversation (Some 2) 1);
   mkCall 0 70 oldest_first (MarkAsRead (Some 1) 1);
   mkCall 0 80 oldest_first (DeleteMessage (Some 2) 3)].

(** Bob's message to Alice and her message to him carry the same time
    stamp. *)
Definition same_instant : Database :=
  mkDatabase [alice; bob]
    [fresh_profile 1 1; fresh_profile 2 2]
    []
    [Message.mk 1 2 1 None "ping" false 10;
     Message.mk 2 1 2 None "pong" true 10]
    [] [] 2 2 0 2 0 0.

(** ** Listings: the access guard *)

Lemma raise_fails_with {A} (code : Z) (msg : string) :
  fails_with (@raise A code msg) code.
Proof. exists msg. reflexivity. Qed.

#[local] Hint Resolve raise_fails_with : core.

(** C3. For every actor and listing id: when no listing has that id,
    [update_listing] and [delete_listing] both answer 404 Not Found whoever
    the actor is; when the listing exists and the actor is not its seller,
    both answer 403 Forbidden; in every one of these cases the store is
    left as it was.  Existence is therefore decided before ownership. *)
Theorem listing_guard_not_found_before_forbidden :
  forall (now listing_id : Z) (request : ListingUpdateRequest)
         (actor : User.t) (db : Database),
    (query_listing listing_id db = None ->
       fails_with (fst (update_listing now listing_id request actor db))
                  HTTP_404_NOT_FOUND
       /\ snd (update_listing now listing_id request actor db) = db
       /\ fails_with (fst (delete_listing listing_id actor db))
                     HTTP_404_NOT_FOUND
       /\ snd (delete_listing listing_id actor db) = db)
    /\
    (forall listing, query_listing listing_id db = Some listing ->
       Listing.seller_id listing <> User.id actor ->
       fails_with (fst (update_listing now listing_id request actor db))
                  HTTP_403_FORBIDDEN
       /\ snd (update_listing now listing_id request actor db) = db
       /\ fails_with (fst (delete_listing listing_id actor db))
                     HTTP_403_FORBIDDEN
       /\ snd (delete_listing listing_id actor db) = db).
Proof.
  intros now listing_id request actor db. split.
  - intros Hnone. unfold update_listing, delete_listing. rewrite Hnone.
    simpl. auto.
  - intros listing Hsome Hneq. unfold update_listing, delete_listing.
    rewrite Hsome.
    apply Z.eqb_neq in Hneq. rewrite Hneq. simpl. auto.
Qed.

Lemma listing_guard_not_found_before_forbidden_witness :
  (fails_with (fst (update_listing 50 99 (mkListingUpdateRequest None (Some 1) None None) bob market))
              HTTP_404_NOT_FOUND
   /\ snd (update_listing 50 99 (mkListingUpdateRequest None (Some 1) None None) bob market) = market
   /\ fails_with (fst (delete_listing 99 bob market)) HTTP_404_NOT_FOUND
   /\ snd (delete_listing 99 bob market) = market)
  /\
  (fails_with (fst (update_listing 50 1 (mkListingUpdateRequest None (Some 1) None None) bob market))
              HTTP_403_FORBIDDEN
   /\ snd (update_listing 50 1 (mkListingUpdateRequest None (Some 1) None None) bob market) = market
   /\ fails_with (fst (delete_listing 1 bob market)) HTTP_403_FORBIDDEN
   /\ snd (delete_listing 1 bob market) = market).
Proof.
  split.
  - apply (proj1 (listing_guard_not_found_before_forbidden 50 99
                    (mkListingUpdateRequest None (Some 1) None None) bob market)).
    reflexivity.
  - apply (proj2 (listing_guard_not_found_before_forbidden 50 1
                    (mkListingUpdateRequest None (Some 1) None None) bob market)
             ticket).
    + reflexivity.
    + vm_compute. discriminate.
Defined.

(** *** Generic facts about row-wise updates *)

Lemma find_update_where_id {A} (id_of : A -> Z) (i j : Z) (f : A -> A)
    (rows : list A) :
  (forall r, id_of (f r) = id_of r) ->
  find (fun r => id_of r =? j) (update_where_id id_of i f rows)
  = option_map (fun r => if id_of r =? i then f r else r)
      (find (fun r => id_of r =? j) rows).
Proof.
  intros Hid. unfold update_where_id.
  induction rows as [|r rows IH]; simpl; [reflexivity|].
  assert (Hsame : id_of (if id_of r =? i then f r else r) = id_of r)
    by (destruct (id_of r =? i); [apply Hid | reflexivity]).
  rewrite Hsame. destruct (id_of r =? j); [reflexivity | exact IH].
Qed.

Lemma Forall2_update_where_id {A} (id_of : A -> Z) (i : Z) (f : A -> A)
    (rows : list A) :
  Forall2 (fun r r' => r' = if id_of r =? i then f r else r)
    rows (update_where_id id_of i f rows).
Proof.
  unfold update_where_id.
  induction rows as [|r rows IH]; simpl; constructor; auto.
Qed.

Lemma query_listing_id (i : Z) (db : Database) (l : Listing.t) :
  query_listing i db = Some l -> Listing.id l = i.
Proof.
  unfold query_listing. intros H. apply find_some in H.
  destruct H as [_ H]. apply Z.eqb_eq in H. exact H.
Qed.

Lemma apply_listing_update_fixed (request : ListingUpdateRequest) (now : Z)
    (l : Listing.t) :
  same_fixed_columns l (apply_listing_update request now l)
  /\ omitted_columns_kept request l (apply_listing_update request now l).
Proof.
  unfold same_fixed_columns, omitted_columns_kept, apply_listing_update.
  simpl. repeat split; intros H; rewrite H; reflexivity.
Qed.

(** C10. A successful [update_listing] keeps, on the target listing, the
    columns seller_id, artist_name, concert_date, venue_name, section, row,
    seat_number and created_at (and its id); a request field left out
    ([None]) keeps its column too, so that only price, quantity_available,
    description, is_available and updated_at can differ.  Every listing
    with another id is identical before and after, at the same position,
    and nothing outside the listings table changes.  The returned listing
    is the row now stored under that id. *)
Theorem update_listing_frame :
  forall (now listing_id : Z) (request : ListingUpdateRequest)
         (actor : User.t) (db db' : Database) (updated : Listing.t),
    update_listing now listing_id request actor db = (Returned updated, db') ->
    exists listing,
      query_listing listing_id db = Some listing
      /\ query_listing listing_id db' = Some updated
      /\ same_fixed_columns listing updated
      /\ omitted_columns_kept request listing updated
      /\ Forall2
           (fun l l' =>
              (Listing.id l <> listing_id -> l' = l)
              /\ same_fixed_columns l l'
              /\ omitted_columns_kept request l l')
           (listings db) (listings db')
      /\ same_outside_listings db db'.
Proof.
  intros now listing_id request actor db db' updated H.
  unfold update_listing in H.
  destruct (query_listing listing_id db) as [listing|] eqn:Hq;
    [|discriminate].
  pose proof (query_listing_id _ _ _ Hq) as Hid.
  destruct (negb (Listing.seller_id listing =? User.id actor)); [discriminate|].
  destruct (match lu_price request with
            | Some p => Qle_bool p 0 | None => false end); [discriminate|].
  destruct (match lu_quantity_available request with
            | Some q => q <? 0 | None => false end); [discriminate|].
  destruct (match lu_quantity_available request with
            | Some q => negb (int4_ok q) | None => false end); [discriminate|].
  inversion H; subst updated db'; clear H.
  exists listing. split; [reflexivity|].
  destruct (apply_listing_update_fixed request now listing) as [Hfix Hkept].
  split.
  { unfold query_listing in *. simpl.
    rewrite find_update_where_id by reflexivity.
    rewrite Hq. simpl. rewrite Hid, Z.eqb_refl. reflexivity. }
  split; [exact Hfix|]. split; [exact Hkept|]. split.
  { simpl. rewrite Hid.
    eapply Forall2_impl; [|apply Forall2_update_where_id].
    intros l l' Hl. simpl in Hl. subst l'.
    destruct (Listing.id l =? listing_id) eqn:E.
    - destruct (apply_listing_update_fixed request now l) as [F K].
      split; [|split; assumption].
      intros Hne. apply Z.eqb_eq in E. contradiction.
    - split; [reflexivity|].
      unfold same_fixed_columns, omitted_columns_kept. tauto. }
  unfold same_outside_listings. simpl. tauto.
Qed.

Lemma update_listing_frame_witness :
  exists listing,
    query_listing 1 market = Some listing
    /\ query_listing 1
         (snd (update_listing 50 1
                 (mkListingUpdateRequest (Some (120 # 1)) None None (Some false))
                 alice market))
       = Some (apply_listing_update
                 (mkListingUpdateRequest (Some (120 # 1)) None None (Some false))
                 50 ticket)
    /\ same_fixed_columns listing
         (apply_listing_update
            (mkListingUpdateRequest (Some (120 # 1)) None None (Some false))
            50 ticket).
Proof.
  destruct (update_listing_frame 50 1
              (mkListingUpdateRequest (Some (120 # 1)) None None (Some false))
              alice market
              (snd (update_listing 50 1
                      (mkListingUpdateRequest (Some (120 # 1)) None None (Some false))
                      alice market))
              (apply_listing_update
                 (mkListingUpdateRequest (Some (120 # 1)) None None (Some false))
                 50 ticket)
              eq_refl)
    as [listing [H1 [H2 [H3 _]]]].
  exists listing. split; [exact H1|]. split; [exact H2|exact H3].
Defined.

(** *** Quantity validation *)




(** ** Reviews: order of the checks *)

(** The claim that a missing reviewed user is reported before the rating
    is validated fails on the code: Alice rates the absent user 99 with 0
    and is answered 400, not 404. *)
Lemma create_review_validates_rating_first :
  query_user 99 market = None
  /\ 99 <> User.id alice
  /\ ~ fails_with
        (fst (create_review 50 99 (mkReviewCreateRequest None 0 None) alice market))
        HTTP_404_NOT_FOUND
  /\ fails_with
       (fst (create_review 50 99 (mkReviewCreateRequest None 0 None) alice market))
       HTTP_400_BAD_REQUEST.
Proof.
  split; [reflexivity|]. split; [vm_compute; discriminate|]. split.
  - intros [msg H]. vm_compute in H. discriminate.
  - eexists. reflexivity.
Qed.

(** C6 (amended). In [create_review] the self-review check and the rating
    validation precede the existence check of the reviewed user: for an
    actor and a different user id that no user carries, a rating outside
    1..5 is answered 400, a rating inside 1..5 is answered 404, and the
    store is left as it was in both cases. *)
Theorem create_review_check_order :
  forall (now user_id : Z) (request : ReviewCreateRequest)
         (actor : User.t) (db : Database),
    user_id <> User.id actor ->
    query_user user_id db = None ->
    snd (create_review now user_id request actor db) = db
    /\ (rc_rating request < 1 \/ 5 < rc_rating request ->
          fails_with (fst (create_review now user_id request actor db))
                     HTTP_400_BAD_REQUEST)
    /\ (1 <= rc_rating request <= 5 ->
          fails_with (fst (create_review now user_id request actor db))
                     HTTP_404_NOT_FOUND).
Proof.
  intros now user_id request actor db Hneq Hnone.
  unfold create_review. apply Z.eqb_neq in Hneq. rewrite Hneq, Hnone.
  destruct ((rc_rating request <? 1) || (5 <? rc_rating request)) eqn:E; simpl.
  - split; [reflexivity|]. split; [auto|].
    intros [H1 H5]. apply orb_true_iff in E. destruct E as [E|E].
    + apply Z.ltb_lt in E. lia.
    + apply Z.ltb_lt in E. lia.
  - split; [reflexivity|]. split; [|auto].
    intros H. apply orb_false_iff in E. destruct E as [E1 E2].
    apply Z.ltb_ge in E1. apply Z.ltb_ge in E2. lia.
Qed.

Lemma create_review_check_order_witness :
  snd (create_review 50 99 (mkReviewCreateRequest None 6 None) alice market) = market
  /\ fails_with
       (fst (create_review 50 99 (mkReviewCreateRequest None 6 None) alice market))
       HTTP_400_BAD_REQUEST
  /\ fails_with
       (fst (create_review 50 99 (mkReviewCreateRequest None 3 None) alice market))
       HTTP_404_NOT_FOUND.
Proof.
  assert (Hneq : 99 <> User.id alice) by (vm_compute; discriminate).
  pose proof (create_review_check_order 50 99 (mkReviewCreateRequest None 6 None)
                alice market Hneq eq_refl) as [H1 [H2 _]].
  pose proof (create_review_check_order 50 99 (mkReviewCreateRequest None 3 None)
                alice market Hneq eq_refl) as [_ [_ H3]].
  split; [exact H1|]. split.
  - apply H2. right. simpl. lia.
  - apply H3. simpl. lia.
Defined.

(** ** Reviews: a reviewed user without a profile row *)

(** C9. When the reviewed user exists but has no [UserProfile] row, a
    well-formed [create_review] (another user as reviewer, rating in 1..5,
    listing absent from the request or present in the store) returns the
    created review, appends exactly that review to the ledger, and writes
    nothing else: the profiles and every other table are untouched and no
    error is raised. *)
Theorem create_review_without_profile :
  forall (now user_id : Z) (request : ReviewCreateRequest)
         (actor seller : User.t) (db : Database),
    user_id <> User.id actor ->
    1 <= rc_rating request <= 5 ->
    query_user user_id db = Some seller ->
    fk_listing_ok (rc_listing_id request) db = true ->
    query_profile_of user_id db = None ->
    exists review,
      create_review now user_id request actor db
      = (Returned review,
         with_reviews (reviews db ++ [review]) (reviews_id_seq db + 1) db)
      /\ Review.reviewer_id review = User.id actor
      /\ Review.reviewed_user_id review = user_id
      /\ Review.rating review = rc_rating request
      /\ user_profiles (snd (create_review now user_id request actor db))
         = user_profiles db.
Proof.
  intros now user_id request actor seller db Hneq Hrange Huser Hfk Hnoprofile.
  unfold create_review.
  apply Z.eqb_neq in Hneq. rewrite Hneq.
  assert (E : (rc_rating request <? 1) || (5 <? rc_rating request) = false).
  { apply orb_false_iff. split; apply Z.ltb_ge; lia. }
  rewrite E, Huser, Hfk. rewrite andb_false_r. simpl.
  unfold update_seller_rating.
  assert (Hq : query_profile_of user_id
                 (with_reviews
                    (reviews db ++
                     [Review.mk (reviews_id_seq db + 1) (User.id actor) user_id
                        (rc_listing_id request) (rc_rating request)
                        (rc_comment request) now])
                    (reviews_id_seq db + 1) db) = None)
    by exact Hnoprofile.
  rewrite Hq. eexists. split; [reflexivity|]. simpl. auto.
Qed.

Lemma create_review_without_profile_witness :
  exists review,
    create_review 50 3 (mkReviewCreateRequest (Some 1) 5 None) bob market
    = (Returned review,
       with_reviews (reviews market ++ [review]) (reviews_id_seq market + 1) market)
    /\ Review.reviewer_id review = User.id bob
    /\ Review.reviewed_user_id review = 3
    /\ Review.rating review = 5
    /\ user_profiles
         (snd (create_review 50 3 (mkReviewCreateRequest (Some 1) 5 None) bob market))
       = user_profiles market.
Proof.
  apply (create_review_without_profile 50 3
           (mkReviewCreateRequest (Some 1) 5 None) bob carol market).
  - vm_compute. discriminate.
  - simpl. lia.
  - reflexivity.
  - reflexivity.
  - reflexivity.
Defined.

(** ** Signup: duplicate usernames and e-mail addresses *)

Lemma find_none_existsb {A} (p : A -> bool) (l : list A) :
  find p l = None -> existsb p l = false.
Proof.
  induction l as [|x l IH]; simpl; [reflexivity|].
  destruct (p x); [discriminate | exact IH].
Qed.

Lemma existsb_orb {A} (p q : A -> bool) (l : list A) :
  existsb (fun x => p x || q x) l = existsb p l || existsb q l.
Proof.
  induction l as [|x l IH]; simpl; [reflexivity|].
  rewrite IH. destruct (p x), (q x), (existsb p l); reflexivity.
Qed.





(** ** Reputation: the stored average *)

Lemma find_map_invariant {A} (p : A -> bool) (g : A -> A) (l : list A) :
  (forall r, p (g r) = p r) ->
  find p (map g l) = option_map g (find p l).
Proof.
  intros Hp. induction l as [|r l IH]; simpl; [reflexivity|].
  rewrite Hp. destruct (p r); [reflexivity | exact IH].
Qed.

Lemma query_profile_update_where_id (i uid : Z)
    (f : UserProfile.t -> UserProfile.t) (db : Database) (s : Z) :
  (forall p, UserProfile.user_id (f p) = UserProfile.user_id p) ->
  query_profile_of uid
    (with_user_profiles (update_where_id UserProfile.id i f (user_profiles db)) s db)
  = option_map (fun p => if UserProfile.id p =? i then f p else p)
      (query_profile_of uid db).
Proof.
  intros Hf. unfold query_profile_of, update_where_id. simpl.
  apply find_map_invariant.
  intros r. destruct (UserProfile.id r =? i); [rewrite Hf|]; reflexivity.
Qed.

(** What [update_seller_rating] leaves in the profile of the rated user. *)
Lemma update_seller_rating_profile (now uid : Z) (db : Database)
    (p : UserProfile.t) :
  query_profile_of uid db = Some p ->
  query_profile_of uid (update_seller_rating now uid db)
  = Some (apply_rating (float_or_zero (func_avg (ratings_of uid db)))
            (review_count uid db) now p)
  /\ reviews (update_seller_rating now uid db) = reviews db.
Proof.
  intros Hp. unfold update_seller_rating. rewrite Hp. split; [|reflexivity].
  rewrite query_profile_update_where_id by reflexivity.
  rewrite Hp. simpl. rewrite Z.eqb_refl. reflexivity.
Qed.

(** C1. The stored [average_rating] is not the mean of the ratings: the
    column is an integer.  Bob has two reviews of 5; Alice adds one of 4;
    the review is created, Bob's ratings are 5, 5, 4, their mean is 14/3,
    and his profile stores 5. *)
Theorem average_rating_stored_as_integer :
  succeeded (fst (create_review 50 2 (mkReviewCreateRequest None 4 None)
                    alice reputation)) = true
  /\ ratings_of 2 (snd (create_review 50 2 (mkReviewCreateRequest None 4 None)
                          alice reputation)) = [5; 5; 4]
  /\ (mean_rating 2 (snd (create_review 50 2 (mkReviewCreateRequest None 4 None)
                            alice reputation)) == 14 # 3)%Q
  /\ option_map UserProfile.average_rating
       (query_profile_of 2
          (snd (create_review 50 2 (mkReviewCreateRequest None 4 None)
                  alice reputation)))
     = Some 5
  /\ ~ (inject_Z 5
        == mean_rating 2 (snd (create_review 50 2 (mkReviewCreateRequest None 4 None)
                                 alice reputation)))%Q.
Proof.
  split; [reflexivity|]. split; [reflexivity|]. split; [reflexivity|].
  split; [reflexivity|]. intros H. vm_compute in H. discriminate.
Qed.

(** ** Reputation: the verified-seller latch *)





Lemma find_app_some {A} (p : A -> bool) (l l' : list A) (x : A) :
  find p l = Some x -> find p (l ++ l') = Some x.
Proof.
  induction l as [|y l IH]; simpl; [discriminate|].
  destruct (p y); [auto | exact IH].
Qed.

Lemma find_app_none {A} (p : A -> bool) (l l' : list A) :
  find p l = None -> find p (l ++ l') = find p l'.
Proof.
  induction l as [|y l IH]; simpl; [reflexivity|].
  destruct (p y); [discriminate | exact IH].
Qed.




(** Handlers that never touch [user_profiles]. *)
Ltac case_on_branches :=
  repeat match goal with
         | |- context [match ?x with _ => _ end] => destruct x
         end.




















(** ** Sorting *)

Section OrderBy.

Context {A : Type}.
Variable before : A -> A -> bool.

Lemma insert_sorted_perm (a : A) (l : list A) :
  Permutation (insert_sorted before a l) (a :: l).
Proof.
  induction l as [|x l IH]; simpl; [apply Permutation_refl|].
  destruct (before a x); [apply Permutation_refl|].
  eapply Permutation_trans; [apply perm_skip; exact IH | apply perm_swap].
Qed.

Lemma order_by_perm (l : list A) : Permutation (order_by before l) l.
Proof.
  unfold order_by. induction l as [|x l IH]; simpl; [constructor|].
  eapply Permutation_trans; [apply insert_sorted_perm|].
  apply perm_skip. exact IH.
Qed.

Lemma order_by_In (x : A) (l : list A) : In x (order_by before l) <-> In x l.
Proof.
  split; apply Permutation_in;
    [apply order_by_perm | apply Permutation_sym, order_by_perm].
Qed.

Hypothesis before_total : forall a b, before a b = false -> before b a = true.

Lemma insert_sorted_sorted (a : A) (l : list A) :
  Sorted (fun x y => before x y = true) l ->
  Sorted (fun x y => before x y = true) (insert_sorted before a l).
Proof.
  induction l as [|x l IH]; simpl; intros Hs.
  - repeat constructor.
  - destruct (before a x) eqn:E.
    + constructor; [exact Hs | constructor; exact E].
    + inversion Hs as [|? ? Hs' Hhd]; subst.
      constructor; [apply IH; exact Hs'|].
      destruct l as [|y l]; simpl.
      * constructor. apply before_total. exact E.
      * destruct (before a y); constructor.
        -- apply before_total. exact E.
        -- inversion Hhd; assumption.
Qed.

Lemma order_by_sorted (l : list A) :
  Sorted (fun x y => before x y = true) (order_by before l).
Proof.
  unfold order_by. induction l as [|x l IH]; simpl; [constructor|].
  apply insert_sorted_sorted. exact IH.
Qed.

End OrderBy.

Lemma asc_total {A} (key : A -> Z) (a b : A) :
  asc key a b = false -> asc key b a = true.
Proof. unfold asc. intros H. apply Z.leb_gt in H. apply Z.leb_le. lia. Qed.

Lemma desc_total {A} (key : A -> Z) (a b : A) :
  desc key a b = false -> desc key b a = true.
Proof. unfold desc. intros H. apply Z.leb_gt in H. apply Z.leb_le. lia. Qed.

Lemma Sorted_weaken {A} (R R' : A -> A -> Prop) (l : list A) :
  (forall a b, R a b -> R' a b) -> Sorted R l -> Sorted R' l.
Proof.
  intros HR Hs. induction Hs as [|a l Hs IH Hhd]; constructor; [exact IH|].
  destruct Hhd; constructor. apply HR. assumption.
Qed.

(** ** Messages: fetching a conversation *)

Lemma set_is_read_twice (m : Message.t) :
  Message.set_is_read true (Message.set_is_read true m)
  = Message.set_is_read true m.
Proof. reflexivity. Qed.

Lemma mark_read_id (ids : list Z) (m : Message.t) :
  Message.id (mark_read ids m) = Message.id m.
Proof. unfold mark_read. destruct (existsb _ ids); reflexivity. Qed.

Lemma mark_read_nil (m : Message.t) : mark_read [] m = m.
Proof. reflexivity. Qed.

Lemma mark_read_cons (i : Z) (ids : list Z) (m : Message.t) :
  mark_read ids (if Message.id m =? i then Message.set_is_read true m else m)
  = mark_read (i :: ids) m.
Proof.
  unfold mark_read. simpl.
  destruct (Message.id m =? i) eqn:E; simpl.
  - destruct (existsb (Z.eqb (Message.id m)) ids); reflexivity.
  - reflexivity.
Qed.

(** The flush, one UPDATE per dirty object, is a single pass over the rows. *)
Lemma flush_is_read_map (dirty rows : list Message.t) :
  flush_is_read dirty rows = map (mark_read (map Message.id dirty)) rows.
Proof.
  unfold flush_is_read. revert rows.
  induction dirty as [|d dirty IH]; intros rows; simpl.
  - rewrite <- (map_id rows) at 1. apply map_ext. intros m.
    symmetry. apply mark_read_nil.
  - rewrite IH. unfold update_where_id. rewrite map_map.
    apply map_ext. intros m. apply mark_read_cons.
Qed.

Lemma filter_map_invariant {A} (p : A -> bool) (g : A -> A) (l : list A) :
  (forall r, p (g r) = p r) ->
  filter p (map g l) = map g (filter p l).
Proof.
  intros Hp. induction l as [|r l IH]; simpl; [reflexivity|].
  rewrite Hp. destruct (p r); simpl; rewrite IH; reflexivity.
Qed.

Lemma mark_read_columns (ids : list Z) (m : Message.t) :
  Message.sender_id (mark_read ids m) = Message.sender_id m
  /\ Message.receiver_id (mark_read ids m) = Message.receiver_id m
  /\ Message.created_at (mark_read ids m) = Message.created_at m
  /\ (Message.is_read m = true -> Message.is_read (mark_read ids m) = true).
Proof.
  unfold mark_read. destruct (existsb _ ids); simpl; auto.
Qed.

Lemma existsb_id_of_member (p : Message.t -> bool) (m : Message.t)
    (rows : list Message.t) :
  In m rows -> p m = true ->
  existsb (Z.eqb (Message.id m)) (map Message.id (filter p rows)) = true.
Proof.
  intros Hin Hp. apply existsb_exists. exists (Message.id m).
  split; [|apply Z.eqb_refl].
  apply in_map. apply filter_In. split; assumption.
Qed.

(** After the flush no message from [other] to [me] is unread. *)
Lemma no_unread_after_flush (other me : Z) (rows : list Message.t) :
  filter (unread_from other me)
    (map (mark_read (map Message.id (filter (unread_from other me) rows))) rows)
  = [].
Proof.
  set (ids := map Message.id (filter (unread_from other me) rows)).
  assert (H : forall m, In m rows -> unread_from other me (mark_read ids m) = false).
  { intros m Hin.
    destruct (unread_from other me m) eqn:E.
    - unfold mark_read, ids.
      rewrite (existsb_id_of_member _ _ _ Hin E).
      unfold unread_from. simpl. apply andb_false_r.
    - unfold mark_read. destruct (existsb _ ids); [|exact E].
      unfold unread_from. simpl. apply andb_false_r. }
  clearbody ids. induction rows as [|r rows IH]; simpl; [reflexivity|].
  rewrite (H r (or_introl eq_refl)). apply IH.
  intros m Hin. apply H. right. exact Hin.
Qed.

Lemma reload_mark_read (db' : Database) (ids : list Z) (rows : list Message.t)
    (m : Message.t) :
  messages db' = map (mark_read ids) rows ->
  In m rows ->
  reload db' (mark_read ids m) = reload db' m.
Proof.
  intros Hrows Hin. unfold reload. rewrite mark_read_id.
  destruct (query_message (Message.id m) db') as [m'|] eqn:E; [reflexivity|].
  exfalso. unfold query_message in E. rewrite Hrows in E.
  pose proof (find_none _ _ E (mark_read ids m) (in_map _ _ _ Hin)) as H.
  simpl in H. rewrite mark_read_id, Z.eqb_refl in H. discriminate.
Qed.

Lemma Forall2_map_in {A} (P : A -> A -> Prop) (g : A -> A) (l : list A) :
  (forall x, In x l -> P x (g x)) -> Forall2 P l (map g l).
Proof.
  induction l as [|x l IH]; intros H; simpl; constructor.
  - apply H. left. reflexivity.
  - apply IH. intros y Hy. apply H. right. exact Hy.
Qed.

(** Two lists in ascending order of a key that hold the same elements are
    the same list when no key occurs twice. *)
Lemma sorted_perm_unique {A} (key : A -> Z) (l1 l2 : list A) :
  Sorted (fun a b => key a <= key b) l1 ->
  Sorted (fun a b => key a <= key b) l2 ->
  Permutation l1 l2 ->
  NoDup (map key l1) ->
  l1 = l2.
Proof.
  assert (Htrans : Relations_1.Transitive (fun a b : A => key a <= key b))
    by (intros a b c Hab Hbc; lia).
  intros H1 H2. apply (Sorted_StronglySorted Htrans) in H1.
  apply (Sorted_StronglySorted Htrans) in H2.
  revert l2 H2. induction H1 as [|a t1 Ht1 IH Ha]; intros l2 H2 Hperm Hnodup.
  - apply Permutation_nil in Hperm. symmetry. exact Hperm.
  - destruct H2 as [|b t2 Ht2 Hb].
    + apply Permutation_sym, Permutation_nil in Hperm. discriminate.
    + assert (Hab : a = b).
      { pose proof (Permutation_in a Hperm (or_introl eq_refl)) as Hin_a.
        pose proof (Permutation_in b (Permutation_sym Hperm) (or_introl eq_refl))
          as Hin_b.
        destruct Hin_a as [E|Hin_a]; [symmetry; exact E|].
        destruct Hin_b as [E|Hin_b]; [exact E|].
        exfalso.
        rewrite Forall_forall in Ha, Hb.
        pose proof (Ha b Hin_b) as Hle1. pose proof (Hb a Hin_a) as Hle2.
        simpl in Hnodup. inversion Hnodup as [|k ks Hnotin _]; subst.
        apply Hnotin. replace (key a) with (key b) by lia.
        apply in_map. exact Hin_b. }
      subst b. f_equal. apply IH.
      * exact Ht2.
      * apply Permutation_cons_inv in Hperm. exact Hperm.
      * simpl in Hnodup. inversion Hnodup; assumption.
Qed.

Lemma Sorted_map {A} (R : A -> A -> Prop) (g : A -> A) (l : list A) :
  (forall a b, R a b -> R (g a) (g b)) -> Sorted R l -> Sorted R (map g l).
Proof.
  intros Hg Hs. induction Hs as [|a l Hs IH Hhd]; simpl; constructor;
    [exact IH|].
  destruct Hhd; simpl; constructor. apply Hg. assumption.
Qed.

Lemma oldest_first_orders : orders_by_created_at oldest_first.
Proof.
  intros rows. unfold oldest_first. split; [apply order_by_perm|].
  eapply Sorted_weaken;
    [|apply order_by_sorted; apply asc_total].
  intros a b H. unfold asc in H. apply Z.leb_le in H. exact H.
Qed.

Lemma oldest_first_ties_reversed_orders :
  orders_by_created_at oldest_first_ties_reversed.
Proof.
  intros rows. unfold oldest_first_ties_reversed. split.
  - eapply Permutation_trans; [apply order_by_perm|].
    apply Permutation_sym, Permutation_rev.
  - eapply Sorted_weaken;
      [|apply order_by_sorted; apply asc_total].
    intros a b H. unfold asc in H. apply Z.leb_le in H. exact H.
Qed.

Lemma between_mark_read (ids : list Z) (me other : Z) (m : Message.t) :
  between me other (mark_read ids m) = between me other m.
Proof.
  unfold between. destruct (mark_read_columns ids m) as [Hs [Hr _]].
  rewrite Hs, Hr. reflexivity.
Qed.

(** What a fetch leaves in the store does not depend on the order of the
    result, and a second fetch leaves the store of the first. *)
Lemma get_conversation_store
    (first_order second_order : list Message.t -> list Message.t)
    (other : Z) (u : User.t) (db : Database) :
  snd (get_conversation second_order other u
         (snd (get_conversation first_order other u db)))
  = snd (get_conversation first_order other u db).
Proof.
  unfold get_conversation at 2 3.
  destruct (query_user other db) as [other_user|] eqn:Hother.
  - cbn [snd].
    set (me := User.id u).
    set (rows := messages db).
    rewrite flush_is_read_map.
    set (ids := map Message.id (filter (unread_from other me) rows)).
    set (db' := with_messages (map (mark_read ids) rows) (messages_id_seq db) db).
    unfold get_conversation.
    change (query_user other db') with (query_user other db).
    rewrite Hother. fold me. cbn [snd].
    change (messages db') with (map (mark_read ids) rows).
    assert (Hnone : filter (unread_from other me) (map (mark_read ids) rows) = [])
      by apply no_unread_after_flush.
    rewrite Hnone. reflexivity.
  - cbn [snd]. unfold get_conversation. rewrite Hother. reflexivity.
Qed.

(** The two results of fetching a conversation twice, as lists over the
    rows of the first store. *)
Lemma get_conversation_twice
    (first_order second_order : list Message.t -> list Message.t)
    (other : Z) (u : User.t) (db : Database) (other_user : User.t) :
  query_user other db = Some other_user ->
  let rows := filter (between (User.id u) other) (messages db) in
  let ids :=
    map Message.id (filter (unread_from other (User.id u)) (messages db)) in
  let db' := snd (get_conversation first_order other u db) in
  fst (get_conversation first_order other u db)
  = Returned (map (reload db') (first_order rows))
  /\ fst (get_conversation second_order other u db')
     = Returned (map (reload db') (second_order (map (mark_read ids) rows)))
  /\ (forall m, In m rows -> reload db' (mark_read ids m) = reload db' m).
Proof.
  intros Hother rows ids db'.
  assert (Hdb' : db' = with_messages (map (mark_read ids) (messages db))
                         (messages_id_seq db) db).
  { unfold db', get_conversation. rewrite Hother. cbn [snd].
    rewrite flush_is_read_map. reflexivity. }
  split; [|split].
  - unfold db', get_conversation. rewrite Hother. reflexivity.
  - pose proof (get_conversation_store first_order second_order other u db)
      as Hstore.
    fold db' in Hstore.
    unfold get_conversation in Hstore |- *.
    assert (Hq : query_user other db' = Some other_user)
      by (rewrite Hdb'; exact Hother).
    rewrite Hq in Hstore |- *. cbn [fst snd] in Hstore |- *.
    rewrite Hstore. f_equal. f_equal. f_equal.
    rewrite Hdb'. cbn [messages with_messages].
    apply filter_map_invariant. intros r. apply between_mark_read.
  - intros m Hin. apply (reload_mark_read db' ids (messages db)).
    + rewrite Hdb'. reflexivity.
    + apply filter_In in Hin. apply Hin.
Qed.

(** The claim that a second fetch returns the same result fails on the
    code: the query orders by [created_at] only.  Bob's message and
    Alice's carry the same time stamp; the first fetch returns them in the
    order of the table, and the second one, for which the engine delivers
    rows of equal time in the opposite order, returns them the other way
    round.  Both orderings are ascending in [created_at]. *)
Lemma get_conversation_refetch_order_differs :
  orders_by_created_at oldest_first
  /\ orders_by_created_at oldest_first_ties_reversed
  /\ fst (get_conversation oldest_first 2 alice same_instant)
     = Returned [Message.mk 1 2 1 None "ping" true 10;
                 Message.mk 2 1 2 None "pong" true 10]
  /\ fst (get_conversation oldest_first_ties_reversed 2 alice
            (snd (get_conversation oldest_first 2 alice same_instant)))
     = Returned [Message.mk 2 1 2 None "pong" true 10;
                 Message.mk 1 2 1 None "ping" true 10]
  /\ fst (get_conversation oldest_first_ties_reversed 2 alice
            (snd (get_conversation oldest_first 2 alice same_instant)))
     <> fst (get_conversation oldest_first 2 alice same_instant).
Proof.
  split; [apply oldest_first_orders|].
  split; [apply oldest_first_ties_reversed_orders|].
  split; [reflexivity|]. split; [reflexivity|].
  vm_compute. intros H. discriminate H.
Qed.

(** C5 (amended). Fetching the conversation with an existing counterparty
    returns the messages and, in the same operation, leaves every message
    sent by the counterparty to the acting user read; a stored message
    changes at most by its read flag going to true.  A second fetch
    leaves the store of the first one as it is and returns the same
    messages, each as often as before; it returns them in the same order,
    that is the same result, whenever no two messages of the conversation
    were created at the same time.  With an unknown counterparty both
    fetches are refused alike.  This holds whatever order the storage
    engine gives, in either fetch, to rows of equal creation time. *)
Theorem get_conversation_marks_read_idempotent :
  forall (first_order second_order : list Message.t -> list Message.t)
         (other_user_id : Z) (current_user : User.t) (db : Database),
    orders_by_created_at first_order ->
    orders_by_created_at second_order ->
    (forall other_user,
       query_user other_user_id db = Some other_user ->
       exists msgs msgs',
         fst (get_conversation first_order other_user_id current_user db)
         = Returned msgs
         /\ Forall2
              (fun m m' =>
                 (m' = m \/ m' = Message.set_is_read true m)
                 /\ (Message.sender_id m = other_user_id ->
                     Message.receiver_id m = User.id current_user ->
                     Message.is_read m' = true))
              (messages db)
              (messages
                 (snd (get_conversation first_order other_user_id current_user db)))
         /\ fst (get_conversation second_order other_user_id current_user
                   (snd (get_conversation first_order other_user_id
                           current_user db)))
            = Returned msgs'
         /\ Permutation msgs' msgs
         /\ (NoDup (map Message.created_at
                      (filter (between (User.id current_user) other_user_id)
                         (messages db))) ->
             msgs' = msgs))
    /\ snd (get_conversation second_order other_user_id current_user
              (snd (get_conversation first_order other_user_id current_user db)))
       = snd (get_conversation first_order other_user_id current_user db)
    /\ (query_user other_user_id db = None ->
        get_conversation second_order other_user_id current_user
          (snd (get_conversation first_order other_user_id current_user db))
        = get_conversation first_order other_user_id current_user db).
Proof.
  intros first_order second_order other_user_id current_user db Hfirst Hsecond.
  split; [|split; [apply get_conversation_store|]].
  - intros other_user Hother.
    destruct (get_conversation_twice first_order second_order other_user_id
                current_user db other_user Hother) as [H1 [H2 Hreload]].
    set (rows := filter (between (User.id current_user) other_user_id)
                   (messages db)) in *.
    set (ids := map Message.id
                  (filter (unread_from other_user_id (User.id current_user))
                     (messages db))) in *.
    set (db' := snd (get_conversation first_order other_user_id current_user db))
      in *.
    destruct (Hfirst rows) as [Hperm1 Hsorted1].
    destruct (Hsecond (map (mark_read ids) rows)) as [Hperm2 Hsorted2].
    exists (map (reload db') (first_order rows)).
    exists (map (reload db') (second_order (map (mark_read ids) rows))).
    split; [exact H1|]. split; [|split; [exact H2|split]].
    + unfold db', get_conversation. rewrite Hother. cbn [snd].
      cbn [messages with_messages].
      rewrite flush_is_read_map.
      apply Forall2_map_in. intros m Hin. split.
      * unfold mark_read. destruct (existsb _ _); auto.
      * intros Hs Hr.
        destruct (Message.is_read m) eqn:Hread.
        -- apply mark_read_columns. exact Hread.
        -- assert (Hunread : unread_from other_user_id (User.id current_user) m
                             = true).
           { unfold unread_from. rewrite Hs, Hr, Hread, !Z.eqb_refl.
             reflexivity. }
           unfold mark_read.
           rewrite (existsb_id_of_member _ _ _ Hin Hunread). reflexivity.
    + (* the same messages *)
      eapply Permutation_trans;
        [apply Permutation_map; exact Hperm2|].
      rewrite map_map.
      rewrite (map_ext_in _ (reload db') rows Hreload).
      apply Permutation_map. apply Permutation_sym. exact Hperm1.
    + (* in the same order *)
      intros Hnodup.
      assert (Hsame : second_order (map (mark_read ids) rows)
                      = map (mark_read ids) (first_order rows)).
      { apply (sorted_perm_unique Message.created_at).
        - exact Hsorted2.
        - apply Sorted_map; [|exact Hsorted1].
          intros a b Hab.
          destruct (mark_read_columns ids a) as [_ [_ [Ha _]]].
          destruct (mark_read_columns ids b) as [_ [_ [Hb _]]].
          rewrite Ha, Hb. exact Hab.
        - eapply Permutation_trans; [exact Hperm2|].
          apply Permutation_map. apply Permutation_sym. exact Hperm1.
        - apply (Permutation_NoDup
                   (l := map Message.created_at (map (mark_read ids) rows))).
          + apply Permutation_map. apply Permutation_sym. exact Hperm2.
          + rewrite map_map.
            rewrite (map_ext _ Message.created_at); [exact Hnodup|].
            intros m. apply (mark_read_columns ids m). }
      rewrite Hsame, map_map.
      apply map_ext_in. intros m Hin. apply Hreload.
      apply (Permutation_in m Hperm1). exact Hin.
  - intros Hnone. unfold get_conversation. rewrite Hnone. cbn [snd].
    rewrite Hnone. reflexivity.
Qed.

Lemma get_conversation_marks_read_idempotent_witness :
  (exists msgs msgs',
     fst (get_conversation oldest_first 2 alice market) = Returned msgs
     /\ Forall2
          (fun m m' =>
             (m' = m \/ m' = Message.set_is_read true m)
             /\ (Message.sender_id m = 2 ->
                 Message.receiver_id m = User.id alice ->
                 Message.is_read m' = true))
          (messages market)
          (messages (snd (get_conversation oldest_first 2 alice market)))
     /\ fst (get_conversation oldest_first_ties_reversed 2 alice
               (snd (get_conversation oldest_first 2 alice market)))
        = Returned msgs'
     /\ Permutation msgs' msgs
     /\ msgs' = msgs)
  /\ snd (get_conversation oldest_first_ties_reversed 2 alice
            (snd (get_conversation oldest_first 2 alice market)))
     = snd (get_conversation oldest_first 2 alice market)
  /\ get_conversation oldest_first_ties_reversed 99 alice
       (snd (get_conversation oldest_first 99 alice market))
     = get_conversation oldest_first 99 alice market.
Proof.
  destruct (get_conversation_marks_read_idempotent
              oldest_first oldest_first_ties_reversed 2 alice market
              oldest_first_orders oldest_first_ties_reversed_orders)
    as [H1 [H2 _]].
  destruct (get_conversation_marks_read_idempotent
              oldest_first oldest_first_ties_reversed 99 alice market
              oldest_first_orders oldest_first_ties_reversed_orders)
    as [_ [_ H3]].
  split; [|split; [exact H2 | apply H3; reflexivity]].
  destruct (H1 bob eq_refl) as [msgs [msgs' [Ha [Hb [Hc [Hd He]]]]]].
  exists msgs, msgs'.
  split; [exact Ha|]. split; [exact Hb|]. split; [exact Hc|].
  split; [exact Hd|].
  apply He. vm_compute.
  repeat constructor; simpl; intuition discriminate.
Defined.

(** ** Messages: the read flag never goes back *)

Section ReadFlag.

Variable i : Z.

Lemma existsb_filter_false (j : Z) (q : Message.t -> bool)
    (rows : list Message.t) :
  existsb (Z.eqb j) (map Message.id rows) = false ->
  existsb (Z.eqb j) (map Message.id (filter q rows)) = false.
Proof.
  induction rows as [|r rows IH]; simpl; [auto|].
  intros H. apply orb_false_iff in H. destruct H as [H1 H2].
  destruct (q r); simpl; [rewrite H1|]; auto.
Qed.

Lemma distinct_filter (q : Message.t -> bool) (rows : list Message.t) :
  distinct (map Message.id rows) = true ->
  distinct (map Message.id (filter q rows)) = true.
Proof.
  induction rows as [|r rows IH]; simpl; [auto|].
  intros H. apply andb_true_iff in H. destruct H as [H1 H2].
  destruct (q r); simpl; [|auto].
  rewrite (IH H2), andb_true_r.
  apply negb_true_iff. apply existsb_filter_false.
  apply negb_true_iff. exact H1.
Qed.

Lemma distinct_append (rows : list Message.t) (s : Z) (new : Message.t) :
  distinct (map Message.id rows) = true ->
  forallb (fun m => Message.id m <=? s) rows = true ->
  Message.id new = s + 1 ->
  distinct (map Message.id (rows ++ [new])) = true.
Proof.
  intros Hd Hb Hnew. induction rows as [|r rows IH]; simpl; [reflexivity|].
  simpl in Hd, Hb.
  apply andb_true_iff in Hd. destruct Hd as [Hd1 Hd2].
  apply andb_true_iff in Hb. destruct Hb as [Hb1 Hb2].
  rewrite (IH Hd2 Hb2), andb_true_r.
  rewrite map_app, existsb_app. simpl.
  apply negb_true_iff in Hd1. rewrite Hd1. simpl.
  rewrite orb_false_r. apply negb_true_iff. apply Z.eqb_neq.
  apply Z.leb_le in Hb1. lia.
Qed.

Lemma find_unique (rows : list Message.t) (m : Message.t) :
  distinct (map Message.id rows) = true ->
  In m rows ->
  find (fun r => Message.id r =? Message.id m) rows = Some m.
Proof.
  induction rows as [|r rows IH]; simpl; [intros _ []|].
  intros Hd [Heq|Hin].
  - subst r. rewrite Z.eqb_refl. reflexivity.
  - apply andb_true_iff in Hd. destruct Hd as [Hd1 Hd2].
    destruct (Message.id r =? Message.id m) eqn:E; [|auto].
    exfalso. apply Z.eqb_eq in E.
    apply negb_true_iff in Hd1.
    assert (Hex : existsb (Z.eqb (Message.id r)) (map Message.id rows) = true).
    { apply existsb_exists. exists (Message.id m). split.
      - apply in_map. exact Hin.
      - apply Z.eqb_eq. exact E. }
    rewrite Hex in Hd1. discriminate.
Qed.

(** The four ways a handler rewrites the [messages] table. *)

Lemma read_or_gone_same (db db' : Database) :
  messages db' = messages db ->
  messages_id_seq db' = messages_id_seq db ->
  read_or_gone i db -> read_or_gone i db'.
Proof.
  intros Em Es. unfold read_or_gone, messages_pk_ok, query_message.
  rewrite Em, Es. auto.
Qed.

Lemma read_or_gone_skip (db db' : Database) :
  messages db' = messages db ->
  messages_id_seq db' = messages_id_seq db + 1 ->
  read_or_gone i db -> read_or_gone i db'.
Proof.
  intros Em Es [Hpk [Hle Hread]].
  unfold messages_pk_ok in Hpk. apply andb_true_iff in Hpk.
  destruct Hpk as [Hd Hb].
  unfold read_or_gone, messages_pk_ok, query_message. rewrite Em, Es.
  split; [|split].
  - apply andb_true_iff. split; [exact Hd|].
    apply forallb_forall. intros x Hx.
    rewrite forallb_forall in Hb. specialize (Hb x Hx).
    apply Z.leb_le in Hb. apply Z.leb_le. lia.
  - lia.
  - exact Hread.
Qed.

Lemma read_or_gone_insert (db db' : Database) (new : Message.t) :
  messages db' = messages db ++ [new] ->
  messages_id_seq db' = messages_id_seq db + 1 ->
  Message.id new = messages_id_seq db + 1 ->
  read_or_gone i db -> read_or_gone i db'.
Proof.
  intros Em Es Hnew [Hpk [Hle Hread]].
  unfold messages_pk_ok in Hpk. apply andb_true_iff in Hpk.
  destruct Hpk as [Hd Hb].
  unfold read_or_gone, messages_pk_ok, query_message. rewrite Em, Es.
  split; [|split].
  - apply andb_true_iff. split.
    + apply (distinct_append _ (messages_id_seq db)); assumption.
    + rewrite forallb_app. apply andb_true_iff. split.
      * apply forallb_forall. intros x Hx.
        rewrite forallb_forall in Hb. specialize (Hb x Hx).
        apply Z.leb_le in Hb. apply Z.leb_le. lia.
      * simpl. rewrite Hnew, Z.leb_refl. reflexivity.
  - lia.
  - intros m Hm.
    destruct (find (fun r => Message.id r =? i) (messages db)) as [m0|] eqn:E.
    + rewrite (find_app_some _ _ [new] _ E) in Hm.
      injection Hm as Hm. subst m0. apply Hread. exact E.
    + exfalso.
      rewrite (find_app_none _ _ [new] E) in Hm. simpl in Hm.
      rewrite Hnew in Hm.
      assert (Hne : (messages_id_seq db + 1 =? i) = false)
        by (apply Z.eqb_neq; lia).
      rewrite Hne in Hm. discriminate.
Qed.

Lemma read_or_gone_update (db db' : Database) (g : Message.t -> Message.t) :
  (forall m, Message.id (g m) = Message.id m) ->
  (forall m, Message.is_read m = true -> Message.is_read (g m) = true) ->
  messages db' = map g (messages db) ->
  messages_id_seq db' = messages_id_seq db ->
  read_or_gone i db -> read_or_gone i db'.
Proof.
  intros Hid Hlatch Em Es [Hpk [Hle Hread]].
  unfold read_or_gone, messages_pk_ok, query_message in *. rewrite Em, Es.
  split; [|split; [exact Hle|]].
  - rewrite map_map.
    rewrite (map_ext (fun x => Message.id (g x)) Message.id Hid).
    apply andb_true_iff in Hpk. destruct Hpk as [Hd Hb].
    rewrite Hd. simpl.
    rewrite forallb_forall in Hb. apply forallb_forall.
    intros x Hx. apply in_map_iff in Hx. destruct Hx as [y [Hy Hin]].
    subst x. rewrite Hid. apply Hb. exact Hin.
  - intros m Hm.
    rewrite find_map_invariant in Hm by (intros r; rewrite Hid; reflexivity).
    destruct (find (fun r => Message.id r =? i) (messages db)) as [m0|];
      [|discriminate].
    simpl in Hm. injection Hm as Hm. subst m. apply Hlatch. apply Hread.
    reflexivity.
Qed.

Lemma read_or_gone_delete (db db' : Database) (q : Message.t -> bool) :
  messages db' = filter q (messages db) ->
  messages_id_seq db' = messages_id_seq db ->
  read_or_gone i db -> read_or_gone i db'.
Proof.
  intros Em Es [Hpk [Hle Hread]].
  unfold read_or_gone, messages_pk_ok, query_message in *. rewrite Em, Es.
  apply andb_true_iff in Hpk. destruct Hpk as [Hd Hb].
  split; [|split; [exact Hle|]].
  - rewrite (distinct_filter q _ Hd). simpl.
    rewrite forallb_forall in Hb. apply forallb_forall.
    intros x Hx. apply filter_In in Hx. apply Hb. apply Hx.
  - intros m Hm. apply Hread.
    apply find_some in Hm. destruct Hm as [Hin Hi].
    apply filter_In in Hin. destruct Hin as [Hin _].
    apply Z.eqb_eq in Hi. subst i.
    apply find_unique; assumption.
Qed.

End ReadFlag.

Ltac messages_untouched h :=
  intros H; unfold h; case_on_branches; cbn [snd]; try exact H;
  (eapply read_or_gone_same; [| | exact H]; reflexivity).

Lemma create_listing_read i today now request u db :
  read_or_gone i db -> read_or_gone i (snd (create_listing today now request u db)).
Proof. messages_untouched create_listing. Qed.

Lemma update_listing_read i now j request u db :
  read_or_gone i db -> read_or_gone i (snd (update_listing now j request u db)).
Proof. messages_untouched update_listing. Qed.

Lemma upload_seller_proof_read i now request u db :
  read_or_gone i db -> read_or_gone i (snd (upload_seller_proof now request u db)).
Proof. messages_untouched upload_seller_proof. Qed.

Lemma update_user_profile_read i now request u db :
  read_or_gone i db -> read_or_gone i (snd (update_user_profile now request u db)).
Proof. messages_untouched update_user_profile. Qed.

Lemma signup_read i hash_password create_access_token now request db :
  read_or_gone i db ->
  read_or_gone i (snd (signup hash_password create_access_token now request db)).
Proof. messages_untouched signup. Qed.

Lemma update_seller_rating_read i now uid db :
  read_or_gone i db -> read_or_gone i (update_seller_rating now uid db).
Proof.
  intros H. unfold update_seller_rating.
  destruct (query_profile_of uid db); [|exact H].
  eapply read_or_gone_same; [| | exact H]; reflexivity.
Qed.

Lemma create_review_read i now uid request u db :
  read_or_gone i db -> read_or_gone i (snd (create_review now uid request u db)).
Proof.
  intros H. unfold create_review. case_on_branches; cbn [snd]; try exact H.
  apply update_seller_rating_read.
  eapply read_or_gone_same; [| | exact H]; reflexivity.
Qed.

Lemma delete_listing_read i j u db :
  read_or_gone i db -> read_or_gone i (snd (delete_listing j u db)).
Proof.
  intros H. unfold delete_listing. case_on_branches; cbn [snd]; try exact H.
  eapply read_or_gone_delete; [| | exact H]; reflexivity.
Qed.

Lemma delete_message_read i j u db :
  read_or_gone i db -> read_or_gone i (snd (delete_message j u db)).
Proof.
  intros H. unfold delete_message. case_on_branches; cbn [snd]; try exact H.
  eapply read_or_gone_delete; [| | exact H]; reflexivity.
Qed.

Lemma send_message_read i now request u db :
  read_or_gone i db -> read_or_gone i (snd (send_message now request u db)).
Proof.
  intros H. unfold send_message. case_on_branches; cbn [snd]; try exact H.
  - eapply read_or_gone_skip; [| | exact H]; reflexivity.
  - eapply read_or_gone_insert; [| | | exact H]; reflexivity.
Qed.

Lemma set_where_id_latch (j : Z) :
  (forall m, Message.id (if Message.id m =? j
                         then Message.set_is_read true m else m)
             = Message.id m)
  /\ (forall m, Message.is_read m = true ->
                Message.is_read (if Message.id m =? j
                                 then Message.set_is_read true m else m)
                = true).
Proof.
  split; intros m; destruct (Message.id m =? j); simpl; auto.
Qed.

Lemma get_message_read i j u db :
  read_or_gone i db -> read_or_gone i (snd (get_message j u db)).
Proof.
  intros H. unfold get_message. case_on_branches; cbn [snd]; try exact H.
  eapply read_or_gone_update; [| | | | exact H];
    try apply set_where_id_latch; reflexivity.
Qed.

Lemma mark_as_read_read i j u db :
  read_or_gone i db -> read_or_gone i (snd (mark_as_read j u db)).
Proof.
  intros H. unfold mark_as_read. case_on_branches; cbn [snd]; try exact H.
  eapply read_or_gone_update; [| | | | exact H];
    try apply set_where_id_latch; reflexivity.
Qed.

Lemma get_conversation_read i sort other u db :
  read_or_gone i db -> read_or_gone i (snd (get_conversation sort other u db)).
Proof.
  intros H. unfold get_conversation. case_on_branches; cbn [snd]; try exact H.
  eapply read_or_gone_update; [| | | | exact H].
  - intros m. apply mark_read_id.
  - intros m. apply mark_read_columns.
  - cbn [messages with_messages]. apply flush_is_read_map.
  - reflexivity.
Qed.

Lemma authenticated_read {A} i token db
    (endpoint : User.t -> Database -> response A * Database) :
  (forall u, read_or_gone i db -> read_or_gone i (snd (endpoint u db))) ->
  read_or_gone i db -> read_or_gone i (authenticated token db endpoint).
Proof.
  intros H Hdb. unfold authenticated.
  destruct (get_current_user token db); auto.
Qed.

Lemma handle_read i hash_password create_access_token (c : Call) (db : Database) :
  read_or_gone i db ->
  read_or_gone i (handle hash_password create_access_token c db).
Proof.
  unfold handle. destruct (call_request c);
    try (apply authenticated_read; intros u).
  - apply signup_read.
  - apply update_user_profile_read.
  - apply create_review_read.
  - apply upload_seller_proof_read.
  - apply create_listing_read.
  - apply update_listing_read.
  - apply delete_listing_read.
  - apply send_message_read.
  - apply get_conversation_read.
  - apply get_message_read.
  - apply mark_as_read_read.
  - apply delete_message_read.
Qed.

Lemma run_read i hash_password create_access_token (trace : list Call) :
  forall db,
    read_or_gone i db ->
    read_or_gone i (run hash_password create_access_token trace db).
Proof.
  induction trace as [|c trace IH]; intros db H; simpl; [exact H|].
  apply IH. apply handle_read. exact H.
Qed.

(** C4. The read flag is monotonic.  In a store whose message keys are
    sound, take a message that is read; after any sequence of requests to
    the API (sending, fetching a conversation or a single message, marking
    as read, deleting, and every other endpoint), the message with that id,
    if it is still there, is read. *)
Theorem is_read_monotonic :
  forall (hash_password : string -> string)
         (create_access_token : Z -> Z -> string)
         (trace : list Call) (db : Database) (i : Z) (m m' : Message.t),
    messages_pk_ok db = true ->
    query_message i db = Some m ->
    Message.is_read m = true ->
    query_message i (run hash_password create_access_token trace db) = Some m' ->
    Message.is_read m' = true.
Proof.
  intros hash_password create_access_token trace db i m m' Hpk Hm Hread Hm'.
  assert (Hinv : read_or_gone i db).
  { split; [exact Hpk|]. split.
    - unfold messages_pk_ok in Hpk. apply andb_true_iff in Hpk.
      destruct Hpk as [_ Hb]. rewrite forallb_forall in Hb.
      unfold query_message in Hm. apply find_some in Hm.
      destruct Hm as [Hin Hi]. apply Z.eqb_eq in Hi.
      specialize (Hb m Hin). apply Z.leb_le in Hb. lia.
    - intros m0 Hm0. rewrite Hm in Hm0. injection Hm0 as Hm0.
      subst m0. exact Hread. }
  pose proof (run_read i hash_password create_access_token trace db Hinv)
    as [_ [_ Hkept]].
  apply Hkept. exact Hm'.
Qed.

Lemma is_read_monotonic_witness :
  exists m',
    query_message 2 (run (fun s => s) (fun _ _ => "token"%string) chat market)
    = Some m'
    /\ Message.is_read m' = true.
Proof.
  eexists. split; [reflexivity|].
  apply (is_read_monotonic (fun s => s) (fun _ _ => "token"%string) chat market 2
           (Message.mk 2 1 2 (Some 1) "yes" true 20)).
  - reflexivity.
  - reflexivity.
  - reflexivity.
  - reflexivity.
Defined.

(** Scenario C of the specification on the sample store: Alice has three
    unread messages from Bob; one fetch leaves none. *)
Example unread_count_drops_to_zero :
  List.length (filter (unread_from 2 1) (messages market)) = 3%nat
  /\ List.length
       (filter (unread_from 2 1)
          (messages (snd (get_conversation oldest_first 2 alice market)))) = 0%nat.
Proof. split; reflexivity. Qed.

(** ** Reputation: what the integer column keeps *)

Lemma int4_of_numeric_comp (a b : Q) :
  (a == b)%Q -> int4_of_numeric a = int4_of_numeric b.
Proof.
  intros H. unfold int4_of_numeric. rewrite H.
  destruct (Qle_bool 0 b).
  - apply Qfloor_comp. rewrite H. reflexivity.
  - apply Qceiling_comp. rewrite H. reflexivity.
Qed.

Lemma float_or_zero_eq (a : Q) : (float_or_zero (Some a) == a)%Q.
Proof.
  unfold float_or_zero. destruct (Qeq_bool a 0) eqn:E; [|reflexivity].
  apply Qeq_bool_iff in E. symmetry. exact E.
Qed.

(** A stored value of 5 or more means a mean of 4.5 or more: the threshold
    of the latch reads the same on the stored column. *)
Lemma stored_average_threshold (q : Q) :
  5 <= int4_of_numeric q -> (9 # 2 <= q)%Q.
Proof.
  unfold int4_of_numeric. destruct (Qle_bool 0 q) eqn:E; intros H.
  - pose proof (Qfloor_le (q + (1 # 2))) as Hfloor.
    assert (H5 : (inject_Z 5 <= inject_Z (Qfloor (q + (1 # 2))))%Q)
      by (rewrite <- Zle_Qle; exact H).
    pose proof (Qle_trans _ _ _ H5 Hfloor) as Hq.
    apply (Qplus_le_l _ _ (1 # 2)).
    eapply Qle_trans; [|exact Hq]. vm_compute. discriminate.
  - exfalso.
    assert (Hneg : (q - (1 # 2) <= 0)%Q).
    { destruct (Qlt_le_dec q 0) as [Hlt|Hge].
      - apply Qlt_le_weak.
        apply (Qplus_lt_l _ _ (1 # 2)). ring_simplify.
        eapply Qlt_trans; [exact Hlt|]. reflexivity.
      - apply Qle_bool_iff in Hge. rewrite Hge in E. discriminate. }
    pose proof (Qceiling_resp_le _ _ Hneg) as Hc.
    change (Qceiling 0) with 0 in Hc. lia.
Qed.

(** After a successful review of a user with a profile, the stored
    [average_rating] is the mean of all ratings received, rounded to the
    nearest integer. *)
Lemma create_review_stores_rounded_mean :
  forall (now user_id : Z) (request : ReviewCreateRequest) (actor : User.t)
         (db db' : Database) (review : Review.t) (p : UserProfile.t),
    create_review now user_id request actor db = (Returned review, db') ->
    query_profile_of user_id db = Some p ->
    exists p',
      query_profile_of user_id db' = Some p'
      /\ UserProfile.average_rating p'
         = int4_of_numeric (mean_rating user_id db').
Proof.
  intros now user_id request actor db db' review p Hrun Hp.
  unfold create_review in Hrun.
  destruct (user_id =? User.id actor); [discriminate|].
  destruct ((rc_rating request <? 1) || (5 <? rc_rating request));
    [discriminate|].
  destruct (query_user user_id db); [|discriminate].
  destruct (truthy (rc_listing_id request)
            && negb (fk_listing_ok (rc_listing_id request) db));
    [discriminate|].
  destruct (negb (fk_listing_ok (rc_listing_id request) db)); [discriminate|].
  injection Hrun as Hreview Hdb'.
  set (db1 := with_reviews (reviews db ++ [review]) (reviews_id_seq db + 1) db)
    in *.
  rewrite Hreview in Hdb'. fold db1 in Hdb'.
  assert (Hp1 : query_profile_of user_id db1 = Some p) by exact Hp.
  destruct (update_seller_rating_profile now user_id db1 p Hp1) as [Hq Hr].
  rewrite Hdb' in Hq, Hr.
  eexists. split; [exact Hq|].
  unfold apply_rating. cbn [UserProfile.average_rating].
  unfold mean_rating, ratings_of, reviews_of. rewrite Hr.
  assert (Hin : In review
                  (filter (fun r => Review.reviewed_user_id r =? user_id)
                     (reviews db1))).
  { apply filter_In. split.
    - unfold db1. cbn [reviews with_reviews]. apply in_or_app. right.
      left. reflexivity.
    - rewrite <- Hreview. cbn [Review.reviewed_user_id]. apply Z.eqb_refl. }
  destruct (filter (fun r => Review.reviewed_user_id r =? user_id) (reviews db1))
    as [|r rs]; [destruct Hin|].
  apply int4_of_numeric_comp.
  cbn [map func_avg]. apply float_or_zero_eq.
Qed.

(** Scenarios A and B of the specification, run from the empty store:
    three signups, five reviews of five stars for the first user, then one
    of one star.  The flag is set by the fifth review and survives the
    sixth; the mean drops to 13/3 while the stored average reads 4. *)
Example reputation_scenarios :
  let signups :=
    [mkCall 0 1 oldest_first (Signup (mkUserSignupRequest "ann" "ann@example.com" "pw"));
     mkCall 0 2 oldest_first (Signup (mkUserSignupRequest "ben" "ben@example.com" "pw"));
     mkCall 0 3 oldest_first (Signup (mkUserSignupRequest "cat" "cat@example.com" "pw"))] in
  let five (t : Z) (by_user : Z) :=
    mkCall 0 t oldest_first (CreateReview (Some by_user) 1 (mkReviewCreateRequest None 5 None)) in
  let one :=
    mkCall 0 20 oldest_first (CreateReview (Some 2) 1 (mkReviewCreateRequest None 1 None)) in
  let go := run (fun s => s) (fun _ _ => "token"%string) in
  let after_four := go (signups ++ [five 10 2; five 11 3; five 12 2; five 13 3]) empty_db in
  let after_five := go [five 14 2] after_four in
  let after_six := go [one] after_five in
  option_map UserProfile.is_verified_seller (query_profile_of 1 after_four)
  = Some false
  /\ option_map UserProfile.is_verified_seller (query_profile_of 1 after_five)
     = Some true
  /\ option_map UserProfile.average_rating (query_profile_of 1 after_five)
     = Some 5
  /\ option_map UserProfile.is_verified_seller (query_profile_of 1 after_six)
     = Some true
  /\ (mean_rating 1 after_six == 13 # 3)%Q
  /\ option_map UserProfile.average_rating (query_profile_of 1 after_six)
     = Some 4.
Proof. repeat split; reflexivity. Qed.

(** * Further properties of the endpoints *)

(** ** Sorting and paging *)

Lemma offset_limit_incl {A} (skip limit : Z) (l : list A) (x : A) :
  In x (offset_limit skip limit l) -> In x l.
Proof.
  unfold offset_limit. intros H.
  rewrite <- (firstn_skipn (Z.to_nat skip) l). apply in_or_app. right.
  rewrite <- (firstn_skipn (Z.to_nat limit) (skipn (Z.to_nat skip) l)).
  apply in_or_app. left. exact H.
Qed.

Lemma offset_limit_length {A} (skip limit : Z) (l : list A) :
  1 <= limit ->
  Z.of_nat (List.length (offset_limit skip limit l)) <= limit.
Proof.
  intros H. unfold offset_limit.
  pose proof (firstn_le_length (Z.to_nat limit) (skipn (Z.to_nat skip) l)).
  lia.
Qed.

(** ** Listings: creation, lookup, deletion *)






Lemma find_append_fresh {A} (id_of : A -> Z) (s : Z) (rows : list A) (new : A) :
  forallb (fun r => id_of r <=? s) rows = true ->
  id_of new = s + 1 ->
  find (fun r => id_of r =? s + 1) (rows ++ [new]) = Some new.
Proof.
  intros Hb Hnew. induction rows as [|r rows IH]; simpl.
  - rewrite Hnew, Z.eqb_refl. reflexivity.
  - simpl in Hb. apply andb_true_iff in Hb. destruct Hb as [Hr Hb].
    apply Z.leb_le in Hr.
    assert (E : (id_of r =? s + 1) = false) by (apply Z.eqb_neq; lia).
    rewrite E. apply IH. exact Hb.
Qed.

(** X2. A created listing can be fetched under the key it was given: in a
    store whose listing keys all come from the sequence, [get_listing] on
    the id of the listing that [create_listing] returned answers with
    that very listing. *)
Theorem create_listing_then_get_listing :
  forall (today now : Z) (request : ListingCreateRequest) (actor : User.t)
         (db db' : Database) (listing : Listing.t),
    listings_pk_ok db = true ->
    create_listing today now request actor db = (Returned listing, db') ->
    get_listing (Listing.id listing) db' = Returned listing.
Proof.
  intros today now request actor db db' listing Hpk H.
  unfold create_listing in H.
  destruct (lc_concert_date request <=? today); [discriminate|].
  destruct (Qle_bool (lc_price request) 0); [discriminate|].
  destruct (lc_quantity_available request <=? 0); [discriminate|].
  destruct (negb (numeric_10_2_ok (lc_price request)
                  && int4_ok (lc_quantity_available request)));
    [discriminate|].
  injection H as Hl Hdb. subst db' listing.
  unfold get_listing, query_listing. cbn [Listing.id listings with_listings].
  rewrite (find_append_fresh Listing.id (listings_id_seq db)); auto.
Qed.

Lemma create_listing_then_get_listing_witness :
  get_listing 2
    (snd (create_listing 100 50
            (mkListingCreateRequest "The Band" 20000 "Arena" None None None
               (90 # 1) 1 None) bob market))
  = Returned
      (Listing.mk 2 2 "The Band" 20000 "Arena" None None None (9000 # 100) 1
         None true 50 50).
Proof.
  apply (create_listing_then_get_listing 100 50
           (mkListingCreateRequest "The Band" 20000 "Arena" None None None
              (90 # 1) 1 None) bob market
           (snd (create_listing 100 50
                   (mkListingCreateRequest "The Band" 20000 "Arena" None None None
                      (90 # 1) 1 None) bob market))
           (Listing.mk 2 2 "The Band" 20000 "Arena" None None None (9000 # 100)
              1 None true 50 50)).
  - reflexivity.
  - reflexivity.
Defined.

Lemma find_filter_other {A} (id_of : A -> Z) (j k : Z) (rows : list A) :
  k <> j ->
  find (fun r => id_of r =? k) (filter (fun r => negb (id_of r =? j)) rows)
  = find (fun r => id_of r =? k) rows.
Proof.
  intros Hne. induction rows as [|r rows IH]; simpl; [reflexivity|].
  destruct (id_of r =? j) eqn:Ej; simpl.
  - apply Z.eqb_eq in Ej.
    assert (Ek : (id_of r =? k) = false) by (apply Z.eqb_neq; lia).
    rewrite Ek. exact IH.
  - destruct (id_of r =? k); [reflexivity | exact IH].
Qed.

Lemma find_filter_self {A} (id_of : A -> Z) (j : Z) (rows : list A) :
  find (fun r => id_of r =? j) (filter (fun r => negb (id_of r =? j)) rows)
  = None.
Proof.
  induction rows as [|r rows IH]; simpl; [reflexivity|].
  destruct (id_of r =? j) eqn:Ej; simpl; [exact IH|].
  rewrite Ej. exact IH.
Qed.

(** X3. When the seller deletes a listing, the listing is gone, every
    other listing is still found under its id, and the messages and
    reviews that refer to the listing are deleted with it while all other
    messages and reviews stay.  Users and profiles are not touched: the
    stored average rating of the seller is not recomputed although
    reviews disappear. *)
Theorem delete_listing_effect :
  forall (listing_id : Z) (actor : User.t) (db : Database) (listing : Listing.t),
    query_listing listing_id db = Some listing ->
    Listing.seller_id listing = User.id actor ->
    fst (delete_listing listing_id actor db) = Returned tt
    /\ query_listing listing_id (snd (delete_listing listing_id actor db)) = None
    /\ (forall k, k <> listing_id ->
          query_listing k (snd (delete_listing listing_id actor db))
          = query_listing k db)
    /\ (forall m,
          In m (messages (snd (delete_listing listing_id actor db)))
          <-> In m (messages db) /\ Message.listing_id m <> Some listing_id)
    /\ (forall r,
          In r (reviews (snd (delete_listing listing_id actor db)))
          <-> In r (reviews db) /\ Review.listing_id r <> Some listing_id)
    /\ users (snd (delete_listing listing_id actor db)) = users db
    /\ user_profiles (snd (delete_listing listing_id actor db)) = user_profiles db.
Proof.
  intros listing_id actor db listing Hq Hseller.
  pose proof (query_listing_id _ _ _ Hq) as Hid.
  unfold delete_listing. rewrite Hq.
  apply Z.eqb_eq in Hseller. rewrite Hseller. cbn [negb fst snd].
  rewrite Hid.
  assert (Hrefers : forall o, refers_to listing_id o = true <-> o = Some listing_id).
  { intros [j|]; simpl; split; intros H; try discriminate.
    - apply Z.eqb_eq in H. subst j. reflexivity.
    - injection H as H. subst j. apply Z.eqb_refl. }
  split; [reflexivity|]. split; [apply find_filter_self|].
  split; [intros k Hk; apply find_filter_other; exact Hk|].
  split; [|split; [|split; reflexivity]].
  - intros m. cbn [messages]. rewrite filter_In.
    split; intros [Hin H]; split; try exact Hin.
    + intros E. apply Hrefers in E. rewrite E in H. discriminate.
    + apply negb_true_iff.
      destruct (refers_to listing_id (Message.listing_id m)) eqn:E;
        [|reflexivity].
      apply Hrefers in E. contradiction.
  - intros r. cbn [reviews]. rewrite filter_In.
    split; intros [Hin H]; split; try exact Hin.
    + intros E. apply Hrefers in E. rewrite E in H. discriminate.
    + apply negb_true_iff.
      destruct (refers_to listing_id (Review.listing_id r)) eqn:E;
        [|reflexivity].
      apply Hrefers in E. contradiction.
Qed.

Lemma delete_listing_effect_witness :
  fst (delete_listing 1 alice market) = Returned tt
  /\ query_listing 1 (snd (delete_listing 1 alice market)) = None
  /\ (forall m,
        In m (messages (snd (delete_listing 1 alice market)))
        <-> In m (messages market) /\ Message.listing_id m <> Some 1)
  /\ user_profiles (snd (delete_listing 1 alice market)) = user_profiles market.
Proof.
  destruct (delete_listing_effect 1 alice market ticket eq_refl eq_refl)
    as [H1 [H2 [_ [H4 [_ [_ H7]]]]]].
  split; [exact H1|]. split; [exact H2|]. split; [exact H4 | exact H7].
Defined.

(** X4. For an existing seller, [get_seller_listings] returns exactly the
    stored listings of that seller that are available, each as often as
    it is stored, in ascending order of concert date; for an unknown
    seller id it answers 404. *)
Theorem get_seller_listings_result :
  forall (seller_id : Z) (db : Database),
    (query_user seller_id db = None ->
       fails_with (get_seller_listings seller_id db) HTTP_404_NOT_FOUND)
    /\
    (forall seller, query_user seller_id db = Some seller ->
       exists result,
         get_seller_listings seller_id db = Returned result
         /\ Permutation result
              (filter (fun l => (Listing.seller_id l =? seller_id)
                                && Listing.is_available l) (listings db))
         /\ (forall l, In l result <->
               In l (listings db) /\ Listing.seller_id l = seller_id
               /\ Listing.is_available l = true)
         /\ Sorted (fun a b => Listing.concert_date a <= Listing.concert_date b)
              result).
Proof.
  intros seller_id db. unfold get_seller_listings. split.
  - intros H. rewrite H. auto.
  - intros seller H. rewrite H. eexists. split; [reflexivity|].
    split; [apply order_by_perm|]. split.
    + intros l. rewrite order_by_In, filter_In, andb_true_iff, Z.eqb_eq.
      tauto.
    + pose proof (order_by_sorted (asc Listing.concert_date)
                    (asc_total Listing.concert_date)
                    (filter (fun l => (Listing.seller_id l =? seller_id)
                                      && Listing.is_available l) (listings db)))
        as Hs.
      eapply Sorted_ind with (P := fun l =>
          Sorted (fun a b => Listing.concert_date a <= Listing.concert_date b) l);
        [constructor | | exact Hs].
      intros a l _ IH Hhd. constructor; [exact IH|].
      destruct Hhd as [|b l Hab]; constructor.
      unfold asc in Hab. apply Z.leb_le in Hab. exact Hab.
Qed.

Lemma get_seller_listings_result_witness :
  fails_with (get_seller_listings 99 market) HTTP_404_NOT_FOUND
  /\ exists result,
       get_seller_listings 1 market = Returned result
       /\ (forall l, In l result <->
             In l (listings market) /\ Listing.seller_id l = 1
             /\ Listing.is_available l = true).
Proof.
  destruct (get_seller_listings_result 99 market) as [H404 _].
  destruct (get_seller_listings_result 1 market) as [_ Hok].
  split; [apply H404; reflexivity|].
  destruct (Hok alice eq_refl) as [result [H1 [_ [H3 _]]]].
  exists result. split; [exact H1 | exact H3].
Defined.

(** ** Accounts: signup, login, profile *)

Lemma find_none_app_last {A} (p : A -> bool) (l : list A) (x : A) :
  find p l = None -> p x = true -> find p (l ++ [x]) = Some x.
Proof.
  intros Hnone Hx. rewrite (find_app_none _ _ [x] Hnone). simpl.
  rewrite Hx. reflexivity.
Qed.

Lemma signup_unfold_success hash_password create_access_token now request db :
  find (fun u => String.eqb (User.username u) (su_username request)) (users db)
  = None ->
  find (fun u => String.eqb (User.email u) (su_email request)) (users db)
  = None ->
  profiles_unique_ok (users_id_seq db + 1) db = true ->
  signup hash_password create_access_token now request db
  = (let new_user :=
       User.mk (users_id_seq db + 1) (su_username request) (su_email request)
         (hash_password (su_password request)) false now now in
     let db1 := with_users (users db ++ [new_user]) (users_id_seq db + 1) db in
     let user_profile :=
       UserProfile.mk (user_profiles_id_seq db + 1) (users_id_seq db + 1)
         None None 0 false 0 now now in
     (Returned (mkTokenResponse (create_access_token (users_id_seq db + 1) now)
                  "bearer" new_user),
      with_user_profiles (user_profiles db1 ++ [user_profile])
        (user_profiles_id_seq db + 1) db1)).
Proof.
  intros Hu He Hp. unfold signup. rewrite Hu, He.
  assert (Huniq : users_unique_ok
                    (User.mk (users_id_seq db + 1) (su_username request)
                       (su_email request) (hash_password (su_password request))
                       false now now) db = true).
  { unfold users_unique_ok. cbn [User.username User.email].
    rewrite existsb_orb.
    rewrite (find_none_existsb _ _ Hu), (find_none_existsb _ _ He).
    reflexivity. }
  rewrite Huniq. cbn [negb].
  change (profiles_unique_ok (users_id_seq db + 1)
            (with_users
               (users db ++
                [User.mk (users_id_seq db + 1) (su_username request)
                   (su_email request) (hash_password (su_password request))
                   false now now])
               (users_id_seq db + 1) db))
    with (profiles_unique_ok (users_id_seq db + 1) db).
  rewrite Hp. reflexivity.
Qed.

(** X5. Signup with a username and an e-mail address that no user carries
    succeeds (in a store whose user keys come from the sequence and where
    no profile is already attached to the next key): it appends one user,
    unverified, holding the hash of the password, and one profile for that
    user with no sales, rating 0 and no verified-seller flag; the new id
    authenticates as the new user. *)
Theorem signup_creates_user_and_profile :
  forall (hash_password : string -> string)
         (create_access_token : Z -> Z -> string)
         (now : Z) (request : UserSignupRequest) (db : Database),
    find (fun u => String.eqb (User.username u) (su_username request)) (users db)
    = None ->
    find (fun u => String.eqb (User.email u) (su_email request)) (users db)
    = None ->
    users_pk_ok db = true ->
    profiles_unique_ok (users_id_seq db + 1) db = true ->
    exists token new_user profile db',
      signup hash_password create_access_token now request db
      = (Returned token, db')
      /\ user token = new_user
      /\ new_user
         = User.mk (users_id_seq db + 1) (su_username request) (su_email request)
             (hash_password (su_password request)) false now now
      /\ users db' = users db ++ [new_user]
      /\ user_profiles db' = user_profiles db ++ [profile]
      /\ get_current_user (Some (User.id new_user)) db' = Returned new_user
      /\ query_profile_of (User.id new_user) db' = Some profile
      /\ UserProfile.total_sales profile = 0
      /\ UserProfile.average_rating profile = 0
      /\ UserProfile.is_verified_seller profile = false.
Proof.
  intros hash_password create_access_token now request db Hu He Hpk Hp.
  rewrite (signup_unfold_success _ _ now request db Hu He Hp).
  cbv zeta. do 4 eexists.
  split; [reflexivity|]. split; [reflexivity|]. split; [reflexivity|].
  split; [reflexivity|]. split; [reflexivity|]. split; [|split].
  - unfold get_current_user, query_user.
    cbn [User.id users with_users with_user_profiles].
    rewrite (find_append_fresh User.id (users_id_seq db)); auto.
  - unfold query_profile_of.
    cbn [User.id user_profiles with_users with_user_profiles].
    apply find_none_app_last.
    + unfold profiles_unique_ok in Hp. apply negb_true_iff in Hp.
      destruct (find (fun p => UserProfile.user_id p =? users_id_seq db + 1)
                  (user_profiles db)) as [p|] eqn:E; [|exact E].
      apply find_some in E. destruct E as [Hin Hid].
      assert (Hex : existsb (fun p => UserProfile.user_id p =? users_id_seq db + 1)
                      (user_profiles db) = true)
        by (apply existsb_exists; exists p; auto).
      rewrite Hex in Hp. discriminate.
    + cbn [UserProfile.user_id]. apply Z.eqb_refl.
  - cbn. auto.
Qed.

Lemma signup_creates_user_and_profile_witness :
  exists token new_user profile db',
    signup (fun s => s) (fun _ _ => "token"%string) 50
      (mkUserSignupRequest "dave" "dave@example.com" "secret") market
    = (Returned token, db')
    /\ user token = new_user
    /\ new_user = User.mk 4 "dave" "dave@example.com" "secret" false 50 50
    /\ users db' = users market ++ [new_user]
    /\ user_profiles db' = user_profiles market ++ [profile]
    /\ get_current_user (Some (User.id new_user)) db' = Returned new_user
    /\ query_profile_of (User.id new_user) db' = Some profile
    /\ UserProfile.total_sales profile = 0
    /\ UserProfile.average_rating profile = 0
    /\ UserProfile.is_verified_seller profile = false.
Proof.
  apply (signup_creates_user_and_profile (fun s => s) (fun _ _ => "token"%string)
           50 (mkUserSignupRequest "dave" "dave@example.com" "secret") market);
    reflexivity.
Defined.

Lemma signup_success_inv hash_password create_access_token now request db
    token db' :
  signup hash_password create_access_token now request db = (Returned token, db') ->
  find (fun u => String.eqb (User.email u) (su_email request)) (users db) = None
  /\ user token
     = User.mk (users_id_seq db + 1) (su_username request) (su_email request)
         (hash_password (su_password request)) false now now
  /\ users db' = users db ++ [user token].
Proof.
  unfold signup. intros H.
  destruct (find (fun u => String.eqb (User.username u) (su_username request))
              (users db)); [discriminate|].
  destruct (find (fun u => String.eqb (User.email u) (su_email request))
              (users db)); [discriminate|].
  destruct (negb (users_unique_ok _ db)); [discriminate|].
  destruct (negb (profiles_unique_ok _ _)); [discriminate|].
  injection H as Ht Hdb. subst token db'. cbn. auto.
Qed.



(** X7. Signup and login compose: provided the password check accepts a
    password against its own hash, a login with the e-mail address and
    password of a successful signup returns a bearer token for the user
    that signup created; with a password the check rejects, the same login
    is answered 401. *)
Theorem signup_then_login :
  forall (hash_password : string -> string)
         (verify_password : string -> string -> bool)
         (create_access_token : Z -> Z -> string)
         (now later : Z) (request : UserSignupRequest)
         (db db' : Database) (token : TokenResponse),
    (forall p, verify_password p (hash_password p) = true) ->
    signup hash_password create_access_token now request db
    = (Returned token, db') ->
    login verify_password create_access_token later
      (mkUserLoginRequest (su_email request) (su_password request)) db'
    = Returned (mkTokenResponse (create_access_token (User.id (user token)) later)
                  "bearer" (user token))
    /\ (forall wrong,
          verify_password wrong (hash_password (su_password request)) = false ->
          fails_with
            (login verify_password create_access_token later
               (mkUserLoginRequest (su_email request) wrong) db')
            HTTP_401_UNAUTHORIZED).
Proof.
  intros hash_password verify_password create_access_token now later request
         db db' token Hverify Hfirst.
  destruct (signup_success_inv _ _ _ _ _ _ _ Hfirst) as [Hnone [Huser Husers]].
  assert (Hfind : find (fun u => String.eqb (User.email u) (su_email request))
                    (users db') = Some (user token)).
  { rewrite Husers. apply find_none_app_last; [exact Hnone|].
    rewrite Huser. cbn [User.email]. apply String.eqb_refl. }
  unfold login. cbn [lg_email lg_password]. rewrite Hfind.
  assert (Hhash : User.password_hash (user token)
                  = hash_password (su_password request))
    by (rewrite Huser; reflexivity).
  rewrite Hhash. split.
  - rewrite Hverify. reflexivity.
  - intros wrong Hwrong. rewrite Hwrong. simpl. auto.
Qed.

Lemma signup_then_login_witness :
  login String.eqb (fun _ _ => "token"%string) 60
    (mkUserLoginRequest "dave@example.com" "secret")
    (snd (signup (fun s => s) (fun _ _ => "token"%string) 50
            (mkUserSignupRequest "dave" "dave@example.com" "secret") market))
  = Returned (mkTokenResponse "token" "bearer"
                (User.mk 4 "dave" "dave@example.com" "secret" false 50 50)).
Proof.
  apply (proj1 (signup_then_login (fun s => s) String.eqb
                  (fun _ _ => "token"%string) 50 60
                  (mkUserSignupRequest "dave" "dave@example.com" "secret")
                  market
                  (snd (signup (fun s => s) (fun _ _ => "token"%string) 50
                          (mkUserSignupRequest "dave" "dave@example.com" "secret")
                          market))
                  (mkTokenResponse "token" "bearer"
                     (User.mk 4 "dave" "dave@example.com" "secret" false 50 50))
                  String.eqb_refl eq_refl)).
Defined.

(** X8. Updating one's profile never touches the reputation: in every
    profile row the user, sales counter, average rating, verified-seller
    flag and creation time are as before, and a row with another primary
    key than the caller's profile is identical; the caller's bio and
    picture change only where the request gives a value.  A caller without
    a profile row is answered 404 and nothing changes. *)
Theorem update_user_profile_frame :
  forall (now : Z) (request : UserProfileUpdateRequest) (actor : User.t)
         (db : Database),
    (query_profile_of (User.id actor) db = None ->
       fails_with (fst (update_user_profile now request actor db))
                  HTTP_404_NOT_FOUND
       /\ snd (update_user_profile now request actor db) = db)
    /\
    (forall profile,
       query_profile_of (User.id actor) db = Some profile ->
       fst (update_user_profile now request actor db)
       = Returned (apply_profile_update request now profile)
       /\ (pu_bio request = None ->
           UserProfile.bio (apply_profile_update request now profile)
           = UserProfile.bio profile)
       /\ (pu_profile_picture_url request = None ->
           UserProfile.profile_picture_url (apply_profile_update request now profile)
           = UserProfile.profile_picture_url profile)
       /\ Forall2
            (fun p p' =>
               UserProfile.id p' = UserProfile.id p
               /\ UserProfile.user_id p' = UserProfile.user_id p
               /\ UserProfile.total_sales p' = UserProfile.total_sales p
               /\ UserProfile.average_rating p' = UserProfile.average_rating p
               /\ UserProfile.is_verified_seller p' = UserProfile.is_verified_seller p
               /\ UserProfile.created_at p' = UserProfile.created_at p
               /\ (UserProfile.id p <> UserProfile.id profile -> p' = p))
            (user_profiles db)
            (user_profiles (snd (update_user_profile now request actor db)))
       /\ users (snd (update_user_profile now request actor db)) = users db
       /\ reviews (snd (update_user_profile now request actor db)) = reviews db).
Proof.
  intros now request actor db. unfold update_user_profile. split.
  - intros H. rewrite H. simpl. auto.
  - intros profile H. rewrite H. cbn [fst snd].
    split; [reflexivity|].
    split; [intros E; unfold apply_profile_update; simpl; rewrite E; reflexivity|].
    split; [intros E; unfold apply_profile_update; simpl; rewrite E; reflexivity|].
    split; [|split; reflexivity].
    cbn [user_profiles with_user_profiles].
    eapply Forall2_impl; [|apply Forall2_update_where_id].
    intros p p' Hp. simpl in Hp. subst p'.
    destruct (UserProfile.id p =? UserProfile.id profile) eqn:E.
    + simpl. repeat split. intros Hne. apply Z.eqb_eq in E. contradiction.
    + repeat split.
Qed.

Lemma update_user_profile_frame_witness :
  fails_with
    (fst (update_user_profile 50 (mkUserProfileUpdateRequest (Some "hi"%string) None)
            carol market))
    HTTP_404_NOT_FOUND
  /\ fst (update_user_profile 50 (mkUserProfileUpdateRequest (Some "hi"%string) None)
            bob market)
     = Returned (apply_profile_update
                   (mkUserProfileUpdateRequest (Some "hi"%string) None) 50
                   (fresh_profile 2 2)).
Proof.
  destruct (update_user_profile_frame 50
              (mkUserProfileUpdateRequest (Some "hi"%string) None) carol market)
    as [Hnone _].
  destruct (update_user_profile_frame 50
              (mkUserProfileUpdateRequest (Some "hi"%string) None) bob market)
    as [_ Hsome].
  split.
  - apply Hnone. reflexivity.
  - apply (Hsome (fresh_profile 2 2)). reflexivity.
Defined.

Lemma create_review_users now uid request actor db :
  users (snd (create_review now uid request actor db)) = users db.
Proof.
  unfold create_review, update_seller_rating.
  case_on_branches; reflexivity.
Qed.

(** X9. What the public profile shows after a review: when a review of a
    user with a profile has been created, [get_user_profile] of that user
    succeeds and reports as average rating the mean of all ratings the
    user has received, rounded to the nearest integer. *)
Theorem public_profile_after_review :
  forall (now user_id : Z) (request : ReviewCreateRequest) (actor : User.t)
         (db db' : Database) (review : Review.t) (p : UserProfile.t),
    create_review now user_id request actor db = (Returned review, db') ->
    query_profile_of user_id db = Some p ->
    exists shown,
      get_user_profile user_id db' = Returned shown
      /\ pp_id shown = user_id
      /\ pp_average_rating shown = int4_of_numeric (mean_rating user_id db').
Proof.
  intros now user_id request actor db db' review p Hrun Hp.
  destruct (create_review_stores_rounded_mean _ _ _ _ _ _ _ _ Hrun Hp)
    as [p' [Hp' Havg]].
  assert (Husers : users db' = users db).
  { pose proof (create_review_users now user_id request actor db) as H.
    rewrite Hrun in H. exact H. }
  assert (Huser : exists u, query_user user_id db = Some u).
  { unfold create_review in Hrun.
    destruct (user_id =? User.id actor); [discriminate|].
    destruct ((rc_rating request <? 1) || (5 <? rc_rating request));
      [discriminate|].
    destruct (query_user user_id db) as [u|]; [|discriminate].
    exists u. reflexivity. }
  destruct Huser as [u Hu].
  unfold get_user_profile.
  assert (Hu' : query_user user_id db' = Some u)
    by (unfold query_user in *; rewrite Husers; exact Hu).
  rewrite Hu', Hp'. eexists. split; [reflexivity|].
  cbn [pp_id pp_average_rating]. split; [|exact Havg].
  unfold query_user in Hu. apply find_some in Hu.
  destruct Hu as [_ Hu]. apply Z.eqb_eq in Hu. exact Hu.
Qed.

Lemma public_profile_after_review_witness :
  exists shown,
    get_user_profile 2
      (snd (create_review 50 2 (mkReviewCreateRequest None 4 None) alice reputation))
    = Returned shown
    /\ pp_id shown = 2
    /\ pp_average_rating shown
       = int4_of_numeric
           (mean_rating 2
              (snd (create_review 50 2 (mkReviewCreateRequest None 4 None)
                      alice reputation))).
Proof.
  apply (public_profile_after_review 50 2 (mkReviewCreateRequest None 4 None)
           alice reputation
           (snd (create_review 50 2 (mkReviewCreateRequest None 4 None)
                   alice reputation))
           (Review.mk 3 1 2 None 4 None 50)
           (UserProfile.mk 2 2 None None 0 false 5 0 40)).
  - reflexivity.
  - reflexivity.
Defined.

(** ** Reviews and seller proof: the listings of a user's record *)

Lemma Sorted_skipn {A} (R : A -> A -> Prop) (n : nat) (l : list A) :
  Sorted R l -> Sorted R (skipn n l).
Proof.
  revert l. induction n as [|n IH]; intros l Hs; simpl; [exact Hs|].
  destruct l as [|x l]; [constructor|].
  apply IH. inversion Hs; assumption.
Qed.

Lemma Sorted_firstn {A} (R : A -> A -> Prop) (n : nat) (l : list A) :
  Sorted R l -> Sorted R (firstn n l).
Proof.
  revert l. induction n as [|n IH]; intros l Hs; simpl; [constructor|].
  destruct l as [|x l]; [constructor|].
  inversion Hs as [|? ? Hs' Hhd]; subst.
  constructor; [apply IH; exact Hs'|].
  destruct n; simpl; [constructor|].
  destruct Hhd; constructor. assumption.
Qed.

Lemma offset_limit_sorted {A} (R : A -> A -> Prop) (skip limit : Z) (l : list A) :
  Sorted R l -> Sorted R (offset_limit skip limit l).
Proof.
  intros H. unfold offset_limit. apply Sorted_firstn, Sorted_skipn. exact H.
Qed.

Lemma offset_limit_all {A} (limit : Z) (l : list A) :
  Z.of_nat (List.length l) <= limit -> offset_limit 0 limit l = l.
Proof.
  intros H. unfold offset_limit. simpl. apply firstn_all2. lia.
Qed.

(** X10. [get_user_reviews] answers 422 when [skip] is negative or [limit]
    is outside 1..50, and 404 for an unknown user.  Otherwise it returns
    one entry per selected review, at most [limit] of them, every one a
    stored review of that user, newest first; with [skip = 0] and a limit
    that covers them, all reviews of the user are returned. *)
Theorem get_user_reviews_result :
  forall (user_id skip limit : Z) (db : Database),
    (query_params_ok skip limit 50 = false ->
       fails_with (get_user_reviews user_id skip limit db)
                  HTTP_422_UNPROCESSABLE_ENTITY)
    /\ (query_params_ok skip limit 50 = true ->
        query_user user_id db = None ->
          fails_with (get_user_reviews user_id skip limit db) HTTP_404_NOT_FOUND)
    /\ (forall u,
          query_params_ok skip limit 50 = true ->
          query_user user_id db = Some u ->
          exists rows,
            get_user_reviews user_id skip limit db
            = Returned (map (review_response db) rows)
            /\ Z.of_nat (List.length rows) <= limit
            /\ (forall r, In r rows ->
                  In r (reviews db) /\ Review.reviewed_user_id r = user_id)
            /\ Sorted (fun a b => Review.created_at b <= Review.created_at a) rows
            /\ (skip = 0 -> review_count user_id db <= limit ->
                Permutation rows (reviews_of user_id db))).
Proof.
  intros user_id skip limit db. unfold get_user_reviews.
  split; [|split].
  - intros H. rewrite H. simpl. auto.
  - intros H Hu. rewrite H, Hu. simpl. auto.
  - intros u H Hu. rewrite H, Hu. cbn [negb].
    eexists. split; [reflexivity|].
    unfold query_params_ok in H.
    apply andb_true_iff in H. destruct H as [H Hmax].
    apply andb_true_iff in H. destruct H as [Hskip Hlimit].
    apply Z.leb_le in Hlimit.
    split; [apply offset_limit_length; exact Hlimit|]. split; [|split].
    + intros r Hr. apply offset_limit_incl in Hr.
      apply order_by_In in Hr. unfold reviews_of in Hr.
      apply filter_In in Hr. destruct Hr as [Hin Hid].
      apply Z.eqb_eq in Hid. auto.
    + apply offset_limit_sorted.
      eapply Sorted_weaken;
        [|apply (order_by_sorted (desc Review.created_at)
                   (desc_total Review.created_at))].
      intros a b Hab. unfold desc in Hab. apply Z.leb_le in Hab. exact Hab.
    + intros Hzero Hcount. subst skip.
      rewrite offset_limit_all.
      * apply order_by_perm.
      * rewrite (Permutation_length (order_by_perm _ _)). exact Hcount.
Qed.

Lemma get_user_reviews_result_witness :
  fails_with (get_user_reviews 2 0 51 five_stars) HTTP_422_UNPROCESSABLE_ENTITY
  /\ fails_with (get_user_reviews 99 0 10 five_stars) HTTP_404_NOT_FOUND
  /\ exists rows,
       get_user_reviews 2 0 10 five_stars = Returned (map (review_response five_stars) rows)
       /\ Z.of_nat (List.length rows) <= 10
       /\ Permutation rows (reviews_of 2 five_stars).
Proof.
  destruct (get_user_reviews_result 2 0 51 five_stars) as [H422 _].
  destruct (get_user_reviews_result 99 0 10 five_stars) as [_ [H404 _]].
  destruct (get_user_reviews_result 2 0 10 five_stars) as [_ [_ Hok]].
  split; [apply H422; reflexivity|].
  split; [apply H404; reflexivity|].
  destruct (Hok bob eq_refl eq_refl) as [rows [H1 [H2 [_ [_ H5]]]]].
  exists rows. split; [exact H1|]. split; [exact H2|].
  apply H5; [reflexivity|]. apply Z.leb_le. reflexivity.
Defined.

(** X11. An uploaded proof shows up: after [upload_seller_proof] by an
    existing user, [get_seller_proof] for that user succeeds, lists the
    new proof, and lists only proofs of that seller, newest first. *)
Theorem upload_then_get_seller_proof :
  forall (now : Z) (request : SellerProofCreateRequest) (actor : User.t)
         (db : Database),
    query_user (User.id actor) db = Some actor ->
    exists new_proof shown,
      fst (upload_seller_proof now request actor db) = Returned new_proof
      /\ SellerProof.proof_image_url new_proof = sp_proof_image_url request
      /\ get_seller_proof (User.id actor)
           (snd (upload_seller_proof now request actor db))
         = Returned shown
      /\ In new_proof shown
      /\ (forall p, In p shown -> SellerProof.seller_id p = User.id actor)
      /\ Sorted (fun a b => SellerProof.created_at b <= SellerProof.created_at a)
           shown.
Proof.
  intros now request actor db Hactor.
  unfold upload_seller_proof. cbn [fst snd].
  do 2 eexists. split; [reflexivity|]. split; [reflexivity|].
  unfold get_seller_proof.
  change (query_user (User.id actor) (with_seller_proof _ _ db))
    with (query_user (User.id actor) db).
  rewrite Hactor. split; [reflexivity|]. split; [|split].
  - apply order_by_In. apply filter_In. split.
    + cbn [seller_proof with_seller_proof]. apply in_or_app. right.
      left. reflexivity.
    + cbn [SellerProof.seller_id]. apply Z.eqb_refl.
  - intros p Hp. apply order_by_In in Hp. apply filter_In in Hp.
    destruct Hp as [_ Hp]. apply Z.eqb_eq in Hp. exact Hp.
  - eapply Sorted_weaken;
      [|apply (order_by_sorted (desc SellerProof.created_at)
                 (desc_total SellerProof.created_at))].
    intros a b Hab. unfold desc in Hab. apply Z.leb_le in Hab. exact Hab.
Qed.

Lemma upload_then_get_seller_proof_witness :
  exists new_proof shown,
    fst (upload_seller_proof 50
           (mkSellerProofCreateRequest "https://example.com/p.jpg" None)
           alice market) = Returned new_proof
    /\ SellerProof.proof_image_url new_proof = "https://example.com/p.jpg"%string
    /\ get_seller_proof (User.id alice)
         (snd (upload_seller_proof 50
                 (mkSellerProofCreateRequest "https://example.com/p.jpg" None)
                 alice market))
       = Returned shown
    /\ In new_proof shown.
Proof.
  destruct (upload_then_get_seller_proof 50
              (mkSellerProofCreateRequest "https://example.com/p.jpg" None)
              alice market eq_refl)
    as [new_proof [shown [H1 [H2 [H3 [H4 _]]]]]].
  exists new_proof, shown. auto.
Defined.

(** ** Accounts are permanent *)

Lemma users_kept_refl db : users_kept db db.
Proof. exists []. symmetry. apply app_nil_r. Qed.

Lemma users_kept_trans db1 db2 db3 :
  users_kept db1 db2 -> users_kept db2 db3 -> users_kept db1 db3.
Proof.
  intros [e1 H1] [e2 H2]. exists (e1 ++ e2).
  rewrite H2, H1. symmetry. apply app_assoc.
Qed.

Lemma users_kept_same db db' : users db' = users db -> users_kept db db'.
Proof. intros H. exists []. rewrite H. symmetry. apply app_nil_r. Qed.

Ltac users_untouched h :=
  apply users_kept_same; unfold h; case_on_branches; reflexivity.

Lemma signup_users_kept hash_password create_access_token now request db :
  users_kept db (snd (signup hash_password create_access_token now request db)).
Proof.
  unfold signup. case_on_branches; cbn [snd]; try apply users_kept_refl;
    try (apply users_kept_same; reflexivity).
  - eexists. reflexivity.
  - eexists. reflexivity.
Qed.

Lemma authenticated_users_kept {A} token db
    (endpoint : User.t -> Database -> response A * Database) :
  (forall u, users_kept db (snd (endpoint u db))) ->
  users_kept db (authenticated token db endpoint).
Proof.
  intros H. unfold authenticated.
  destruct (get_current_user token db); auto using users_kept_refl.
Qed.

Lemma handle_users_kept hash_password create_access_token (c : Call) db :
  users_kept db (handle hash_password create_access_token c db).
Proof.
  unfold handle. destruct (call_request c);
    try (apply authenticated_users_kept; intros u).
  - apply signup_users_kept.
  - users_untouched update_user_profile.
  - apply users_kept_same. apply create_review_users.
  - users_untouched upload_seller_proof.
  - users_untouched create_listing.
  - users_untouched update_listing.
  - users_untouched delete_listing.
  - users_untouched send_message.
  - users_untouched get_conversation.
  - users_untouched get_message.
  - users_untouched mark_as_read.
  - users_untouched delete_message.
Qed.

Lemma run_users_kept hash_password create_access_token (trace : list Call) :
  forall db, users_kept db (run hash_password create_access_token trace db).
Proof.
  induction trace as [|c trace IH]; intros db; simpl.
  - apply users_kept_refl.
  - eapply users_kept_trans; [apply handle_users_kept | apply IH].
Qed.

(** X12. No endpoint deletes or rewrites a user: whatever requests are
    served, a token that authenticated as some user keeps authenticating
    as exactly that user row. *)
Theorem authentication_is_stable :
  forall (hash_password : string -> string)
         (create_access_token : Z -> Z -> string)
         (trace : list Call) (db : Database) (token : option Z) (u : User.t),
    get_current_user token db = Returned u ->
    get_current_user token (run hash_password create_access_token trace db)
    = Returned u.
Proof.
  intros hash_password create_access_token trace db token u H.
  destruct (run_users_kept hash_password create_access_token trace db)
    as [extra Hextra].
  unfold get_current_user in *. destruct token as [i|]; [|discriminate].
  unfold query_user in *. rewrite Hextra.
  destruct (find (fun x => User.id x =? i) (users db)) as [v|] eqn:E;
    [|discriminate].
  rewrite (find_app_some _ _ extra _ E). exact H.
Qed.

Lemma authentication_is_stable_witness :
  get_current_user (Some 2)
    (run (fun s => s) (fun _ _ => "token"%string) chat market)
  = Returned bob.
Proof.
  apply (authentication_is_stable (fun s => s) (fun _ _ => "token"%string)
           chat market (Some 2) bob).
  reflexivity.
Defined.

(** ** Messages: sending and reading *)

Lemma is_space_not_visible (c : Ascii.ascii) :
  is_space c = true -> is_visible c = false.
Proof.
  unfold is_space, is_visible, byte. intros H.
  rewrite orb_true_iff, !andb_true_iff, !Z.leb_le in H.
  apply andb_false_iff. rewrite !Z.leb_gt. lia.
Qed.

Lemma high_byte_not_visible (c : Ascii.ascii) :
  128 <= byte c -> is_visible c = false.
Proof.
  unfold is_visible, byte. intros H.
  apply andb_false_iff. rewrite !Z.leb_gt. lia.
Qed.

Lemma is_space2_high (c1 c2 : Ascii.ascii) :
  is_space2 c1 c2 = true -> 128 <= byte c1 /\ 128 <= byte c2.
Proof.
  unfold is_space2. intros H.
  rewrite andb_true_iff, orb_true_iff, !Z.eqb_eq in H. lia.
Qed.

Lemma is_space3_high (c1 c2 c3 : Ascii.ascii) :
  is_space3 c1 c2 c3 = true ->
  128 <= byte c1 /\ 128 <= byte c2 /\ 128 <= byte c3.
Proof.
  unfold is_space3. intros H.
  rewrite !orb_true_iff, !andb_true_iff, !orb_true_iff, !andb_true_iff,
    !Z.eqb_eq, !Z.leb_le in H.
  lia.
Qed.

Lemma has_visible_not_blank_upto (n : nat) :
  forall s, (String.length s <= n)%nat ->
            has_visible s = true -> strip_is_empty s = false.
Proof.
  induction n as [|n IH]; intros s Hlen Hvis.
  - destruct s; simpl in *; [discriminate | lia].
  - destruct s as [|c1 s1]; [discriminate|].
    cbn [strip_is_empty]. cbn [has_visible] in Hvis. cbn [String.length] in Hlen.
    destruct (is_space c1) eqn:E1.
    + apply IH; [lia|].
      rewrite (is_space_not_visible _ E1) in Hvis. exact Hvis.
    + destruct s1 as [|c2 s2]; [reflexivity|].
      cbn [has_visible] in Hvis. cbn [String.length] in Hlen.
      destruct (is_space2 c1 c2) eqn:E2.
      * apply IH; [lia|].
        destruct (is_space2_high _ _ E2) as [H1 H2].
        rewrite (high_byte_not_visible _ H1), (high_byte_not_visible _ H2)
          in Hvis.
        exact Hvis.
      * destruct s2 as [|c3 s3]; [reflexivity|].
        cbn [has_visible] in Hvis. cbn [String.length] in Hlen.
        destruct (is_space3 c1 c2 c3) eqn:E3; [|reflexivity].
        apply IH; [lia|].
        destruct (is_space3_high _ _ _ E3) as [H1 [H2 H3]].
        rewrite (high_byte_not_visible _ H1), (high_byte_not_visible _ H2),
          (high_byte_not_visible _ H3) in Hvis.
        exact Hvis.
Qed.

Lemma has_visible_not_blank (s : string) :
  has_visible s = true -> strip_is_empty s = false.
Proof. apply (has_visible_not_blank_upto (String.length s)). lia. Qed.

(** X13. The outcomes of [send_message], in the order the checks are
    made: a message to oneself is answered 400; else an unknown receiver
    404; else a listing id that is given (and not 0) but unknown 404; else
    a text that is empty or white space only 400.  Each of these refusals
    leaves the store as it was.  Otherwise, for a text with a visible
    character and the listing absent from the request or present in the
    store, one unread message from the caller to the receiver is appended
    under the next key of the sequence; a listing id 0 that names no
    listing passes the handler's test and is refused by the store's
    foreign key: no message is stored, but the key that the insert drew
    from the sequence is spent. *)
Theorem send_message_outcome :
  forall (now : Z) (request : MessageCreateRequest) (actor : User.t)
         (db : Database),
    (mc_receiver_id request = User.id actor ->
       fails_with (fst (send_message now request actor db)) HTTP_400_BAD_REQUEST
       /\ snd (send_message now request actor db) = db)
    /\
    (mc_receiver_id request <> User.id actor ->
     query_user (mc_receiver_id request) db = None ->
       fails_with (fst (send_message now request actor db)) HTTP_404_NOT_FOUND
       /\ snd (send_message now request actor db) = db)
    /\
    (forall receiver,
       mc_receiver_id request <> User.id actor ->
       query_user (mc_receiver_id request) db = Some receiver ->
       (truthy (mc_listing_id request) = true ->
        fk_listing_ok (mc_listing_id request) db = false ->
          fails_with (fst (send_message now request actor db)) HTTP_404_NOT_FOUND
          /\ snd (send_message now request actor db) = db)
       /\
       (truthy (mc_listing_id request) = false
        \/ fk_listing_ok (mc_listing_id request) db = true ->
        strip_is_empty (mc_message_text request) = true ->
          fails_with (fst (send_message now request actor db)) HTTP_400_BAD_REQUEST
          /\ snd (send_message now request actor db) = db)
       /\
       (truthy (mc_listing_id request) = false ->
        fk_listing_ok (mc_listing_id request) db = false ->
        has_visible (mc_message_text request) = true ->
          send_message now request actor db
          = (IntegrityError,
             with_messages (messages db) (messages_id_seq db + 1) db))
       /\
       (fk_listing_ok (mc_listing_id request) db = true ->
        has_visible (mc_message_text request) = true ->
          send_message now request actor db
          = (Returned
               (Message.mk (messages_id_seq db + 1) (User.id actor)
                  (mc_receiver_id request) (mc_listing_id request)
                  (mc_message_text request) false now),
             with_messages
               (messages db ++
                [Message.mk (messages_id_seq db + 1) (User.id actor)
                   (mc_receiver_id request) (mc_listing_id request)
                   (mc_message_text request) false now])
               (messages_id_seq db + 1) db))).
Proof.
  intros now request actor db. unfold send_message.
  split; [|split].
  - intros H. apply Z.eqb_eq in H. rewrite H. simpl. auto.
  - intros Hne Hnone. apply Z.eqb_neq in Hne. rewrite Hne, Hnone. simpl. auto.
  - intros receiver Hne Hsome. apply Z.eqb_neq in Hne. rewrite Hne, Hsome.
    split; [|split; [|split]].
    + intros Ht Hfk. rewrite Ht, Hfk. simpl. auto.
    + intros Hl Hblank.
      assert (E : truthy (mc_listing_id request)
                  && negb (fk_listing_ok (mc_listing_id request) db) = false).
      { destruct Hl as [Hl|Hl]; rewrite Hl; [reflexivity|].
        apply andb_false_r. }
      rewrite E, Hblank. simpl. auto.
    + intros Ht Hfk Htext. apply has_visible_not_blank in Htext.
      rewrite Ht, Hfk, Htext. reflexivity.
    + intros Hfk Htext. apply has_visible_not_blank in Htext.
      rewrite Hfk, Htext, andb_false_r. reflexivity.
Qed.

Lemma send_message_outcome_witness :
  (fails_with
     (fst (send_message 50 (mkMessageCreateRequest 1 "hi" None) alice market))
     HTTP_400_BAD_REQUEST
   /\ snd (send_message 50 (mkMessageCreateRequest 1 "hi" None) alice market)
      = market)
  /\ (fails_with
        (fst (send_message 50 (mkMessageCreateRequest 99 "hi" None) alice market))
        HTTP_404_NOT_FOUND
      /\ snd (send_message 50 (mkMessageCreateRequest 99 "hi" None) alice market)
         = market)
  /\ (fails_with
        (fst (send_message 50 (mkMessageCreateRequest 2 "  " (Some 1)) alice market))
        HTTP_400_BAD_REQUEST
      /\ snd (send_message 50 (mkMessageCreateRequest 2 "  " (Some 1)) alice market)
         = market)
  /\ send_message 50 (mkMessageCreateRequest 2 "hi" (Some 0)) alice market
     = (IntegrityError, with_messages (messages market) 5 market)
  /\ send_message 50 (mkMessageCreateRequest 2 "hi" (Some 1)) alice market
     = (Returned (Message.mk 5 1 2 (Some 1) "hi" false 50),
        with_messages
          (messages market ++ [Message.mk 5 1 2 (Some 1) "hi" false 50]) 5 market).
Proof.
  assert (Hother : forall r : Z, r <> 1 -> r <> User.id alice)
    by (intros r H; exact H).
  split; [|split; [|split; [|split]]].
  - apply (proj1 (send_message_outcome 50 (mkMessageCreateRequest 1 "hi" None)
                    alice market)).
    reflexivity.
  - apply (proj1 (proj2 (send_message_outcome 50
                           (mkMessageCreateRequest 99 "hi" None) alice market))).
    + apply Hother. discriminate.
    + reflexivity.
  - apply (proj1 (proj2 (proj2 (proj2 (send_message_outcome 50
                           (mkMessageCreateRequest 2 "  " (Some 1)) alice market))
                           bob (Hother 2 ltac:(discriminate)) eq_refl))).
    + right. reflexivity.
    + reflexivity.
  - apply (proj1 (proj2 (proj2 (proj2 (proj2 (send_message_outcome 50
                           (mkMessageCreateRequest 2 "hi" (Some 0)) alice market))
                           bob (Hother 2 ltac:(discriminate)) eq_refl)))).
    + reflexivity.
    + reflexivity.
    + reflexivity.
  - apply (proj2 (proj2 (proj2 (proj2 (proj2 (send_message_outcome 50
                           (mkMessageCreateRequest 2 "hi" (Some 1)) alice market))
                           bob (Hother 2 ltac:(discriminate)) eq_refl)))).
    + reflexivity.
    + reflexivity.
Defined.

(** X14. A message that was sent is delivered: when an existing user has
    sent a message (in a store whose message keys come from the sequence)
    and the receiver then fetches the conversation with the sender, the
    fetch succeeds, the returned conversation contains the message, shown
    as read, and the store holds it as read under its id.  This holds for
    every ordering by creation time that the storage engine may apply. *)
Theorem send_then_get_conversation :
  forall (sort : list Message.t -> list Message.t)
         (now : Z) (request : MessageCreateRequest) (actor receiver : User.t)
         (db db' : Database) (sent : Message.t),
    orders_by_created_at sort ->
    messages_pk_ok db = true ->
    query_user (User.id actor) db = Some actor ->
    User.id receiver = mc_receiver_id request ->
    send_message now request actor db = (Returned sent, db') ->
    exists conversation,
      fst (get_conversation sort (User.id actor) receiver db')
      = Returned conversation
      /\ Message.is_read sent = false
      /\ In (Message.set_is_read true sent) conversation
      /\ query_message (Message.id sent)
           (snd (get_conversation sort (User.id actor) receiver db'))
         = Some (Message.set_is_read true sent).
Proof.
  intros sort now request actor receiver db db' sent Hsort Hpk Hactor Hrcv
    Hsend.
  unfold send_message in Hsend.
  destruct (mc_receiver_id request =? User.id actor); [discriminate|].
  destruct (query_user (mc_receiver_id request) db); [|discriminate].
  destruct (truthy (mc_listing_id request)
            && negb (fk_listing_ok (mc_listing_id request) db)); [discriminate|].
  destruct (strip_is_empty (mc_message_text request)); [discriminate|].
  destruct (negb (fk_listing_ok (mc_listing_id request) db)); [discriminate|].
  injection Hsend as Hsent Hdb'.
  assert (Hid : Message.id sent = messages_id_seq db + 1)
    by (rewrite <- Hsent; reflexivity).
  assert (Hfrom : unread_from (User.id actor) (User.id receiver) sent = true).
  { rewrite <- Hsent. unfold unread_from.
    cbn [Message.sender_id Message.receiver_id Message.is_read].
    rewrite Hrcv, !Z.eqb_refl. reflexivity. }
  assert (Hbetween : between (User.id receiver) (User.id actor) sent = true).
  { rewrite <- Hsent. unfold between.
    cbn [Message.sender_id Message.receiver_id].
    rewrite Hrcv, !Z.eqb_refl. apply orb_true_r. }
  assert (Hrows : messages db' = messages db ++ [sent])
    by (rewrite <- Hdb', Hsent; reflexivity).
  assert (Hin : In sent (messages db'))
    by (rewrite Hrows; apply in_or_app; right; left; reflexivity).
  unfold messages_pk_ok in Hpk. apply andb_true_iff in Hpk.
  destruct Hpk as [_ Hb].
  unfold get_conversation.
  assert (Hactor' : query_user (User.id actor) db' = Some actor)
    by (rewrite <- Hdb'; exact Hactor).
  rewrite Hactor'. cbn [fst snd].
  rewrite flush_is_read_map.
  set (ids := map Message.id
                (filter (unread_from (User.id actor) (User.id receiver))
                   (messages db'))).
  assert (Hstored :
            query_message (Message.id sent)
              (with_messages (map (mark_read ids) (messages db'))
                 (messages_id_seq db') db')
            = Some (Message.set_is_read true sent)).
  { unfold query_message. cbn [messages with_messages].
    rewrite find_map_invariant
      by (intros r; rewrite mark_read_id; reflexivity).
    rewrite Hrows, Hid.
    rewrite (find_append_fresh Message.id (messages_id_seq db)); auto.
    simpl. unfold mark_read, ids.
    rewrite (existsb_id_of_member _ _ _ Hin Hfrom). reflexivity. }
  eexists. split; [reflexivity|].
  split; [rewrite <- Hsent; reflexivity|]. split; [|exact Hstored].
  apply in_map_iff. exists sent. split.
  - unfold reload. rewrite Hstored. reflexivity.
  - apply (Permutation_in sent (Permutation_sym (proj1 (Hsort _)))).
    apply filter_In. split; assumption.
Qed.

Lemma send_then_get_conversation_witness :
  exists conversation,
    fst (get_conversation oldest_first (User.id alice) bob
           (snd (send_message 50 (mkMessageCreateRequest 2 "hi" (Some 1))
                   alice market)))
    = Returned conversation
    /\ In (Message.mk 5 1 2 (Some 1) "hi" true 50) conversation.
Proof.
  destruct (send_then_get_conversation oldest_first 50
              (mkMessageCreateRequest 2 "hi" (Some 1)) alice bob market
              (snd (send_message 50 (mkMessageCreateRequest 2 "hi" (Some 1))
                      alice market))
              (Message.mk 5 1 2 (Some 1) "hi" false 50)
              oldest_first_orders eq_refl eq_refl eq_refl eq_refl)
    as [conversation [H1 [_ [H3 _]]]].
  exists conversation. split; [exact H1 | exact H3].
Defined.

Lemma query_message_id (i : Z) (db : Database) (m : Message.t) :
  query_message i db = Some m -> Message.id m = i.
Proof.
  unfold query_message. intros H. apply find_some in H.
  destruct H as [_ H]. apply Z.eqb_eq in H. exact H.
Qed.

Lemma query_message_after_update (i : Z) (db : Database) (m : Message.t) :
  query_message i db = Some m ->
  query_message i
    (with_messages
       (update_where_id Message.id i (Message.set_is_read true) (messages db))
       (messages_id_seq db) db)
  = Some (Message.set_is_read true m).
Proof.
  intros H. pose proof (query_message_id _ _ _ H) as Hid.
  unfold query_message in *. cbn [messages with_messages].
  rewrite find_update_where_id by reflexivity.
  rewrite H. simpl. rewrite Hid, Z.eqb_refl. reflexivity.
Qed.

(** X15. [get_message] on a stored message: somebody who is neither its
    sender nor its receiver is answered 403; the sender (when not also the
    receiver) gets the message and nothing is written; the receiver gets
    it shown as read, and an unread message is stored as read from then
    on.  An unknown id is answered 404.  Refusals change nothing. *)
Theorem get_message_outcome :
  forall (message_id : Z) (actor : User.t) (db : Database),
    (query_message message_id db = None ->
       get_message message_id actor db
       = (raise HTTP_404_NOT_FOUND "Message not found", db))
    /\
    (forall m,
       query_message message_id db = Some m ->
       (Message.sender_id m <> User.id actor ->
        Message.receiver_id m <> User.id actor ->
          fails_with (fst (get_message message_id actor db)) HTTP_403_FORBIDDEN
          /\ snd (get_message message_id actor db) = db)
       /\
       (Message.sender_id m = User.id actor ->
        Message.receiver_id m <> User.id actor ->
          get_message message_id actor db = (Returned m, db))
       /\
       (Message.receiver_id m = User.id actor ->
          fst (get_message message_id actor db)
          = Returned (Message.set_is_read true m)
          /\ query_message message_id (snd (get_message message_id actor db))
             = Some (Message.set_is_read true m)
          /\ (Message.is_read m = true ->
              snd (get_message message_id actor db) = db))).
Proof.
  intros message_id actor db. unfold get_message. split.
  - intros H. rewrite H. reflexivity.
  - intros m H. rewrite H.
    pose proof (query_message_id _ _ _ H) as Hid.
    split; [|split].
    + intros Hs Hr. apply Z.eqb_neq in Hs. apply Z.eqb_neq in Hr.
      rewrite Hs, Hr. simpl. auto.
    + intros Hs Hr. apply Z.eqb_eq in Hs. apply Z.eqb_neq in Hr.
      rewrite Hs, Hr. reflexivity.
    + intros Hr. apply Z.eqb_eq in Hr. rewrite Hr, andb_false_r.
      cbn [andb]. rewrite Hid.
      destruct (Message.is_read m) eqn:Hread; cbn [negb fst snd].
      * split; [|split; [|reflexivity]].
        -- f_equal. destruct m. simpl in Hread. subst. reflexivity.
        -- rewrite H. f_equal. destruct m. simpl in Hread. subst. reflexivity.
      * split; [|split; [|discriminate]].
        -- unfold reload. rewrite Hid.
           rewrite (query_message_after_update _ _ _ H). reflexivity.
        -- apply query_message_after_update. exact H.
Qed.

Lemma get_message_outcome_witness :
  (fails_with (fst (get_message 1 carol market)) HTTP_403_FORBIDDEN
   /\ snd (get_message 1 carol market) = market)
  /\ get_message 1 bob market
     = (Returned (Message.mk 1 2 1 (Some 1) "still available?" false 10), market)
  /\ fst (get_message 1 alice market)
     = Returned (Message.mk 1 2 1 (Some 1) "still available?" true 10).
Proof.
  assert (Hne : forall a b : Z, (a =? b) = false -> a <> b)
    by (intros a b; apply Z.eqb_neq).
  destruct (get_message_outcome 1 carol market) as [_ Hc].
  destruct (get_message_outcome 1 bob market) as [_ Hb].
  destruct (get_message_outcome 1 alice market) as [_ Ha].
  split; [|split].
  - apply (proj1 (Hc _ eq_refl)); apply Hne; reflexivity.
  - apply (proj1 (proj2 (Hb _ eq_refl))); [reflexivity|].
    apply Hne. reflexivity.
  - apply (proj2 (proj2 (Ha _ eq_refl))). reflexivity.
Defined.

Lemma update_where_id_twice {A} (id_of : A -> Z) (i : Z) (f : A -> A)
    (rows : list A) :
  (forall r, id_of (f r) = id_of r) ->
  (forall r, f (f r) = f r) ->
  update_where_id id_of i f (update_where_id id_of i f rows)
  = update_where_id id_of i f rows.
Proof.
  intros Hid Hf. unfold update_where_id. rewrite map_map.
  apply map_ext. intros r.
  destruct (id_of r =? i) eqn:E.
  - rewrite Hid, E. apply Hf.
  - rewrite E. reflexivity.
Qed.

(** X16. Only the receiver can mark a message as read, and marking is
    idempotent: the receiver gets the message back as read and it is
    stored as read; marking it again returns the same answer and leaves
    the same store.  Anybody else, the sender included, is answered 403
    and nothing changes. *)
Theorem mark_as_read_outcome :
  forall (message_id : Z) (actor : User.t) (db : Database) (m : Message.t),
    query_message message_id db = Some m ->
    (Message.receiver_id m <> User.id actor ->
       fails_with (fst (mark_as_read message_id actor db)) HTTP_403_FORBIDDEN
       /\ snd (mark_as_read message_id actor db) = db)
    /\
    (Message.receiver_id m = User.id actor ->
       fst (mark_as_read message_id actor db)
       = Returned (Message.set_is_read true m)
       /\ query_message message_id (snd (mark_as_read message_id actor db))
          = Some (Message.set_is_read true m)
       /\ mark_as_read message_id actor (snd (mark_as_read message_id actor db))
          = mark_as_read message_id actor db).
Proof.
  intros message_id actor db m H.
  pose proof (query_message_id _ _ _ H) as Hid.
  split.
  - intros Hr. unfold mark_as_read. rewrite H.
    apply Z.eqb_neq in Hr. rewrite Hr. simpl. auto.
  - intros Hr. apply Z.eqb_eq in Hr.
    assert (Hfirst :
              mark_as_read message_id actor db
              = (Returned (Message.set_is_read true m),
                 with_messages
                   (update_where_id Message.id message_id
                      (Message.set_is_read true) (messages db))
                   (messages_id_seq db) db)).
    { unfold mark_as_read. rewrite H, Hr. cbn [negb]. rewrite Hid.
      unfold reload. rewrite Hid.
      rewrite (query_message_after_update _ _ _ H). reflexivity. }
    rewrite Hfirst. cbn [fst snd].
    pose proof (query_message_after_update _ _ _ H) as Hstored.
    split; [reflexivity|]. split; [exact Hstored|].
    unfold mark_as_read at 1. rewrite Hstored.
    cbn [Message.receiver_id Message.set_is_read Message.id]. rewrite Hr.
    cbn [negb]. rewrite Hid.
    cbn [messages with_messages messages_id_seq].
    rewrite update_where_id_twice by reflexivity.
    unfold reload. cbn [Message.id].
    change (with_messages
              (update_where_id Message.id message_id (Message.set_is_read true)
                 (messages db))
              (messages_id_seq db)
              (with_messages
                 (update_where_id Message.id message_id (Message.set_is_read true)
                    (messages db))
                 (messages_id_seq db) db))
      with (with_messages
              (update_where_id Message.id message_id (Message.set_is_read true)
                 (messages db))
              (messages_id_seq db) db).
    change (Message.id (Message.set_is_read true m)) with (Message.id m).
    rewrite Hid, Hstored. reflexivity.
Qed.

Lemma mark_as_read_outcome_witness :
  (fails_with (fst (mark_as_read 1 bob market)) HTTP_403_FORBIDDEN
   /\ snd (mark_as_read 1 bob market) = market)
  /\ fst (mark_as_read 1 alice market)
     = Returned (Message.mk 1 2 1 (Some 1) "still available?" true 10)
  /\ mark_as_read 1 alice (snd (mark_as_read 1 alice market))
     = mark_as_read 1 alice market.
Proof.
  destruct (mark_as_read_outcome 1 bob market _ eq_refl) as [Hb _].
  destruct (mark_as_read_outcome 1 alice market _ eq_refl) as [_ Ha].
  split; [apply Hb; apply Z.eqb_neq; reflexivity|].
  destruct (Ha eq_refl) as [H1 [_ H3]]. split; [exact H1 | exact H3].
Defined.

(** X17. [delete_message]: an unknown id is answered 404, somebody who is
    neither sender nor receiver 403, and nothing changes.  For the sender
    or the receiver the message is gone afterwards, every message with
    another id is still found unchanged under its id, and nothing else in
    the store changes. *)
Theorem delete_message_outcome :
  forall (message_id : Z) (actor : User.t) (db : Database),
    (query_message message_id db = None ->
       fails_with (fst (delete_message message_id actor db)) HTTP_404_NOT_FOUND
       /\ snd (delete_message message_id actor db) = db)
    /\
    (forall m,
       query_message message_id db = Some m ->
       (Message.sender_id m <> User.id actor ->
        Message.receiver_id m <> User.id actor ->
          fails_with (fst (delete_message message_id actor db)) HTTP_403_FORBIDDEN
          /\ snd (delete_message message_id actor db) = db)
       /\
       (Message.sender_id m = User.id actor
        \/ Message.receiver_id m = User.id actor ->
          fst (delete_message message_id actor db) = Returned tt
          /\ query_message message_id (snd (delete_message message_id actor db))
             = None
          /\ (forall k, k <> message_id ->
                query_message k (snd (delete_message message_id actor db))
                = query_message k db)
          /\ snd (delete_message message_id actor db)
             = with_messages (messages (snd (delete_message message_id actor db)))
                 (messages_id_seq db) db)).
Proof.
  intros message_id actor db. unfold delete_message. split.
  - intros H. rewrite H. simpl. auto.
  - intros m H. rewrite H.
    pose proof (query_message_id _ _ _ H) as Hid.
    split.
    + intros Hs Hr. apply Z.eqb_neq in Hs. apply Z.eqb_neq in Hr.
      rewrite Hs, Hr. simpl. auto.
    + intros Hparty.
      assert (E : negb (Message.sender_id m =? User.id actor)
                  && negb (Message.receiver_id m =? User.id actor) = false).
      { destruct Hparty as [Hp|Hp]; apply Z.eqb_eq in Hp; rewrite Hp;
          [reflexivity | apply andb_false_r]. }
      rewrite E. cbn [fst snd]. rewrite Hid.
      split; [reflexivity|]. split; [apply find_filter_self|].
      split; [intros k Hk; apply find_filter_other; exact Hk | reflexivity].
Qed.

Lemma delete_message_outcome_witness :
  (fails_with (fst (delete_message 99 bob market)) HTTP_404_NOT_FOUND
   /\ snd (delete_message 99 bob market) = market)
  /\ (fails_with (fst (delete_message 1 carol market)) HTTP_403_FORBIDDEN
      /\ snd (delete_message 1 carol market) = market)
  /\ fst (delete_message 1 bob market) = Returned tt
  /\ query_message 1 (snd (delete_message 1 bob market)) = None.
Proof.
  destruct (delete_message_outcome 99 bob market) as [H404 _].
  destruct (delete_message_outcome 1 carol market) as [_ Hc].
  destruct (delete_message_outcome 1 bob market) as [_ Hb].
  split; [apply H404; reflexivity|]. split.
  - apply (proj1 (Hc _ eq_refl)); apply Z.eqb_neq; reflexivity.
  - destruct (proj2 (Hb _ eq_refl) (or_introl eq_refl)) as [H1 [H2 _]].
    split; [exact H1 | exact H2].
Defined.

(** ** Messages: counting and listing *)

Lemma same_id_same_row (rows : list Message.t) (a b : Message.t) :
  distinct (map Message.id rows) = true ->
  In a rows -> In b rows -> Message.id a = Message.id b -> a = b.
Proof.
  intros Hd Ha Hb Hid.
  pose proof (find_unique rows a Hd Ha) as Fa.
  pose proof (find_unique rows b Hd Hb) as Fb.
  rewrite Hid in Fa. rewrite Fa in Fb. injection Fb as Fb. exact Fb.
Qed.

(** Under the key constraint, a flush keyed by id rewrites exactly the
    rows that were selected. *)
Lemma mark_read_selected (p : Message.t -> bool) (rows : list Message.t)
    (m : Message.t) :
  distinct (map Message.id rows) = true ->
  In m rows ->
  mark_read (map Message.id (filter p rows)) m
  = if p m then Message.set_is_read true m else m.
Proof.
  intros Hd Hin. unfold mark_read.
  destruct (p m) eqn:Hp.
  - rewrite (existsb_id_of_member _ _ _ Hin Hp). reflexivity.
  - destruct (existsb (Z.eqb (Message.id m)) (map Message.id (filter p rows)))
      eqn:E; [|reflexivity].
    exfalso. apply existsb_exists in E. destruct E as [j [Hj Ej]].
    apply Z.eqb_eq in Ej. apply in_map_iff in Hj.
    destruct Hj as [b [Hb Hbin]]. apply filter_In in Hbin.
    destruct Hbin as [Hbin Hpb].
    assert (b = m) by (apply (same_id_same_row rows); auto; congruence).
    subst b. rewrite Hpb in Hp. discriminate.
Qed.

Lemma count_after_marking (me other : Z) (g : Message.t -> Message.t)
    (rows : list Message.t) :
  (forall m, In m rows ->
     g m = if unread_from other me m then Message.set_is_read true m else m) ->
  (List.length (filter (unread_for me) (map g rows))
   + List.length (filter (unread_from other me) rows)
   = List.length (filter (unread_for me) rows))%nat.
Proof.
  induction rows as [|r rows IH]; intros Hg; simpl; [reflexivity|].
  assert (IH' := IH (fun m Hm => Hg m (or_intror Hm))).
  rewrite (Hg r (or_introl eq_refl)).
  destruct (unread_from other me r) eqn:E.
  - assert (Hr : unread_for me r = true).
    { unfold unread_from in E. unfold unread_for.
      apply andb_true_iff in E. destruct E as [E1 E2].
      apply andb_true_iff in E1. destruct E1 as [_ E1].
      rewrite E1, E2. reflexivity. }
    assert (Hset : unread_for me (Message.set_is_read true r) = false)
      by (unfold unread_for; simpl; apply andb_false_r).
    rewrite Hr, Hset. simpl. lia.
  - destruct (unread_for me r); simpl; lia.
Qed.

(** X18. Fetching a conversation lowers the caller's unread count by
    exactly the number of unread messages the counterparty had sent to the
    caller (in a store with sound message keys, for an existing
    counterparty); afterwards none of them is unread. *)
Theorem unread_count_after_get_conversation :
  forall (sort : list Message.t -> list Message.t)
         (other_user_id : Z) (actor other_user : User.t) (db : Database),
    messages_pk_ok db = true ->
    query_user other_user_id db = Some other_user ->
    get_unread_count actor (snd (get_conversation sort other_user_id actor db))
    = get_unread_count actor db
      - Z.of_nat (List.length
                    (filter (unread_from other_user_id (User.id actor))
                       (messages db)))
    /\ filter (unread_from other_user_id (User.id actor))
         (messages (snd (get_conversation sort other_user_id actor db))) = [].
Proof.
  intros sort other_user_id actor other_user db Hpk Hother.
  unfold messages_pk_ok in Hpk. apply andb_true_iff in Hpk.
  destruct Hpk as [Hd _].
  unfold get_conversation. rewrite Hother. cbn [snd].
  unfold get_unread_count. cbn [messages with_messages].
  rewrite flush_is_read_map. split.
  - pose proof (count_after_marking (User.id actor) other_user_id
                  (mark_read
                     (map Message.id
                        (filter (unread_from other_user_id (User.id actor))
                           (messages db))))
                  (messages db)
                  (fun m Hm => mark_read_selected _ _ m Hd Hm)) as Hcount.
    lia.
  - apply no_unread_after_flush.
Qed.

Lemma unread_count_after_get_conversation_witness :
  get_unread_count alice (snd (get_conversation oldest_first 2 alice market))
  = get_unread_count alice market - 3.
Proof.
  apply (proj1 (unread_count_after_get_conversation oldest_first 2 alice bob
                  market eq_refl eq_refl)).
Defined.

(** X19. [get_all_messages] answers 422 when [skip] is negative or
    [limit] is outside 1..100.  Otherwise it returns at most [limit]
    stored messages, newest first, each sent or received by the caller;
    with [unread_only] each one is unread and addressed to the caller;
    with [skip = 0] and a limit that covers them, nothing that qualifies
    is left out. *)
Theorem get_all_messages_result :
  forall (unread_only : bool) (skip limit : Z) (actor : User.t) (db : Database),
    (query_params_ok skip limit 100 = false ->
       fails_with (get_all_messages unread_only skip limit actor db)
                  HTTP_422_UNPROCESSABLE_ENTITY)
    /\
    (query_params_ok skip limit 100 = true ->
       exists result,
         get_all_messages unread_only skip limit actor db = Returned result
         /\ Z.of_nat (List.length result) <= limit
         /\ (forall m, In m result ->
               In m (messages db)
               /\ (Message.sender_id m = User.id actor
                   \/ Message.receiver_id m = User.id actor)
               /\ (unread_only = true ->
                   Message.receiver_id m = User.id actor
                   /\ Message.is_read m = false))
         /\ Sorted (fun a b => Message.created_at b <= Message.created_at a) result
         /\ (skip = 0 -> Z.of_nat (List.length (messages db)) <= limit ->
             forall m, In m (messages db) ->
               involves (User.id actor) m = true ->
               (unread_only = true -> unread_for (User.id actor) m = true) ->
               In m result)).
Proof.
  intros unread_only skip limit actor db. unfold get_all_messages. split.
  - intros H. rewrite H. simpl. auto.
  - intros H. rewrite H. cbn [negb]. eexists. split; [reflexivity|].
    unfold query_params_ok in H.
    apply andb_true_iff in H. destruct H as [H _].
    apply andb_true_iff in H. destruct H as [_ Hlimit].
    apply Z.leb_le in Hlimit.
    set (selected := if unread_only
                     then filter (unread_for (User.id actor))
                            (filter (involves (User.id actor)) (messages db))
                     else filter (involves (User.id actor)) (messages db)).
    assert (Hsel : forall m, In m selected <->
                     In m (messages db) /\ involves (User.id actor) m = true
                     /\ (unread_only = true -> unread_for (User.id actor) m = true)).
    { intros m. unfold selected. destruct unread_only.
      - rewrite !filter_In. tauto.
      - rewrite filter_In. split; [intros [? ?]|]; intuition discriminate. }
    split; [apply offset_limit_length; exact Hlimit|]. split; [|split].
    + intros m Hm. apply offset_limit_incl in Hm. apply order_by_In in Hm.
      apply Hsel in Hm. destruct Hm as [Hin [Hinv Hunread]].
      split; [exact Hin|]. split.
      * unfold involves in Hinv. apply orb_true_iff in Hinv.
        destruct Hinv as [E|E]; apply Z.eqb_eq in E; auto.
      * intros Hu. specialize (Hunread Hu). unfold unread_for in Hunread.
        apply andb_true_iff in Hunread. destruct Hunread as [E1 E2].
        apply Z.eqb_eq in E1. apply negb_true_iff in E2. auto.
    + apply offset_limit_sorted.
      eapply Sorted_weaken;
        [|apply (order_by_sorted (desc Message.created_at)
                   (desc_total Message.created_at))].
      intros a b Hab. unfold desc in Hab. apply Z.leb_le in Hab. exact Hab.
    + intros Hzero Hall m Hin Hinv Hunread. subst skip.
      rewrite offset_limit_all.
      * apply order_by_In. apply Hsel. auto.
      * rewrite (Permutation_length (order_by_perm _ _)).
        assert (Hle : (List.length selected <= List.length (messages db))%nat).
        { unfold selected. destruct unread_only.
          - eapply Nat.le_trans; apply filter_length_le.
          - apply filter_length_le. }
        lia.
Qed.

Lemma get_all_messages_result_witness :
  fails_with (get_all_messages false 0 0 alice market) HTTP_422_UNPROCESSABLE_ENTITY
  /\ exists result,
       get_all_messages true 0 20 alice market = Returned result
       /\ Z.of_nat (List.length result) <= 20
       /\ Sorted (fun a b => Message.created_at b <= Message.created_at a) result.
Proof.
  destruct (get_all_messages_result false 0 0 alice market) as [H422 _].
  destruct (get_all_messages_result true 0 20 alice market) as [_ Hok].
  split; [apply H422; reflexivity|].
  destruct (Hok eq_refl) as [result [H1 [H2 [_ [H4 _]]]]].
  exists result. auto.
Defined.

(** ** What a store built by the API contains *)

Lemma forallb_filter {A} (p q : A -> bool) (l : list A) :
  forallb p l = true -> forallb p (filter q l) = true.
Proof.
  intros H. apply forallb_forall. intros x Hx.
  apply filter_In in Hx. rewrite forallb_forall in H. apply H. apply Hx.
Qed.

Lemma forallb_map_invariant {A} (p : A -> bool) (g : A -> A) (l : list A) :
  (forall x, p (g x) = p x) -> forallb p l = true -> forallb p (map g l) = true.
Proof.
  intros Hg H. rewrite forallb_forall in H. apply forallb_forall.
  intros x Hx. apply in_map_iff in Hx. destruct Hx as [y [Hy Hin]].
  subst x. rewrite Hg. apply H. exact Hin.
Qed.

Lemma forallb_snoc {A} (p : A -> bool) (l : list A) (x : A) :
  forallb p l = true -> p x = true -> forallb p (l ++ [x]) = true.
Proof.
  intros Hl Hx. rewrite forallb_app, Hl. simpl. rewrite Hx. reflexivity.
Qed.

(** *** Reviews *)

Lemma update_seller_rating_reviews now uid db :
  reviews (update_seller_rating now uid db) = reviews db.
Proof.
  unfold update_seller_rating. destruct (query_profile_of uid db); reflexivity.
Qed.

Lemma create_review_reviews_sound now uid request u db :
  reviews_sound db = true ->
  reviews_sound (snd (create_review now uid request u db)) = true.
Proof.
  intros H. unfold create_review.
  destruct (uid =? User.id u) eqn:Eself; [exact H|].
  destruct ((rc_rating request <? 1) || (5 <? rc_rating request)) eqn:Er;
    [exact H|].
  destruct (query_user uid db); [|exact H].
  destruct (truthy (rc_listing_id request)
            && negb (fk_listing_ok (rc_listing_id request) db)); [exact H|].
  destruct (negb (fk_listing_ok (rc_listing_id request) db)); [exact H|].
  cbn [snd]. unfold reviews_sound. rewrite update_seller_rating_reviews.
  cbn [reviews with_reviews]. apply forallb_snoc; [exact H|].
  unfold review_ok.
  cbn [Review.rating Review.reviewed_user_id Review.reviewer_id].
  apply orb_false_iff in Er. destruct Er as [E1 E5].
  apply Z.ltb_ge in E1. apply Z.ltb_ge in E5.
  rewrite Eself. apply Z.leb_le in E1. apply Z.leb_le in E5.
  rewrite E1, E5. reflexivity.
Qed.

Lemma delete_listing_reviews_sound i u db :
  reviews_sound db = true ->
  reviews_sound (snd (delete_listing i u db)) = true.
Proof.
  intros H. unfold delete_listing. case_on_branches; cbn [snd]; try exact H.
  unfold reviews_sound. cbn [reviews]. apply forallb_filter. exact H.
Qed.

Ltac reviews_untouched h :=
  intros H; unfold h; case_on_branches; exact H.

Lemma authenticated_preserves {A} (P : Database -> Prop) token db
    (endpoint : User.t -> Database -> response A * Database) :
  (forall u, P db -> P (snd (endpoint u db))) ->
  P db -> P (authenticated token db endpoint).
Proof.
  intros H Hdb. unfold authenticated.
  destruct (get_current_user token db); auto.
Qed.

Lemma handle_reviews_sound hash_password create_access_token (c : Call) db :
  reviews_sound db = true ->
  reviews_sound (handle hash_password create_access_token c db) = true.
Proof.
  unfold handle. destruct (call_request c);
    try (apply (authenticated_preserves (fun d => reviews_sound d = true));
         intros u).
  - reviews_untouched signup.
  - reviews_untouched update_user_profile.
  - apply create_review_reviews_sound.
  - reviews_untouched upload_seller_proof.
  - reviews_untouched create_listing.
  - reviews_untouched update_listing.
  - apply delete_listing_reviews_sound.
  - reviews_untouched send_message.
  - reviews_untouched get_conversation.
  - reviews_untouched get_message.
  - reviews_untouched mark_as_read.
  - reviews_untouched delete_message.
Qed.

Lemma run_reviews_sound hash_password create_access_token (trace : list Call) :
  forall db,
    reviews_sound db = true ->
    reviews_sound (run hash_password create_access_token trace db) = true.
Proof.
  induction trace as [|c trace IH]; intros db H; simpl; [exact H|].
  apply IH. apply handle_reviews_sound. exact H.
Qed.

(** X20. Every review the API lets into the ledger has a rating between 1
    and 5 and was not written by the reviewed user: this holds in the
    empty store and is kept by every request, so it holds for every
    review of every store the API can build. *)
Theorem reviews_are_well_formed :
  forall (hash_password : string -> string)
         (create_access_token : Z -> Z -> string)
         (trace : list Call) (db : Database) (r : Review.t),
    reviews_sound db = true ->
    In r (reviews (run hash_password create_access_token trace db)) ->
    1 <= Review.rating r <= 5
    /\ Review.reviewed_user_id r <> Review.reviewer_id r.
Proof.
  intros hash_password create_access_token trace db r Hdb Hin.
  pose proof (run_reviews_sound hash_password create_access_token trace db Hdb)
    as H.
  unfold reviews_sound in H. rewrite forallb_forall in H.
  specialize (H r Hin). unfold review_ok in H.
  apply andb_true_iff in H. destruct H as [H Hself].
  apply andb_true_iff in H. destruct H as [H1 H5].
  apply Z.leb_le in H1. apply Z.leb_le in H5.
  apply negb_true_iff in Hself. apply Z.eqb_neq in Hself. auto.
Qed.

Lemma reviews_are_well_formed_witness :
  1 <= Review.rating (Review.mk 1 2 1 None 5 None 10) <= 5
  /\ Review.reviewed_user_id (Review.mk 1 2 1 None 5 None 10)
     <> Review.reviewer_id (Review.mk 1 2 1 None 5 None 10).
Proof.
  apply (reviews_are_well_formed (fun s => s) (fun _ _ => "token"%string)
           [mkCall 0 1 oldest_first (Signup (mkUserSignupRequest "ann" "ann@example.com" "pw"));
            mkCall 0 2 oldest_first (Signup (mkUserSignupRequest "ben" "ben@example.com" "pw"));
            mkCall 0 10 oldest_first (CreateReview (Some 2) 1 (mkReviewCreateRequest None 5 None));
            mkCall 0 11 oldest_first (CreateReview (Some 1) 1 (mkReviewCreateRequest None 5 None));
            mkCall 0 12 oldest_first (CreateReview (Some 2) 1 (mkReviewCreateRequest None 6 None))]
           empty_db).
  - reflexivity.
  - vm_compute. left. reflexivity.
Defined.

(** *** Messages *)

Lemma message_ok_set_is_read (b : bool) (m : Message.t) :
  message_ok (Message.set_is_read b m) = message_ok m.
Proof. reflexivity. Qed.

Lemma message_ok_mark_read (ids : list Z) (m : Message.t) :
  message_ok (mark_read ids m) = message_ok m.
Proof. unfold mark_read. destruct (existsb _ ids); reflexivity. Qed.

Lemma messages_sound_update (i s : Z) (db : Database) :
  messages_sound db = true ->
  messages_sound
    (with_messages
       (update_where_id Message.id i (Message.set_is_read true) (messages db))
       s db) = true.
Proof.
  intros H. unfold messages_sound. cbn [messages with_messages].
  unfold update_where_id. apply forallb_map_invariant; [|exact H].
  intros m. destruct (Message.id m =? i); reflexivity.
Qed.

Lemma send_message_sound now request u db :
  messages_sound db = true ->
  messages_sound (snd (send_message now request u db)) = true.
Proof.
  intros H. unfold send_message.
  destruct (mc_receiver_id request =? User.id u) eqn:Eself; [exact H|].
  destruct (query_user (mc_receiver_id request) db); [|exact H].
  destruct (truthy (mc_listing_id request)
            && negb (fk_listing_ok (mc_listing_id request) db)); [exact H|].
  destruct (strip_is_empty (mc_message_text request)) eqn:Et; [exact H|].
  destruct (negb (fk_listing_ok (mc_listing_id request) db)); [exact H|].
  cbn [snd]. unfold messages_sound. cbn [messages with_messages].
  apply forallb_snoc; [exact H|].
  unfold message_ok.
  cbn [Message.receiver_id Message.sender_id Message.message_text].
  rewrite Eself, Et. reflexivity.
Qed.

Lemma get_conversation_sound sort other u db :
  messages_sound db = true ->
  messages_sound (snd (get_conversation sort other u db)) = true.
Proof.
  intros H. unfold get_conversation.
  destruct (query_user other db); [|exact H].
  cbn [snd]. unfold messages_sound. cbn [messages with_messages].
  rewrite flush_is_read_map.
  apply forallb_map_invariant; [apply message_ok_mark_read | exact H].
Qed.

Lemma get_message_sound i u db :
  messages_sound db = true -> messages_sound (snd (get_message i u db)) = true.
Proof.
  intros H. unfold get_message. case_on_branches; cbn [snd]; try exact H.
  apply messages_sound_update. exact H.
Qed.

Lemma mark_as_read_sound i u db :
  messages_sound db = true -> messages_sound (snd (mark_as_read i u db)) = true.
Proof.
  intros H. unfold mark_as_read. case_on_branches; cbn [snd]; try exact H.
  apply messages_sound_update. exact H.
Qed.

Lemma delete_message_sound i u db :
  messages_sound db = true -> messages_sound (snd (delete_message i u db)) = true.
Proof.
  intros H. unfold delete_message. case_on_branches; cbn [snd]; try exact H.
  unfold messages_sound. cbn [messages with_messages].
  apply forallb_filter. exact H.
Qed.

Lemma delete_listing_sound i u db :
  messages_sound db = true -> messages_sound (snd (delete_listing i u db)) = true.
Proof.
  intros H. unfold delete_listing. case_on_branches; cbn [snd]; try exact H.
  unfold messages_sound. cbn [messages]. apply forallb_filter. exact H.
Qed.

Lemma create_review_messages now uid request u db :
  messages (snd (create_review now uid request u db)) = messages db.
Proof.
  unfold create_review, update_seller_rating. case_on_branches; reflexivity.
Qed.

Lemma handle_messages_sound hash_password create_access_token (c : Call) db :
  messages_sound db = true ->
  messages_sound (handle hash_password create_access_token c db) = true.
Proof.
  unfold handle. destruct (call_request c);
    try (apply (authenticated_preserves (fun d => messages_sound d = true));
         intros u).
  - reviews_untouched signup.
  - reviews_untouched update_user_profile.
  - intros H. unfold messages_sound. rewrite create_review_messages. exact H.
  - reviews_untouched upload_seller_proof.
  - reviews_untouched create_listing.
  - reviews_untouched update_listing.
  - apply delete_listing_sound.
  - apply send_message_sound.
  - apply get_conversation_sound.
  - apply get_message_sound.
  - apply mark_as_read_sound.
  - apply delete_message_sound.
Qed.

Lemma run_messages_sound hash_password create_access_token (trace : list Call) :
  forall db,
    messages_sound db = true ->
    messages_sound (run hash_password create_access_token trace db) = true.
Proof.
  induction trace as [|c trace IH]; intros db H; simpl; [exact H|].
  apply IH. apply handle_messages_sound. exact H.
Qed.

(** X21. No stored message is addressed to its own sender and none has
    an empty or blank text: this holds in the empty store and is kept by
    every request, whatever is fetched, marked or deleted in between. *)
Theorem messages_are_well_formed :
  forall (hash_password : string -> string)
         (create_access_token : Z -> Z -> string)
         (trace : list Call) (db : Database) (m : Message.t),
    messages_sound db = true ->
    In m (messages (run hash_password create_access_token trace db)) ->
    Message.receiver_id m <> Message.sender_id m
    /\ strip_is_empty (Message.message_text m) = false.
Proof.
  intros hash_password create_access_token trace db m Hdb Hin.
  pose proof (run_messages_sound hash_password create_access_token trace db Hdb)
    as H.
  unfold messages_sound in H. rewrite forallb_forall in H.
  specialize (H m Hin). unfold message_ok in H.
  apply andb_true_iff in H. destruct H as [Hself Htext].
  apply negb_true_iff in Hself. apply Z.eqb_neq in Hself.
  apply negb_true_iff in Htext. auto.
Qed.

Lemma messages_are_well_formed_witness :
  Message.receiver_id (Message.mk 5 1 2 None "ok" true 50)
  <> Message.sender_id (Message.mk 5 1 2 None "ok" true 50)
  /\ strip_is_empty (Message.message_text (Message.mk 5 1 2 None "ok" true 50))
     = false.
Proof.
  apply (messages_are_well_formed (fun s => s) (fun _ _ => "token"%string)
           chat market).
  - reflexivity.
  - vm_compute. do 3 right. left. reflexivity.
Defined.

(** *** Stored averages *)

Lemma sum_Z_bounds (xs : list Z) :
  forallb (fun x => (1 <=? x) && (x <=? 5)) xs = true ->
  Z.of_nat (List.length xs) <= sum_Z xs <= 5 * Z.of_nat (List.length xs).
Proof.
  induction xs as [|x xs IH]; simpl; intros H; [lia|].
  apply andb_true_iff in H. destruct H as [Hx Hxs].
  apply andb_true_iff in Hx. destruct Hx as [H1 H5].
  apply Z.leb_le in H1. apply Z.leb_le in H5.
  specialize (IH Hxs). unfold sum_Z in *. lia.
Qed.

Lemma float_or_zero_bounds (xs : list Z) :
  forallb (fun x => (1 <=? x) && (x <=? 5)) xs = true ->
  (0 <= float_or_zero (func_avg xs))%Q /\ (float_or_zero (func_avg xs) <= 5)%Q.
Proof.
  intros H. destruct xs as [|x xs].
  - simpl. split; [apply Qle_refl | discriminate].
  - pose proof (sum_Z_bounds _ H) as [Hlo Hhi].
    set (ys := x :: xs) in *.
    assert (Hlen : 0 < Z.of_nat (List.length ys)) by (simpl; lia).
    assert (Hmean : (0 <= inject_Z (sum_Z ys) / inject_Z (Z.of_nat (List.length ys)))%Q
                    /\ (inject_Z (sum_Z ys) / inject_Z (Z.of_nat (List.length ys)) <= 5)%Q).
    { assert (Hpos : (0 < inject_Z (Z.of_nat (List.length ys)))%Q)
        by (change 0%Q with (inject_Z 0); rewrite <- Zlt_Qlt; exact Hlen).
      split.
      - apply Qle_shift_div_l; [exact Hpos|].
        rewrite Qmult_0_l. change 0%Q with (inject_Z 0).
        rewrite <- Zle_Qle. lia.
      - apply Qle_shift_div_r; [exact Hpos|].
        change 5%Q with (inject_Z 5). rewrite <- inject_Z_mult, <- Zle_Qle.
        lia. }
    change (func_avg ys)
      with (Some (inject_Z (sum_Z ys) / inject_Z (Z.of_nat (List.length ys)))%Q).
    unfold float_or_zero.
    destruct (Qeq_bool _ 0); [split; [apply Qle_refl | discriminate]|].
    exact Hmean.
Qed.

Lemma int4_of_numeric_bounds (q : Q) :
  (0 <= q)%Q -> (q <= 5)%Q -> 0 <= int4_of_numeric q <= 5.
Proof.
  intros H0 H5. unfold int4_of_numeric.
  apply Qle_bool_iff in H0. rewrite H0. apply Qle_bool_iff in H0. split.
  - change 0 with (Qfloor 0). apply Qfloor_resp_le.
    apply (Qle_trans _ q); [exact H0|].
    rewrite <- (Qplus_0_r q) at 1. apply Qplus_le_r. discriminate.
  - change 5 with (Qfloor (11 # 2)). apply Qfloor_resp_le.
    setoid_replace (11 # 2)%Q with (5 + (1 # 2))%Q by reflexivity.
    apply Qplus_le_l. exact H5.
Qed.

Lemma forallb_map_preserved {A} (p : A -> bool) (g : A -> A) (l : list A) :
  (forall x, p x = true -> p (g x) = true) ->
  forallb p l = true -> forallb p (map g l) = true.
Proof.
  intros Hg H. rewrite forallb_forall in H. apply forallb_forall.
  intros x Hx. apply in_map_iff in Hx. destruct Hx as [y [Hy Hin]].
  subst x. apply Hg. apply H. exact Hin.
Qed.

Lemma update_seller_rating_bounded now uid db :
  reviews_sound db = true ->
  averages_bounded db = true ->
  averages_bounded (update_seller_rating now uid db) = true.
Proof.
  intros Hr Ha. unfold update_seller_rating.
  destruct (query_profile_of uid db) as [profile|]; [|exact Ha].
  unfold averages_bounded. cbn [user_profiles with_user_profiles].
  unfold update_where_id. apply forallb_map_preserved; [|exact Ha].
  intros p Hp. destruct (UserProfile.id p =? UserProfile.id profile); [|exact Hp].
  unfold average_ok, apply_rating. cbn [UserProfile.average_rating].
  assert (Hratings : forallb (fun x => (1 <=? x) && (x <=? 5)) (ratings_of uid db)
                     = true).
  { unfold ratings_of, reviews_of. apply forallb_forall. intros x Hx.
    apply in_map_iff in Hx. destruct Hx as [r [Hrx Hin]]. subst x.
    apply filter_In in Hin. destruct Hin as [Hin _].
    unfold reviews_sound in Hr. rewrite forallb_forall in Hr.
    specialize (Hr r Hin). unfold review_ok in Hr.
    apply andb_true_iff in Hr. apply Hr. }
  destruct (float_or_zero_bounds _ Hratings) as [H0 H5].
  pose proof (int4_of_numeric_bounds _ H0 H5) as [Hlo Hhi].
  apply Z.leb_le in Hlo. apply Z.leb_le in Hhi. rewrite Hlo, Hhi. reflexivity.
Qed.

Lemma create_review_bounded now uid request u db :
  reviews_sound db = true ->
  averages_bounded db = true ->
  averages_bounded (snd (create_review now uid request u db)) = true.
Proof.
  intros Hr Ha.
  pose proof (create_review_reviews_sound now uid request u db Hr) as Hr'.
  unfold create_review in *.
  destruct (uid =? User.id u); [exact Ha|].
  destruct ((rc_rating request <? 1) || (5 <? rc_rating request)); [exact Ha|].
  destruct (query_user uid db); [|exact Ha].
  destruct (truthy (rc_listing_id request)
            && negb (fk_listing_ok (rc_listing_id request) db)); [exact Ha|].
  destruct (negb (fk_listing_ok (rc_listing_id request) db)); [exact Ha|].
  cbn [snd] in *. apply update_seller_rating_bounded; [|exact Ha].
  unfold reviews_sound in *. rewrite update_seller_rating_reviews in Hr'.
  exact Hr'.
Qed.

Lemma signup_bounded hash_password create_access_token now request db :
  averages_bounded db = true ->
  averages_bounded (snd (signup hash_password create_access_token now request db))
  = true.
Proof.
  intros H. unfold signup. case_on_branches; cbn [snd]; try exact H.
  unfold averages_bounded. cbn [user_profiles with_user_profiles with_users].
  apply forallb_snoc; [exact H | reflexivity].
Qed.

Lemma update_user_profile_bounded now request u db :
  averages_bounded db = true ->
  averages_bounded (snd (update_user_profile now request u db)) = true.
Proof.
  intros H. unfold update_user_profile.
  destruct (query_profile_of (User.id u) db) as [profile|]; [|exact H].
  cbn [snd]. unfold averages_bounded. cbn [user_profiles with_user_profiles].
  unfold update_where_id. apply forallb_map_invariant; [|exact H].
  intros p. destruct (UserProfile.id p =? UserProfile.id profile); reflexivity.
Qed.

Lemma handle_reputation_bounded hash_password create_access_token (c : Call) db :
  reviews_sound db = true /\ averages_bounded db = true ->
  reviews_sound (handle hash_password create_access_token c db) = true
  /\ averages_bounded (handle hash_password create_access_token c db) = true.
Proof.
  intros [Hr Ha].
  split; [apply handle_reviews_sound; exact Hr|].
  revert Ha. unfold handle. destruct (call_request c);
    try (apply (authenticated_preserves (fun d => averages_bounded d = true));
         intros u).
  - apply signup_bounded.
  - apply update_user_profile_bounded.
  - apply create_review_bounded. exact Hr.
  - reviews_untouched upload_seller_proof.
  - reviews_untouched create_listing.
  - reviews_untouched update_listing.
  - reviews_untouched delete_listing.
  - reviews_untouched send_message.
  - reviews_untouched get_conversation.
  - reviews_untouched get_message.
  - reviews_untouched mark_as_read.
  - reviews_untouched delete_message.
Qed.

Lemma run_reputation_bounded hash_password create_access_token
    (trace : list Call) :
  forall db,
    reviews_sound db = true /\ averages_bounded db = true ->
    reviews_sound (run hash_password create_access_token trace db) = true
    /\ averages_bounded (run hash_password create_access_token trace db) = true.
Proof.
  induction trace as [|c trace IH]; intros db H; simpl; [exact H|].
  apply IH. apply handle_reputation_bounded. exact H.
Qed.

(** X22. A stored average rating always lies between 0 and 5: starting
    from a store whose reviews are well formed and whose averages are in
    range (the empty store is one), every request keeps every profile's
    [average_rating] in 0..5, also when listings and their reviews are
    deleted. *)
Theorem average_rating_in_range :
  forall (hash_password : string -> string)
         (create_access_token : Z -> Z -> string)
         (trace : list Call) (db : Database) (p : UserProfile.t),
    reviews_sound db = true ->
    averages_bounded db = true ->
    In p (user_profiles (run hash_password create_access_token trace db)) ->
    0 <= UserProfile.average_rating p <= 5.
Proof.
  intros hash_password create_access_token trace db p Hr Ha Hin.
  destruct (run_reputation_bounded hash_password create_access_token trace db
              (conj Hr Ha)) as [_ H].
  unfold averages_bounded in H. rewrite forallb_forall in H.
  specialize (H p Hin). unfold average_ok in H.
  apply andb_true_iff in H. destruct H as [H0 H5].
  apply Z.leb_le in H0. apply Z.leb_le in H5. auto.
Qed.

Lemma average_rating_in_range_witness :
  0 <= UserProfile.average_rating (UserProfile.mk 2 2 None None 0 true 4 0 80) <= 5.
Proof.
  apply (average_rating_in_range (fun s => s) (fun _ _ => "token"%string)
           [mkCall 0 80 oldest_first (CreateReview (Some 1) 2 (mkReviewCreateRequest None 1 None))]
           five_stars).
  - reflexivity.
  - reflexivity.
  - vm_compute. right. left. reflexivity.
Defined.

(** ** Listings: taking an offer off the market *)

(** X23. A listing its seller has switched to unavailable is no longer
    offered: after a successful [update_listing] with
    [is_available = false], no listing with that id appears in
    [get_seller_listings] of any seller, while [get_listing] still returns
    it, marked unavailable. *)
Theorem unavailable_listing_is_hidden :
  forall (now listing_id seller_id : Z) (request : ListingUpdateRequest)
         (actor : User.t) (db db' : Database) (updated : Listing.t)
         (shown : list Listing.t),
    lu_is_available request = Some false ->
    update_listing now listing_id request actor db = (Returned updated, db') ->
    get_seller_listings seller_id db' = Returned shown ->
    (forall l, In l shown -> Listing.id l <> listing_id)
    /\ get_listing listing_id db' = Returned updated
    /\ Listing.is_available updated = false.
Proof.
  intros now listing_id seller_id request actor db db' updated shown
         Hoff Hupdate Hshown.
  unfold update_listing in Hupdate.
  destruct (query_listing listing_id db) as [listing|] eqn:Hq; [|discriminate].
  pose proof (query_listing_id _ _ _ Hq) as Hid.
  destruct (negb (Listing.seller_id listing =? User.id actor)); [discriminate|].
  destruct (match lu_price request with
            | Some p => Qle_bool p 0 | None => false end); [discriminate|].
  destruct (match lu_quantity_available request with
            | Some q => q <? 0 | None => false end); [discriminate|].
  destruct (match lu_quantity_available request with
            | Some q => negb (int4_ok q) | None => false end); [discriminate|].
  injection Hupdate as Hupdated Hdb'.
  assert (Hrows : listings db'
                  = update_where_id Listing.id listing_id
                      (apply_listing_update request now) (listings db))
    by (rewrite <- Hdb', Hid; reflexivity).
  assert (Hfalse : forall l,
            Listing.is_available (apply_listing_update request now l) = false)
    by (intros l; unfold apply_listing_update; simpl; rewrite Hoff; reflexivity).
  split; [|split].
  - unfold get_seller_listings in Hshown.
    destruct (query_user seller_id db'); [|discriminate].
    injection Hshown as Hshown. subst shown.
    intros l Hl Hlid. apply order_by_In in Hl. apply filter_In in Hl.
    destruct Hl as [Hin Hsel]. apply andb_true_iff in Hsel.
    destruct Hsel as [_ Havail].
    rewrite Hrows in Hin. unfold update_where_id in Hin.
    apply in_map_iff in Hin. destruct Hin as [r [Hr _]].
    destruct (Listing.id r =? listing_id) eqn:E.
    + subst l. rewrite Hfalse in Havail. discriminate.
    + subst l. apply Z.eqb_neq in E. contradiction.
  - unfold get_listing, query_listing. rewrite Hrows.
    rewrite find_update_where_id by reflexivity.
    unfold query_listing in Hq. rewrite Hq. simpl.
    rewrite Hid, Z.eqb_refl, Hupdated. reflexivity.
  - rewrite <- Hupdated. apply Hfalse.
Qed.

Lemma unavailable_listing_is_hidden_witness :
  (forall l, In l [] -> Listing.id l <> 1)
  /\ get_listing 1
       (snd (update_listing 50 1 (mkListingUpdateRequest None None None (Some false))
               alice market))
     = Returned (apply_listing_update
                   (mkListingUpdateRequest None None None (Some false)) 50 ticket)
  /\ Listing.is_available
       (apply_listing_update (mkListingUpdateRequest None None None (Some false))
          50 ticket) = false.
Proof.
  apply (unavailable_listing_is_hidden 50 1 1
           (mkListingUpdateRequest None None None (Some false)) alice market
           (snd (update_listing 50 1
                   (mkListingUpdateRequest None None None (Some false))
                   alice market))
           (apply_listing_update
              (mkListingUpdateRequest None None None (Some false)) 50 ticket)
           []).
  - reflexivity.
  - reflexivity.
  - reflexivity.
Defined.

(** ** Messages: what a fetch leaves alone *)

(** X24. Fetching a conversation writes nothing but the read flag of the
    unread messages the counterparty sent to the caller: in a store with
    sound message keys, every other message (of other conversations, sent
    by the caller, or already read) is stored exactly as before, and no
    other table changes. *)
Theorem get_conversation_frame :
  forall (sort : list Message.t -> list Message.t)
         (other_user_id : Z) (actor other_user : User.t) (db : Database),
    messages_pk_ok db = true ->
    query_user other_user_id db = Some other_user ->
    snd (get_conversation sort other_user_id actor db)
    = with_messages
        (map (fun m => if unread_from other_user_id (User.id actor) m
                       then Message.set_is_read true m else m)
           (messages db))
        (messages_id_seq db) db.
Proof.
  intros sort other_user_id actor other_user db Hpk Hother.
  unfold messages_pk_ok in Hpk. apply andb_true_iff in Hpk.
  destruct Hpk as [Hd _].
  unfold get_conversation. rewrite Hother. cbn [snd].
  rewrite flush_is_read_map. f_equal.
  apply map_ext_in. intros m Hm. apply mark_read_selected; assumption.
Qed.

Lemma get_conversation_frame_witness :
  snd (get_conversation oldest_first 2 alice market)
  = with_messages
      (map (fun m => if unread_from 2 (User.id alice) m
                     then Message.set_is_read true m else m)
         (messages market))
      (messages_id_seq market) market.
Proof.
  apply (get_conversation_frame oldest_first 2 alice bob market); reflexivity.
Defined.

(** ** Profiles: what no request assigns *)

Lemma bookkeeping_kept_refl db : bookkeeping_kept db db.
Proof.
  intros uid p Hp. exists p. split; [exact Hp|]. repeat split.
Qed.

Lemma bookkeeping_kept_trans db1 db2 db3 :
  bookkeeping_kept db1 db2 -> bookkeeping_kept db2 db3 ->
  bookkeeping_kept db1 db3.
Proof.
  intros H12 H23 uid p Hp.
  destruct (H12 uid p Hp) as [p2 [Hp2 [A2 [B2 [C2 D2]]]]].
  destruct (H23 uid p2 Hp2) as [p3 [Hp3 [A3 [B3 [C3 D3]]]]].
  exists p3. split; [exact Hp3|].
  unfold same_bookkeeping. repeat split; congruence.
Qed.

Lemma bookkeeping_kept_same db db' :
  user_profiles db' = user_profiles db -> bookkeeping_kept db db'.
Proof.
  intros E uid p Hp. exists p. split; [|repeat split].
  unfold query_profile_of in *. rewrite E. exact Hp.
Qed.

Lemma bookkeeping_kept_update (i s : Z) (f : UserProfile.t -> UserProfile.t)
    (db : Database) :
  (forall p, same_bookkeeping p (f p)) ->
  bookkeeping_kept db
    (with_user_profiles (update_where_id UserProfile.id i f (user_profiles db)) s db).
Proof.
  intros Hf uid p Hp.
  rewrite query_profile_update_where_id by (intros q; apply (Hf q)).
  rewrite Hp. simpl. eexists. split; [reflexivity|].
  destruct (UserProfile.id p =? i); [apply Hf | repeat split].
Qed.

Lemma bookkeeping_kept_insert db db' (extra : list UserProfile.t) :
  user_profiles db' = user_profiles db ++ extra -> bookkeeping_kept db db'.
Proof.
  intros E uid p Hp. exists p. split; [|repeat split].
  unfold query_profile_of in *. rewrite E. apply find_app_some. exact Hp.
Qed.

Ltac bookkeeping_untouched h :=
  apply bookkeeping_kept_same; unfold h; case_on_branches; reflexivity.

Lemma update_seller_rating_bookkeeping now uid db :
  bookkeeping_kept db (update_seller_rating now uid db).
Proof.
  unfold update_seller_rating.
  destruct (query_profile_of uid db); [|apply bookkeeping_kept_refl].
  apply bookkeeping_kept_update. intros p. repeat split.
Qed.

Lemma create_review_bookkeeping now uid request u db :
  bookkeeping_kept db (snd (create_review now uid request u db)).
Proof.
  unfold create_review.
  case_on_branches; cbn [snd]; try apply bookkeeping_kept_refl;
    try (apply bookkeeping_kept_same; reflexivity).
  eapply bookkeeping_kept_trans; [|apply update_seller_rating_bookkeeping].
  apply bookkeeping_kept_same. reflexivity.
Qed.

Lemma update_user_profile_bookkeeping now request u db :
  bookkeeping_kept db (snd (update_user_profile now request u db)).
Proof.
  unfold update_user_profile.
  destruct (query_profile_of (User.id u) db); [|apply bookkeeping_kept_refl].
  cbn [snd]. apply bookkeeping_kept_update. intros p. repeat split.
Qed.

Lemma signup_bookkeeping hash_password create_access_token now request db :
  bookkeeping_kept db
    (snd (signup hash_password create_access_token now request db)).
Proof.
  unfold signup. case_on_branches; cbn [snd]; try apply bookkeeping_kept_refl;
    try (apply bookkeeping_kept_same; reflexivity).
  eapply bookkeeping_kept_insert. cbn. reflexivity.
Qed.

Lemma handle_bookkeeping hash_password create_access_token (c : Call) db :
  bookkeeping_kept db (handle hash_password create_access_token c db).
Proof.
  unfold handle. destruct (call_request c);
    try (apply (authenticated_preserves (bookkeeping_kept db));
         [intros u _ | apply bookkeeping_kept_refl]).
  - apply signup_bookkeeping.
  - apply update_user_profile_bookkeeping.
  - apply create_review_bookkeeping.
  - bookkeeping_untouched upload_seller_proof.
  - bookkeeping_untouched create_listing.
  - bookkeeping_untouched update_listing.
  - bookkeeping_untouched delete_listing.
  - bookkeeping_untouched send_message.
  - bookkeeping_untouched get_conversation.
  - bookkeeping_untouched get_message.
  - bookkeeping_untouched mark_as_read.
  - bookkeeping_untouched delete_message.
Qed.

Lemma run_bookkeeping hash_password create_access_token (trace : list Call) :
  forall db,
    bookkeeping_kept db (run hash_password create_access_token trace db).
Proof.
  induction trace as [|c trace IH]; intros db; simpl.
  - apply bookkeeping_kept_refl.
  - eapply bookkeeping_kept_trans; [apply handle_bookkeeping | apply IH].
Qed.

(** X25. No request ever assigns [total_sales]: whatever requests are
    served, the profile of a user keeps its key, its user, its creation
    time and its sales counter, which therefore stays at the 0 that signup
    stored. *)
Theorem total_sales_never_changes :
  forall (hash_password : string -> string)
         (create_access_token : Z -> Z -> string)
         (trace : list Call) (db : Database) (uid : Z) (p : UserProfile.t),
    query_profile_of uid db = Some p ->
    exists p',
      query_profile_of uid (run hash_password create_access_token trace db)
      = Some p'
      /\ UserProfile.total_sales p' = UserProfile.total_sales p
      /\ UserProfile.id p' = UserProfile.id p
      /\ UserProfile.created_at p' = UserProfile.created_at p.
Proof.
  intros hash_password create_access_token trace db uid p Hp.
  destruct (run_bookkeeping hash_password create_access_token trace db uid p Hp)
    as [p' [Hp' [A [B [C D]]]]].
  exists p'. auto.
Qed.

Lemma total_sales_never_changes_witness :
  exists p',
    query_profile_of 2
      (run (fun s => s) (fun _ _ => "token"%string)
         [mkCall 0 80 oldest_first (CreateReview (Some 1) 2 (mkReviewCreateRequest None 1 None));
          mkCall 0 90 oldest_first (UpdateUserProfile (Some 2)
                         (mkUserProfileUpdateRequest (Some "hello"%string) None))]
         five_stars) = Some p'
    /\ UserProfile.total_sales p' = 0
    /\ UserProfile.id p' = 2
    /\ UserProfile.created_at p' = 0.
Proof.
  apply (total_sales_never_changes (fun s => s) (fun _ _ => "token"%string)
           [mkCall 0 80 oldest_first (CreateReview (Some 1) 2 (mkReviewCreateRequest None 1 None));
            mkCall 0 90 oldest_first (UpdateUserProfile (Some 2)
                           (mkUserProfileUpdateRequest (Some "hello"%string) None))]
           five_stars 2 (UserProfile.mk 2 2 None None 0 true 5 0 70)).
  reflexivity.
Defined.

(** ** Messages: the inbox *)

Lemma counterparties_In (me uid : Z) (rows : list Message.t) :
  In uid (counterparties me rows)
  <-> uid <> me /\ exists m, In m rows /\ between me uid m = true.
Proof.
  unfold counterparties. rewrite in_flat_map. split.
  - intros [m [Hm Hin]]. apply filter_In in Hm. destruct Hm as [Hm Hinv].
    unfold involves in Hinv. unfold between.
    apply in_app_or in Hin.
    destruct (Message.sender_id m =? me) eqn:Es;
      destruct (Message.receiver_id m =? me) eqn:Er;
      simpl in Hin, Hinv; try discriminate;
      destruct Hin as [Hin|Hin]; try contradiction;
      destruct Hin as [Hin|[]]; subst uid.
    + apply Z.eqb_neq in Er. split; [exact Er|]. exists m.
      split; [exact Hm|]. rewrite Es, Z.eqb_refl. reflexivity.
    + apply Z.eqb_neq in Es. split; [exact Es|]. exists m.
      split; [exact Hm|]. rewrite Er, Z.eqb_refl. apply orb_true_r.
  - intros [Hne [m [Hm Hb]]]. exists m. unfold between in Hb.
    apply Z.eqb_neq in Hne.
    apply orb_true_iff in Hb. destruct Hb as [Hb|Hb];
      apply andb_true_iff in Hb; destruct Hb as [H1 H2];
      apply Z.eqb_eq in H1; apply Z.eqb_eq in H2.
    + split.
      * apply filter_In. split; [exact Hm|].
        unfold involves. rewrite H1, Z.eqb_refl. reflexivity.
      * rewrite H1, H2, Z.eqb_refl, Hne. simpl. left. reflexivity.
    + split.
      * apply filter_In. split; [exact Hm|].
        unfold involves. rewrite H2, Z.eqb_refl. apply orb_true_r.
      * rewrite H1, H2, Z.eqb_refl, Hne. simpl. left. reflexivity.
Qed.

Lemma summaries_done (me : Z) (db : Database) (ids : list Z) :
  forallb (fun uid => match query_user uid db with
                      | Some _ => true | None => false end) ids = true ->
  exists conversations,
    summaries me db ids = Done conversations
    /\ map cs_user_id conversations = ids
    /\ Forall (fun c => exists u,
                 query_user (cs_user_id c) db = Some u
                 /\ c = summary_row me db (cs_user_id c) u) conversations.
Proof.
  induction ids as [|i ids IH]; simpl; intros H.
  - exists []. repeat split. constructor.
  - apply andb_true_iff in H. destruct H as [Hi Hids].
    destruct (IH Hids) as [cs [Hcs [Hmap Hall]]].
    destruct (query_user i db) as [u|] eqn:Eu; [|discriminate].
    rewrite Hcs. eexists. split; [reflexivity|]. split.
    + simpl. rewrite Hmap. reflexivity.
    + constructor; [|exact Hall]. exists u. simpl. auto.
Qed.

Lemma summaries_crash (me uid : Z) (db : Database) (ids : list Z) :
  In uid ids -> query_user uid db = None ->
  summaries me db ids = AttributeError.
Proof.
  intros Hin Hnone. induction ids as [|i ids IH]; simpl; [destruct Hin|].
  destruct Hin as [Hin|Hin].
  - subst i. rewrite Hnone. reflexivity.
  - destruct (query_user i db); [|reflexivity].
    rewrite (IH Hin). reflexivity.
Qed.

(** The first row of a descending sort carries the greatest key. *)
Lemma order_by_desc_head {A} (key : A -> Z) (l : list A) (x : A)
    (rest : list A) :
  order_by (desc key) l = x :: rest ->
  In x l /\ forall y, In y l -> key y <= key x.
Proof.
  intros H.
  pose proof (order_by_sorted (desc key) (desc_total key) l) as Hs.
  rewrite H in Hs.
  apply Sorted_StronglySorted in Hs.
  2:{ intros a b c Hab Hbc. unfold desc in *.
      apply Z.leb_le in Hab. apply Z.leb_le in Hbc. apply Z.leb_le. lia. }
  split.
  - apply (order_by_In (desc key)). rewrite H. left. reflexivity.
  - intros y Hy. apply (order_by_In (desc key)) in Hy. rewrite H in Hy.
    destruct Hy as [Hy|Hy]; [subst y; lia|].
    inversion Hs as [|? ? _ Hall]; subst.
    rewrite Forall_forall in Hall. specialize (Hall y Hy).
    unfold desc in Hall. apply Z.leb_le in Hall. exact Hall.
Qed.

Lemma summary_row_facts (me uid : Z) (db : Database) (u : User.t) :
  (exists m, In m (messages db) /\ between me uid m = true) ->
  cs_user_id (summary_row me db uid u) = uid
  /\ cs_unread_count (summary_row me db uid u)
     = Z.of_nat (List.length (filter (unread_from uid me) (messages db)))
  /\ exists last,
       In last (messages db) /\ between me uid last = true
       /\ cs_last_message (summary_row me db uid u) = Message.message_text last
       /\ cs_last_message_time (summary_row me db uid u)
          = Some (Message.created_at last)
       /\ forall m, In m (messages db) -> between me uid m = true ->
            Message.created_at m <= Message.created_at last.
Proof.
  intros [m0 [Hm0 Hb0]]. unfold summary_row.
  split; [reflexivity|]. split; [reflexivity|].
  destruct (order_by (desc Message.created_at)
              (filter (between me uid) (messages db))) as [|last rest] eqn:E.
  - exfalso.
    assert (Hin : In m0 (order_by (desc Message.created_at)
                           (filter (between me uid) (messages db))))
      by (apply order_by_In; apply filter_In; auto).
    rewrite E in Hin. destruct Hin.
  - destruct (order_by_desc_head _ _ _ _ E) as [Hlast Hmax].
    apply filter_In in Hlast. destruct Hlast as [Hlast Hbl].
    exists last. simpl. repeat split; auto.
    intros m Hm Hb. apply Hmax. apply filter_In. auto.
Qed.

Section InboxFacts.

Variable set_iteration : list Z -> list Z.
Hypothesis set_iteration_NoDup : forall l, NoDup (set_iteration l).
Hypothesis set_iteration_In : forall l x, In x (set_iteration l) <-> In x l.

(** X26. The inbox of [get_conversations_list], for any iteration order
    of the set of counterparties.  If every counterparty of the caller's
    messages is a user, the answer has exactly one entry per user the
    caller has exchanged a message with (never the caller, never a user
    without messages); each entry counts the unread messages that user
    sent to the caller and shows text and time of a newest message
    between the two; the entries are ordered newest conversation first.
    If some counterparty is no user, the request ends in an uncaught
    AttributeError. *)
Theorem get_conversations_list_result :
  forall (actor : User.t) (db : Database),
    (parties_exist (User.id actor) db = true ->
       exists conversations,
         get_conversations_list set_iteration actor db = Done conversations
         /\ NoDup (map cs_user_id conversations)
         /\ (forall uid,
               In uid (map cs_user_id conversations)
               <-> uid <> User.id actor
                   /\ exists m, In m (messages db)
                                /\ between (User.id actor) uid m = true)
         /\ (forall c, In c conversations ->
               cs_unread_count c
               = Z.of_nat (List.length
                             (filter (unread_from (cs_user_id c) (User.id actor))
                                (messages db)))
               /\ exists last,
                    In last (messages db)
                    /\ between (User.id actor) (cs_user_id c) last = true
                    /\ cs_last_message c = Message.message_text last
                    /\ cs_last_message_time c = Some (Message.created_at last)
                    /\ forall m, In m (messages db) ->
                         between (User.id actor) (cs_user_id c) m = true ->
                         Message.created_at m <= Message.created_at last)
         /\ Sorted (fun a b => sort_key b <= sort_key a) conversations)
    /\
    (forall uid m,
       uid <> User.id actor ->
       In m (messages db) ->
       between (User.id actor) uid m = true ->
       query_user uid db = None ->
       get_conversations_list set_iteration actor db = AttributeError).
Proof.
  intros actor db. set (me := User.id actor). split.
  - intros Hparties. unfold get_conversations_list. fold me.
    set (ids := set_iteration (counterparties me (messages db))).
    assert (Hids : forallb (fun uid => match query_user uid db with
                                       | Some _ => true | None => false end)
                     ids = true).
    { apply forallb_forall. intros x Hx. unfold ids in Hx.
      apply (proj1 (set_iteration_In _ _)) in Hx.
      unfold parties_exist in Hparties. rewrite forallb_forall in Hparties.
      apply Hparties. exact Hx. }
    destruct (summaries_done me db ids Hids) as [cs [Hcs [Hmap Hall]]].
    rewrite Hcs. eexists. split; [reflexivity|].
    pose proof (order_by_perm (desc sort_key) cs) as Hperm.
    assert (Hmem : forall uid, In uid (map cs_user_id cs)
                     <-> uid <> me
                         /\ exists m, In m (messages db) /\ between me uid m = true).
    { intros uid. rewrite Hmap. unfold ids.
      rewrite set_iteration_In. apply counterparties_In. }
    split; [|split; [|split]].
    + apply (Permutation_NoDup (l := map cs_user_id cs)).
      * apply Permutation_sym. apply Permutation_map. exact Hperm.
      * rewrite Hmap. apply set_iteration_NoDup.
    + intros uid. rewrite <- Hmem. split; apply Permutation_in;
        [apply Permutation_map; exact Hperm
        |apply Permutation_sym; apply Permutation_map; exact Hperm].
    + intros c Hc. apply (proj1 (order_by_In (desc sort_key) c cs)) in Hc.
      rewrite Forall_forall in Hall. destruct (Hall c Hc) as [u [Hu Hrow]].
      assert (Hex : exists m, In m (messages db)
                              /\ between me (cs_user_id c) m = true).
      { apply (Hmem (cs_user_id c)). apply in_map. exact Hc. }
      destruct (summary_row_facts me (cs_user_id c) db u Hex) as [_ [Hcount Hlast]].
      rewrite <- Hrow in Hcount, Hlast. split; [exact Hcount | exact Hlast].
    + eapply Sorted_weaken;
        [|apply (order_by_sorted (desc sort_key) (desc_total sort_key))].
      intros a b Hab. unfold desc in Hab. apply Z.leb_le in Hab. exact Hab.
  - intros uid m Hne Hm Hb Hnone. unfold get_conversations_list. fold me.
    rewrite (summaries_crash me uid db); [reflexivity| |exact Hnone].
    apply (proj2 (set_iteration_In _ _)). apply counterparties_In.
    split; [exact Hne|]. exists m. auto.
Qed.

End InboxFacts.

Lemma get_conversations_list_result_witness :
  exists conversations,
    get_conversations_list (nodup Z.eq_dec) alice market = Done conversations
    /\ NoDup (map cs_user_id conversations)
    /\ (forall c, In c conversations ->
          cs_unread_count c
          = Z.of_nat (List.length
                        (filter (unread_from (cs_user_id c) (User.id alice))
                           (messages market))))
    /\ Sorted (fun a b => sort_key b <= sort_key a) conversations.
Proof.
  destruct (get_conversations_list_result (nodup Z.eq_dec)
              (fun l => NoDup_nodup Z.eq_dec l)
              (fun l x => nodup_In Z.eq_dec l x) alice market) as [Hok _].
  destruct (Hok eq_refl) as [conversations [H1 [H2 [_ [H4 H5]]]]].
  exists conversations. split; [exact H1|]. split; [exact H2|].
  split; [|exact H5]. intros c Hc. apply (H4 c Hc).
Defined.

(** ** Reviews: what a review writes *)

Lemma Forall2_same {A} (R : A -> A -> Prop) (l : list A) :
  (forall x, R x x) -> Forall2 R l l.
Proof. intros H. induction l; constructor; auto. Qed.

(** X27. A successful [create_review] appends exactly the returned review
    (next key of the sequence, the caller as reviewer, the requested
    rating and listing) and otherwise writes only to the profile row of
    the reviewed user: every profile keeps its key, user, bio, picture,
    sales counter and creation time, profile rows with another key are
    identical, and users, listings, messages and seller proofs are
    untouched. *)
Theorem create_review_frame :
  forall (now user_id : Z) (request : ReviewCreateRequest) (actor : User.t)
         (db db' : Database) (review : Review.t),
    create_review now user_id request actor db = (Returned review, db') ->
    review = Review.mk (reviews_id_seq db + 1) (User.id actor) user_id
               (rc_listing_id request) (rc_rating request) (rc_comment request) now
    /\ reviews db' = reviews db ++ [review]
    /\ users db' = users db
    /\ listings db' = listings db
    /\ messages db' = messages db
    /\ seller_proof db' = seller_proof db
    /\ Forall2
         (fun p p' =>
            same_bookkeeping p p'
            /\ UserProfile.bio p' = UserProfile.bio p
            /\ UserProfile.profile_picture_url p'
               = UserProfile.profile_picture_url p
            /\ (query_profile_of user_id db = None -> p' = p)
            /\ (forall profile,
                  query_profile_of user_id db = Some profile ->
                  UserProfile.id p <> UserProfile.id profile -> p' = p))
         (user_profiles db) (user_profiles db').
Proof.
  intros now user_id request actor db db' review H.
  unfold create_review in H.
  destruct (user_id =? User.id actor); [discriminate|].
  destruct ((rc_rating request <? 1) || (5 <? rc_rating request));
    [discriminate|].
  destruct (query_user user_id db); [|discriminate].
  destruct (truthy (rc_listing_id request)
            && negb (fk_listing_ok (rc_listing_id request) db)); [discriminate|].
  destruct (negb (fk_listing_ok (rc_listing_id request) db)); [discriminate|].
  injection H as Hreview Hdb'. subst review db'.
  split; [reflexivity|].
  unfold update_seller_rating.
  change (query_profile_of user_id (with_reviews _ _ db))
    with (query_profile_of user_id db).
  destruct (query_profile_of user_id db) as [profile|] eqn:Hp.
  - cbn [reviews users listings messages seller_proof user_profiles
         with_user_profiles with_reviews].
    repeat (split; [reflexivity|]).
    eapply Forall2_impl; [|apply Forall2_update_where_id].
    intros p p' Hpp. simpl in Hpp. subst p'.
    destruct (UserProfile.id p =? UserProfile.id profile) eqn:E.
    + unfold same_bookkeeping. simpl. repeat split; try discriminate.
      intros profile' Heq Hne. injection Heq as Heq. subst profile'.
      apply Z.eqb_eq in E. contradiction.
    + unfold same_bookkeeping. repeat split.
  - cbn [reviews users listings messages seller_proof user_profiles with_reviews].
    repeat (split; [reflexivity|]).
    apply Forall2_same. intros p. unfold same_bookkeeping. repeat split.
Qed.

Lemma create_review_frame_witness :
  reviews (snd (create_review 50 2 (mkReviewCreateRequest None 4 None)
                  alice reputation))
  = reviews reputation ++ [Review.mk 3 1 2 None 4 None 50]
  /\ users (snd (create_review 50 2 (mkReviewCreateRequest None 4 None)
                   alice reputation))
     = users reputation.
Proof.
  destruct (create_review_frame 50 2 (mkReviewCreateRequest None 4 None) alice
              reputation
              (snd (create_review 50 2 (mkReviewCreateRequest None 4 None)
                      alice reputation))
              (Review.mk 3 1 2 None 4 None 50) eq_refl)
    as [_ [H2 [H3 _]]].
  split; [exact H2 | exact H3].
Defined.
